(** * AliChatbot (src/chatbot.py): a shallow embedding and its properties

    The chatbot keeps one dictionary [self.data] (persisted as JSON in
    memory.json), a bounded [deque] of recent exchanges, and answers one line
    of text per call of [get_response] by trying regular-expression rules in
    a fixed order.

    Conventions of the embedding.
    - Text is [string], the UTF-8 bytes of the Python text: a character
      below 128 is a code point, the others are the bytes of a code point
      from 128 up.  The classes of [Char] and the case conversions are
      those of Python on the code points below 128; the bytes from 128 up
      are in no class and are left alone by case conversion, which is not
      what Python does with every code point from 128 up (it takes a
      no-break space for whitespace and an accented letter for a word
      character, and lowers the upper-case ones).  So what is stated of an
      input through its classes, its trimmed form or its case is stated
      for ASCII input ([Str.is_ascii]).
    - [_save_memory] only prints a failing write.  [json.dump] fails on a
      text that has no UTF-8 form; what is stated of the content of
      memory.json after a write is stated for a store that can be written
      ([Py.encodable]).
    - The values held in [self.data] are JSON values ([json]); a Python
      [dict] is an association list in insertion order.
    - The clock ([datetime.now()]) is an argument [now] of the operations
      that read it, already formatted.
    - A call that raises (or finds [self.data] without the shape that
      [__init__], [_load_or_init_memory] and [reset_memory] give it) is
      [None] in the monad [M]. *)

From Stdlib Require Import String Ascii List Bool Arith ZArith Lia.
From Stdlib Require Import Numbers.DecimalString.
Import ListNotations.
Open Scope list_scope.
Open Scope string_scope.

Set Implicit Arguments.
Set Warnings "-register-all".

(* ------------------------------------------------------------------ *)
(** ** Characters *)

Module Char.

Definition code (c : ascii) : nat := nat_of_ascii c.

Definition between (lo hi : nat) (c : ascii) : bool :=
  ((lo <=? code c) && (code c <=? hi))%nat.

(** [str.isspace] and the class [\s] below 128: TAB..CR, FS..US and the
    space. *)
Definition is_space (c : ascii) : bool := between 9 13 c || between 28 32 c.

Definition is_upper (c : ascii) : bool := between 65 90 c.
Definition is_lower (c : ascii) : bool := between 97 122 c.
Definition is_alpha (c : ascii) : bool := is_upper c || is_lower c.
Definition is_digit (c : ascii) : bool := between 48 57 c.

(** The class [\w] below 128. *)
Definition is_word (c : ascii) : bool :=
  is_alpha c || is_digit c || Ascii.eqb c "_".

Definition lower (c : ascii) : ascii :=
  if is_upper c then ascii_of_nat (code c + 32) else c.

Definition upper (c : ascii) : ascii :=
  if is_lower c then ascii_of_nat (code c - 32) else c.

(** Membership of a character in the characters of a string, as in the
    argument of [rstrip] or a bracket expression. *)
Fixpoint one_of (set : string) (c : ascii) : bool :=
  match set with
  | EmptyString => false
  | String d set' => Ascii.eqb c d || one_of set' c
  end.

(** A code point below 128: the characters on which the classes above are
    those of Python. *)
Definition is_ascii (c : ascii) : bool := (code c <? 128)%nat.

End Char.

(* ------------------------------------------------------------------ *)
(** ** The string methods the chatbot calls *)

Module Str.

Fixpoint map (f : ascii -> ascii) (s : string) : string :=
  match s with
  | EmptyString => EmptyString
  | String c s' => String (f c) (map f s')
  end.

Fixpoint all (p : ascii -> bool) (s : string) : bool :=
  match s with
  | EmptyString => true
  | String c s' => p c && all p s'
  end.

(** [s.lower()] *)
Definition lower (s : string) : string := map Char.lower s.

(** [s.lstrip(...)] for the characters satisfying [p] *)
Fixpoint lstrip_by (p : ascii -> bool) (s : string) : string :=
  match s with
  | EmptyString => EmptyString
  | String c s' => if p c then lstrip_by p s' else s
  end.

(** [s.rstrip(...)] for the characters satisfying [p] *)
Fixpoint rstrip_by (p : ascii -> bool) (s : string) : string :=
  match s with
  | EmptyString => EmptyString
  | String c s' =>
      match rstrip_by p s' with
      | EmptyString => if p c then EmptyString else String c EmptyString
      | t => String c t
      end
  end.

(** [s.strip()] *)
Definition strip (s : string) : string :=
  rstrip_by Char.is_space (lstrip_by Char.is_space s).

(** [s.rstrip(chars)] *)
Definition rstrip (chars : string) (s : string) : string :=
  rstrip_by (Char.one_of chars) s.

(** [s.replace(a, b)] for one-character [a] and [b] *)
Definition replace (a b : ascii) (s : string) : string :=
  map (fun c => if Ascii.eqb c a then b else c) s.

(** [s.title()]: a letter is upper-cased when the character before it is not
    a letter, lower-cased otherwise. *)
Fixpoint title_from (previous_is_cased : bool) (s : string) : string :=
  match s with
  | EmptyString => EmptyString
  | String c s' =>
      String (if previous_is_cased then Char.lower c else Char.upper c)
             (title_from (Char.is_alpha c) s')
  end.

Definition title (s : string) : string := title_from false s.

(** [s.capitalize()] *)
Definition capitalize (s : string) : string :=
  match s with
  | EmptyString => EmptyString
  | String c s' => String (Char.upper c) (lower s')
  end.

(** [needle in hay] *)
Fixpoint contains (needle hay : string) : bool :=
  String.prefix needle hay ||
  match hay with
  | EmptyString => false
  | String _ hay' => contains needle hay'
  end.

(** [len(s.split())]: the number of maximal runs of non-whitespace. *)
Fixpoint count_words_from (in_word : bool) (s : string) : nat :=
  match s with
  | EmptyString => 0
  | String c s' =>
      if Char.is_space c then count_words_from false s'
      else (if in_word then 0 else 1) + count_words_from true s'
  end.

Definition count_words (s : string) : nat := count_words_from false s.

(** The first [n] characters. *)
Fixpoint take (n : nat) (s : string) : string :=
  match n, s with
  | S n', String c s' => String c (take n' s')
  | _, _ => EmptyString
  end.

(** [s.isascii()] *)
Definition is_ascii (s : string) : bool := all Char.is_ascii s.

(** A byte that continues a UTF-8 sequence. *)
Definition continues (c : ascii) : bool := Char.between 128 191 c.

(** Whether the bytes are the UTF-8 form of a text, that is whether
    [s.encode("utf-8")] succeeds on the text they stand for: a surrogate
    (bytes ED A0..BF ..) has no such form. *)
Fixpoint utf8 (s : string) : bool :=
  match s with
  | EmptyString => true
  | String c s1 =>
      if Char.is_ascii c then utf8 s1
      else
        match s1 with
        | EmptyString => false
        | String c1 s2 =>
            if Char.between 194 223 c then continues c1 && utf8 s2
            else
              match s2 with
              | EmptyString => false
              | String c2 s3 =>
                  if Char.between 224 239 c
                  then (if Ascii.eqb c (ascii_of_nat 224) then Char.between 160 191 c1
                        else if Ascii.eqb c (ascii_of_nat 237) then Char.between 128 159 c1
                        else continues c1)
                       && continues c2 && utf8 s3
                  else
                    match s3 with
                    | EmptyString => false
                    | String c3 s4 =>
                        Char.between 240 244 c
                        && (if Ascii.eqb c (ascii_of_nat 240) then Char.between 144 191 c1
                            else if Ascii.eqb c (ascii_of_nat 244) then Char.between 128 143 c1
                            else continues c1)
                        && continues c2 && continues c3 && utf8 s4
                    end
              end
        end
  end.

End Str.

(* ------------------------------------------------------------------ *)
(** ** Regular expressions ([re.match], [re.search], [re.sub])

    A backtracking matcher with the priorities of Python's [re]: an
    alternation tries its branches left to right, a greedy repetition tries
    one more iteration before trying to stop, a lazy one the other way
    round.  Every pattern of the chatbot is compiled with [re.IGNORECASE];
    the flag is built into [lit] (and the bracket expressions of the
    patterns that name letters list both cases, or are written here through
    [Char.is_alpha]). *)

Module Re.

Inductive regex : Type :=
| Eps                                   (* the empty pattern *)
| Chr (p : ascii -> bool)               (* one character of a class *)
| Seq (r1 r2 : regex)                   (* r1 r2 *)
| Alt (r1 r2 : regex)                   (* r1|r2 *)
| Star (greedy : bool) (r : regex)      (* r* and r*? *)
| Grp (i : nat) (r : regex)             (* capturing group number i *)
| Wordb                                 (* \b *)
| Bos.                                  (* ^ (no MULTILINE) *)

(** [r+], [r+?], [r?] and [r{1,3}] *)
Definition Plus (greedy : bool) (r : regex) : regex := Seq r (Star greedy r).
Definition Opt (r : regex) : regex := Alt r Eps.
Definition Rep1to3 (r : regex) : regex := Seq r (Opt (Seq r (Opt r))).

(** A literal character under IGNORECASE. *)
Definition ci (c : ascii) : regex :=
  Chr (fun x => Ascii.eqb (Char.lower x) (Char.lower c)).

(** A literal string under IGNORECASE. *)
Fixpoint lit (s : string) : regex :=
  match s with
  | EmptyString => Eps
  | String c s' => Seq (ci c) (lit s')
  end.

(** [r1|r2|...] *)
Fixpoint alts (rs : list regex) : regex :=
  match rs with
  | [] => Chr (fun _ => false)
  | [r] => r
  | r :: rs' => Alt r (alts rs')
  end.

(** [r1 r2 ...] *)
Fixpoint seqs (rs : list regex) : regex :=
  match rs with
  | [] => Eps
  | [r] => r
  | r :: rs' => Seq r (seqs rs')
  end.

(** [.], [\s], [\d], [\w] *)
Definition dot : regex := Chr (fun c => negb (Ascii.eqb c "010")).
Definition ws : regex := Chr Char.is_space.
Definition digit : regex := Chr Char.is_digit.
Definition word : regex := Chr Char.is_word.

(** A position in the subject: the character on its left (if any), what is
    left to read, and the groups closed so far (most recent first). *)
Record mstate : Type := MState {
  before : option ascii;
  rest : string;
  groups : list (nat * string)
}.

Definition start (s : string) : mstate := MState None s [].

Definition step (c : ascii) (s' : string) (st : mstate) : mstate :=
  MState (Some c) s' (groups st).

(** The text read between two positions of one run. *)
Definition taken (st st1 : mstate) : string :=
  Str.take (String.length (rest st) - String.length (rest st1)) (rest st).

Definition close_group (i : nat) (st st1 : mstate) : mstate :=
  MState (before st1) (rest st1) ((i, taken st st1) :: groups st1).

Definition word_before (st : mstate) : bool :=
  match before st with Some c => Char.is_word c | None => false end.

Definition word_after (st : mstate) : bool :=
  match rest st with String c _ => Char.is_word c | EmptyString => false end.

(** A repetition of [body], with at most [n] iterations: a greedy one tries
    one more iteration before trying to stop, a lazy one the other way
    round.  An iteration must read at least one character (no pattern of
    the chatbot repeats a pattern that can match the empty string), so the
    length of what is left bounds the number of iterations. *)
Fixpoint star_loop (greedy : bool)
  (body : mstate -> (mstate -> option mstate) -> option mstate)
  (k : mstate -> option mstate) (n : nat) (st : mstate) {struct n}
  : option mstate :=
  match n with
  | O => k st
  | S n' =>
      let more :=
        body st (fun st1 =>
          if (String.length (rest st1) <? String.length (rest st))%nat
          then star_loop greedy body k n' st1 else None) in
      if greedy
      then match more with Some m => Some m | None => k st end
      else match k st with Some m => Some m | None => more end
  end.

(** [rmatch r st k]: match [r] at [st], then go on with [k]; the first
    success in priority order. *)
Fixpoint rmatch (r : regex) (st : mstate) (k : mstate -> option mstate)
  {struct r} : option mstate :=
  match r with
  | Eps => k st
  | Chr p =>
      match rest st with
      | String c s' => if p c then k (step c s' st) else None
      | EmptyString => None
      end
  | Seq r1 r2 => rmatch r1 st (fun st1 => rmatch r2 st1 k)
  | Alt r1 r2 =>
      match rmatch r1 st k with
      | Some m => Some m
      | None => rmatch r2 st k
      end
  | Star greedy r1 =>
      star_loop greedy (rmatch r1) k (String.length (rest st)) st
  | Grp i r1 => rmatch r1 st (fun st1 => k (close_group i st st1))
  | Wordb => if xorb (word_before st) (word_after st) then k st else None
  | Bos => match before st with None => k st | Some _ => None end
  end.

(** [re.match(r, s)] *)
Definition re_match (r : regex) (s : string) : option mstate :=
  rmatch r (start s) Some.

(** [re.search(r, s)]: the leftmost position where [r] matches. *)
Fixpoint search_at (r : regex) (b : option ascii) (s : string) : option mstate :=
  match rmatch r (MState b s []) Some with
  | Some m => Some m
  | None =>
      match s with
      | EmptyString => None
      | String c s' => search_at r (Some c) s'
      end
  end.

Definition re_search (r : regex) (s : string) : option mstate :=
  search_at r None s.

(** [m.group(i)] (every group of the chatbot's patterns takes part in every
    match of its pattern). *)
Fixpoint lookup_group (i : nat) (gs : list (nat * string)) : string :=
  match gs with
  | [] => EmptyString
  | (j, s) :: gs' => if Nat.eqb i j then s else lookup_group i gs'
  end.

Definition group (i : nat) (m : mstate) : string := lookup_group i (groups m).

(** [re.sub(r, "", s)] for a pattern anchored by [^]: only a match at the
    start can be removed. *)
Definition sub_prefix (r : regex) (s : string) : string :=
  match re_match r s with
  | Some m => rest m
  | None => s
  end.

End Re.

(* ------------------------------------------------------------------ *)
(** ** JSON values and Python dictionaries *)

(** What [json.load] returns and [json.dump] writes.  A float is kept as the
    two things the chatbot can observe of it: how it prints and whether it
    is zero. *)
Inductive json : Type :=
| JNull
| JBool (b : bool)
| JInt (z : Z)
| JFloat (shown : string) (is_zero : bool)
| JStr (s : string)
| JArr (l : list json)
| JObj (o : list (string * json)).

(** A [dict] with string keys, in insertion order. *)
Definition dict : Type := list (string * json).

Module Dict.

(** [d.get(k)] *)
Fixpoint get (k : string) (d : dict) : option json :=
  match d with
  | [] => None
  | (k', v) :: d' => if String.eqb k k' then Some v else get k d'
  end.

(** [k in d] *)
Definition has (k : string) (d : dict) : bool :=
  match get k d with Some _ => true | None => false end.

(** [d.get(k)] where a missing key gives the value [None] *)
Definition get_or_null (k : string) (d : dict) : json :=
  match get k d with Some v => v | None => JNull end.

(** [d[k] = v]: an existing key keeps its place, a new one goes last. *)
Fixpoint set (k : string) (v : json) (d : dict) : dict :=
  match d with
  | [] => [(k, v)]
  | (k', v') :: d' =>
      if String.eqb k k' then (k, v) :: d' else (k', v') :: set k v d'
  end.

(** [d.keys()] *)
Definition keys (d : dict) : list string := List.map fst d.

(** [d.update(e)] *)
Definition update (d e : dict) : dict :=
  fold_left (fun acc kv => set (fst kv) (snd kv) acc) e d.

End Dict.

Module Py.

(** Truth value of a value in [if v:] and [v or w]. *)
Definition truthy (v : json) : bool :=
  match v with
  | JNull => false
  | JBool b => b
  | JInt z => negb (Z.eqb z 0)
  | JFloat _ is_zero => negb is_zero
  | JStr s => negb (String.eqb s "")
  | JArr l => match l with [] => false | _ => true end
  | JObj o => match o with [] => false | _ => true end
  end.

(** [isinstance(x, type(y))]; [bool] is a subclass of [int]. *)
Definition isinstance_type_of (x y : json) : bool :=
  match y, x with
  | JNull, JNull => true
  | JBool _, JBool _ => true
  | JInt _, JInt _ => true
  | JInt _, JBool _ => true
  | JFloat _ _, JFloat _ _ => true
  | JStr _, JStr _ => true
  | JArr _, JArr _ => true
  | JObj _, JObj _ => true
  | _, _ => false
  end.

Definition is_dict (v : json) : bool :=
  match v with JObj _ => true | _ => false end.

Definition is_list (v : json) : bool :=
  match v with JArr _ => true | _ => false end.

Definition quote2 : ascii := ascii_of_nat 34.
Definition quote1 : ascii := "'"%char.
Definition backslash : ascii := ascii_of_nat 92.

Definition hex_digit (n : nat) : ascii :=
  ascii_of_nat (if (n <? 10)%nat then 48 + n else 87 + n).

(** One character inside [repr] of a string delimited by [q]. *)
Definition repr_char (q c : ascii) : string :=
  let one x := String x EmptyString in
  if Ascii.eqb c q || Ascii.eqb c backslash then String backslash (one c)
  else if Ascii.eqb c "009" then String backslash "t"
  else if Ascii.eqb c "010" then String backslash "n"
  else if Ascii.eqb c "013" then String backslash "r"
  else if (Char.code c <? 32)%nat || (Char.code c =? 127)%nat
       then String backslash
              (String "x" (String (hex_digit (Char.code c / 16))
                                  (one (hex_digit (Char.code c mod 16)))))
  else one c.

Fixpoint repr_chars (q : ascii) (s : string) : string :=
  match s with
  | EmptyString => EmptyString
  | String c s' => repr_char q c ++ repr_chars q s'
  end.

(** [repr(s)] of a string: single quotes unless the string has a single
    quote and no double quote. *)
Definition repr_str (s : string) : string :=
  let q := if Char.one_of s quote1 && negb (Char.one_of s quote2)
           then quote2 else quote1 in
  String q (repr_chars q s ++ String q EmptyString).

Definition str_of_Z (z : Z) : string := NilEmpty.string_of_int (Z.to_int z).

(** [repr(v)] *)
Fixpoint repr (v : json) : string :=
  match v with
  | JNull => "None"
  | JBool b => if b then "True" else "False"
  | JInt z => str_of_Z z
  | JFloat shown _ => shown
  | JStr s => repr_str s
  | JArr l =>
      "[" ++ (fix items (l : list json) : string :=
                match l with
                | [] => ""
                | x :: l' =>
                    match l' with
                    | [] => repr x
                    | _ :: _ => repr x ++ ", " ++ items l'
                    end
                end) l ++ "]"
  | JObj o =>
      "{" ++ (fix items (o : list (string * json)) : string :=
                match o with
                | [] => ""
                | (k, x) :: o' =>
                    match o' with
                    | [] => repr_str k ++ ": " ++ repr x
                    | _ :: _ => repr_str k ++ ": " ++ repr x ++ ", " ++ items o'
                    end
                end) o ++ "}"
  end.

(** [str(v)], what an f-string shows of [v]. *)
Definition str (v : json) : string :=
  match v with
  | JStr s => s
  | _ => repr v
  end.

(** Whether [json.dump(v, f, ensure_ascii=False)] to a file opened with
    [encoding="utf-8"] can write [v]: every string in it, keys included,
    must have a UTF-8 form. *)
Fixpoint encodable (v : json) : bool :=
  match v with
  | JStr s => Str.utf8 s
  | JArr l => forallb encodable l
  | JObj o => forallb (fun kv => Str.utf8 (fst kv) && encodable (snd kv)) o
  | _ => true
  end.

End Py.

(* ------------------------------------------------------------------ *)
(** ** The chatbot object *)

(** One logged exchange: the dictionary [{"user": .., "ai": .., "time": ..}]
    built by [_remember_conversation].  The reply is a JSON value because
    one path of [get_response] returns a Knowledge Base value as it is. *)
Record exchange : Type := Exchange {
  ex_user : string;
  ex_ai : json;
  ex_time : string
}.

Definition exchange_json (e : exchange) : json :=
  JObj [("user", JStr (ex_user e)); ("ai", ex_ai e); ("time", JStr (ex_time e))].

(** The content of memory.json. *)
Inductive file_state : Type :=
| Missing                       (* no file *)
| Unparsable                    (* [json.load] raises *)
| Parsed (raw : json).

(** The optional sentence-transformers / faiss stack, seen from outside:
    whether encoding a list of texts succeeds, and what [_semantic_search]
    returns over an index of texts ([None] when it raises). *)
Record embedder : Type := Embedder {
  encodes : list json -> bool;
  semantic_search : list json -> string -> option (list json)
}.

(** [self]: [embedding_model] is [None] when the optional imports failed
    ([HAS_EMBED] false) or the model could not be built; [faiss_index] holds
    the indexed texts. *)
Record AliChatbot : Type := Bot {
  data : dict;
  context : list exchange;
  ctx_size : nat;
  memory_file : file_state;
  embedding_model : option embedder;
  faiss_index : option (list json)
}.

Definition set_data (d : dict) (b : AliChatbot) : AliChatbot :=
  Bot d (context b) (ctx_size b) (memory_file b) (embedding_model b) (faiss_index b).

Definition set_context (c : list exchange) (b : AliChatbot) : AliChatbot :=
  Bot (data b) c (ctx_size b) (memory_file b) (embedding_model b) (faiss_index b).

Definition set_file (f : file_state) (b : AliChatbot) : AliChatbot :=
  Bot (data b) (context b) (ctx_size b) f (embedding_model b) (faiss_index b).

Definition set_embedding (e : option embedder) (b : AliChatbot) : AliChatbot :=
  Bot (data b) (context b) (ctx_size b) (memory_file b) e (faiss_index b).

Definition set_index (i : option (list json)) (b : AliChatbot) : AliChatbot :=
  Bot (data b) (context b) (ctx_size b) (memory_file b) (embedding_model b) i.

(** *** Methods as state transformers that may raise *)

Definition M (A : Type) : Type := AliChatbot -> option (A * AliChatbot).

Definition ret {A} (a : A) : M A := fun b => Some (a, b).

Definition bind {A B} (m : M A) (f : A -> M B) : M B :=
  fun b => match m b with
           | Some (a, b') => f a b'
           | None => None
           end.

Definition raise {A} : M A := fun _ => None.

Definition self : M AliChatbot := fun b => Some (b, b).

Definition modify (f : AliChatbot -> AliChatbot) : M unit :=
  fun b => Some (tt, f b).

(** Lifting a lookup that raises. *)
Definition lift {A} (o : option A) : M A :=
  match o with Some a => ret a | None => raise end.

Declare Scope bot_scope.
Delimit Scope bot_scope with bot.
Notation "x <- m ;; k" := (bind m (fun x => k))
  (at level 61, m at next level, right associativity) : bot_scope.
Notation "m ;; k" := (bind m (fun _ => k))
  (at level 61, right associativity) : bot_scope.
Open Scope bot_scope.

(** [for x in l: body x] *)
Fixpoint for_each {A} (l : list A) (body : A -> M unit) : M unit :=
  match l with
  | [] => ret tt
  | x :: l' => body x ;; for_each l' body
  end.

(** *** Reading and writing [self.data] *)

(** [self.data.get(k, {})] used as a mapping. *)
Definition get_map (k : string) (d : dict) : option dict :=
  match Dict.get k d with
  | None => Some []
  | Some (JObj o) => Some o
  | Some _ => None
  end.

(** [self.data.get("conversations", [])] used as a list. *)
Definition get_list (k : string) (d : dict) : option (list json) :=
  match Dict.get k d with
  | None => Some []
  | Some (JArr l) => Some l
  | Some _ => None
  end.

(** [self.data[k][k2] = v] *)
Definition store_in (k k2 : string) (v : json) (d : dict) : option dict :=
  match Dict.get k d with
  | Some (JObj o) => Some (Dict.set k (JObj (Dict.set k2 v o)) d)
  | _ => None
  end.

(** [if k not in self.data: self.data[k] = v] *)
Definition setdefault (k : string) (v : json) (d : dict) : dict :=
  if Dict.has k d then d else Dict.set k v d.

(** [self.data[k].append(v)] *)
Definition append_in (k : string) (v : json) (d : dict) : option dict :=
  match Dict.get k d with
  | Some (JArr l) => Some (Dict.set k (JArr (l ++ [v])%list) d)
  | _ => None
  end.

Definition update_data (f : dict -> option dict) : M unit :=
  b <- self ;; d <- lift (f (data b)) ;; modify (set_data d).

(* ------------------------------------------------------------------ *)
(** ** Memory: defaults, save, load, reset, seeding *)

(** The dictionary literal of [__init__] and [reset_memory]; they differ in
    [meta.created_at] only. *)
Definition default_data (created_at : json) : dict :=
  [ ("user_name", JNull);
    ("country", JNull);
    ("city", JNull);
    ("language", JNull);
    ("facts", JObj []);
    ("relationships", JObj []);
    ("conversations", JArr []);
    ("flexipdf_knowledge", JObj []);
    ("meta", JObj [("created_at", created_at)]) ].

(** [_save_memory]: memory.json becomes the dump of [self.data].  A failing
    write is only printed by the source: it leaves a fragment of the dump
    when a text of the store has no UTF-8 form (see [Py.encodable]); the
    write modelled here is the one that goes through. *)
Definition _save_memory : M unit :=
  modify (fun b => set_file (Parsed (JObj (data b))) b).

(** The body of the loop [for k in self.data.keys()] of
    [_load_or_init_memory]. *)
Definition adopt_key (raw : dict) (d : dict) (k : string) : dict :=
  match Dict.get k raw, Dict.get k d with
  | Some v, Some dv =>
      if Py.isinstance_type_of v dv then Dict.set k v d
      else if String.eqb k "conversations" && Py.is_list v then Dict.set k v d
      else d
  | _, _ => d
  end.

(** [if "meta" in raw and isinstance(raw["meta"], dict):
       self.data["meta"].update(raw["meta"])] *)
Definition merge_meta (raw : dict) (d : dict) : option dict :=
  match Dict.get "meta" raw with
  | Some (JObj rm) =>
      match Dict.get "meta" d with
      | Some (JObj m) => Some (Dict.set "meta" (JObj (Dict.update m rm)) d)
      | _ => None
      end
  | _ => Some d
  end.

Definition _load_or_init_memory (now : string) : M unit :=
  b <- self ;;
  match memory_file b with
  | Parsed raw =>
      match raw with
      | JObj o =>
          modify (set_data (fold_left (adopt_key o) (Dict.keys (data b)) (data b))) ;;
          update_data (merge_meta o)
      | JArr _ => modify (set_data (Dict.set "conversations" raw (data b)))
      | _ => modify (set_data (Dict.set "conversations" (JArr []) (data b)))
      end
  | Unparsable =>
      modify (set_data (Dict.set "conversations" (JArr []) (data b))) ;;
      _save_memory
  | Missing =>
      update_data (store_in "meta" "created_at" (JStr now)) ;;
      _save_memory
  end.

(** The texts indexed by [_build_faiss_index]:
    [[c.get("user", "") for c in conversations if c.get("user")]];
    [c.get] raises on an entry that is not a dictionary. *)
Fixpoint user_texts (cs : list json) : option (list json) :=
  match cs with
  | [] => Some []
  | JObj c :: cs' =>
      match user_texts cs' with
      | None => None
      | Some ts =>
          match Dict.get "user" c with
          | Some u => Some (if Py.truthy u then u :: ts else ts)
          | None => Some ts
          end
      end
  | _ :: _ => None
  end.

Definition _build_faiss_index : M unit :=
  b <- self ;;
  match embedding_model b with
  | None => modify (set_index None)
  | Some em =>
      cs <- lift (get_list "conversations" (data b)) ;;
      texts <- lift (user_texts cs) ;;
      match texts with
      | [] => modify (set_index None)
      | _ :: _ =>
          if encodes em texts then modify (set_index (Some texts))
          else modify (set_index None)
      end
  end.

(** [reset_memory] *)
Definition reset_message : string := "Memory reset — fresh start ✨".

Definition reset_memory (now : string) : M string :=
  modify (set_data (default_data (JStr now))) ;;
  modify (set_context []) ;;
  _save_memory ;;
  b <- self ;;
  match embedding_model b with
  | Some _ => _build_faiss_index
  | None => ret tt
  end ;;
  ret reset_message.

(** The [defaults] of [_seed_flexipdf_knowledge]. *)
Definition seed_defaults : list (string * string) :=
  [ ("pdf_to_word", "Convert PDF files into editable Word (.docx) documents.");
    ("word_to_pdf", "Convert Word (.docx) files into clean, printable PDF files.");
    ("pdf_to_image", "Export pages of a PDF into high-quality image files (PNG/JPG).");
    ("images_to_pdf", "Merge multiple images into a single PDF document.");
    ("merge_pdfs", "Combine multiple PDF files into a single PDF.");
    ("split_pdf", "Split a PDF into multiple smaller PDF files by page ranges.");
    ("compress_pdf", "Reduce PDF file size while keeping acceptable quality.");
    ("ocr_pdf", "(If available) Use OCR to recognize text inside scanned PDF pages.");
    ("ai_assistant", "I’m Ali — the built-in AI assistant that helps with FlexiPDF tasks and answers questions.") ].

Definition _seed_flexipdf_knowledge : M unit :=
  for_each seed_defaults (fun kv =>
    b <- self ;;
    kb <- lift (get_map "flexipdf_knowledge" (data b)) ;;
    if Dict.has (fst kv) kb then ret tt
    else update_data (store_in "flexipdf_knowledge" (fst kv) (JStr (snd kv)))) ;;
  _save_memory.

(** [try: ... self._build_faiss_index() except Exception: ...] of [__init__]:
    a failure drops the embedding model. *)
Definition try_build_index : M unit :=
  fun b =>
    match _build_faiss_index b with
    | Some r => Some r
    | None => Some (tt, set_index None (set_embedding None b))
    end.

(** [AliChatbot.__init__] from the default data on, that is once its first
    two statements ([os.makedirs] and [deque(maxlen=ctx_size)], which may
    raise: see [construct] below) have gone through with a capacity [size];
    given what is in the file, the embedding model if it could be loaded,
    and the clock. *)
Definition __init__ (file : file_state) (size : nat)
  (model : option embedder) (now : string) : option AliChatbot :=
  let b0 := Bot (default_data JNull) [] size file None None in
  match (_load_or_init_memory now ;;
         match model with
         | Some em => modify (set_embedding (Some em)) ;; try_build_index
         | None => ret tt
         end ;;
         _seed_flexipdf_knowledge) b0 with
  | Some (_, b) => Some b
  | None => None
  end.




(* ------------------------------------------------------------------ *)
(** ** The context buffer and conversation logging *)

(** [deque(maxlen=n).append(x)] *)
Definition deque_append {A} (maxlen : nat) (d : list A) (x : A) : list A :=
  if (maxlen =? 0)%nat then d
  else if (List.length d <? maxlen)%nat then (d ++ [x])%list
  else (List.tl d ++ [x])%list.

(** [_remember_conversation(user_text, ai_text)] *)
Definition _remember_conversation (now : string) (user_text : string)
  (ai_text : json) : M unit :=
  let entry := Exchange user_text ai_text now in
  modify (fun b => set_data (setdefault "conversations" (JArr []) (data b)) b) ;;
  update_data (append_in "conversations" (exchange_json entry)) ;;
  modify (fun b => set_context (deque_append (ctx_size b) (context b) entry) b) ;;
  _save_memory ;;
  b <- self ;;
  match embedding_model b with
  | Some _ => _build_faiss_index
  | None => ret tt
  end.

(* ------------------------------------------------------------------ *)
(** ** Extractors *)

Import Re.

(** Bracket expressions of the patterns. *)
Definition name_chars : regex :=                       (* [A-Za-z\s'\-] *)
  Chr (fun c => Char.is_alpha c || Char.is_space c || Char.one_of "'-" c).
Definition place_chars : regex :=                      (* [A-Za-z\s] *)
  Chr (fun c => Char.is_alpha c || Char.is_space c).
Definition none_of (set : string) : regex :=           (* [^...] *)
  Chr (fun c => negb (Char.one_of set c)).

(** [\b<prefix>\s+(<class>+)] *)
Definition told (prefix : regex) (class : regex) : regex :=
  seqs [Wordb; prefix; Plus true ws; Grp 1 (Plus true class)].

(** The list [patterns] of [_learn_structured_fact]. *)
Definition patterns : list (regex * string) :=
  [ (told (lit "my name is") name_chars, "user_name");
    (told (lit "i am called") name_chars, "user_name");
    (told (lit "i'm called") name_chars, "user_name");
    (told (lit "my country is") place_chars, "country");
    (told (lit "i am from") place_chars, "country");
    (told (lit "from") place_chars, "country");
    (told (lit "my city is") place_chars, "city");
    (told (lit "i live in") place_chars, "city");
    (told (lit "my favorite color is") place_chars, "favorite_color");
    (told (lit "my hobby is") place_chars, "hobby");
    (told (lit "i like") place_chars, "likes");
    (seqs [Wordb; lit "my age is"; Plus true ws; Grp 1 (Rep1to3 digit)], "age") ].

(** The dictionary [rel_patterns]. *)
Definition rel_patterns : list (regex * string) :=
  let named (role : string) :=
    told (seqs [lit "my "; lit role; lit " "; Opt (lit "name "); lit "is"]) name_chars in
  [ (told (lit "my friend is") name_chars, "friend");
    (told (lit "my best friend is") name_chars, "best_friend");
    (told (lit "my girlfriend is") name_chars, "girlfriend");
    (told (lit "my boyfriend is") name_chars, "boyfriend");
    (told (lit "my teacher is") name_chars, "teacher");
    (named "mother", "mother");
    (named "father", "father");
    (named "sister", "sister");
    (named "brother", "brother");
    (told (lit "my crush is") name_chars, "crush") ].

(** [for pattern, key in ...: m = re.search(pattern, text); if m: ...]:
    the first rule that matches, with its match. *)
Fixpoint first_match (rules : list (regex * string)) (text : string)
  : option (string * mstate) :=
  match rules with
  | [] => None
  | (pattern, key) :: rules' =>
      match re_search pattern text with
      | Some m => Some (key, m)
      | None => first_match rules' text
      end
  end.

(** [key.replace('_', ' ')] *)
Definition spaced (key : string) : string := Str.replace "_" " " key.

(** [key in ["girlfriend", "boyfriend", "crush"]] *)
Definition is_romantic (key : string) : bool :=
  String.eqb key "girlfriend" || String.eqb key "boyfriend" || String.eqb key "crush".

Definition heart (key : string) : string :=
  if is_romantic key then "💞" else "🤝".

(** The confirmation of a structured fact. *)
Definition structured_reply (key stored : string) : string :=
  if String.eqb key "user_name"
  then "Nice to meet you, " ++ stored ++ "! 💫 I'll remember your name."
  else if String.eqb key "country"
  then "Oh nice! 🌍 " ++ stored ++ " — I'll remember that."
  else if String.eqb key "city"
  then stored ++ " sounds like a lovely city 🏙️ — got it!"
  else "Got it! I’ve learned that your " ++ spaced key ++ " is " ++ stored ++ " 🧠".

(** [m.group(1).strip().rstrip(".!?")] *)
Definition captured (i : nat) (m : mstate) : string :=
  Str.rstrip ".!?" (Str.strip (group i m)).

Definition _learn_structured_fact (text : string) : M (option string) :=
  match first_match patterns text with
  | Some (key, m) =>
      let val := captured 1 m in
      let stored := if String.eqb key "user_name"
                    then Str.title val else Str.capitalize val in
      modify (fun b => set_data (Dict.set key (JStr stored) (data b)) b) ;;
      _save_memory ;;
      ret (Some (structured_reply key stored))
  | None =>
      match first_match rel_patterns text with
      | Some (key, m) =>
          let val := Str.title (captured 1 m) in
          modify (fun b => set_data (setdefault "relationships" (JObj []) (data b)) b) ;;
          update_data (store_in "relationships" key (JStr val)) ;;
          _save_memory ;;
          ret (Some ("Nice — I’ve learned your " ++ spaced key ++ " is "
                     ++ val ++ " " ++ heart key))
      | None => ret None
      end
  end.

(** [\s*(what|who|why|how)\b] *)
Definition question_guard : regex :=
  seqs [Star true ws;
        Grp 1 (alts [lit "what"; lit "who"; lit "why"; lit "how"]);
        Wordb].

(** [\s*([^?.!]+?)\s+is\s+(.+)] *)
Definition fact_pattern : regex :=
  seqs [Star true ws; Grp 1 (Plus false (none_of "?.!"));
        Plus true ws; lit "is"; Plus true ws; Grp 2 (Plus true dot)].

Definition _learn_fact_statement (text : string) : M (option string) :=
  match re_match question_guard text with
  | Some _ => ret None
  | None =>
      match re_match fact_pattern text with
      | Some m =>
          let subject := Str.lower (captured 1 m) in
          let meaning := captured 2 m in
          if (String.length subject <? 2)%nat || (String.length meaning <? 1)%nat
          then ret None
          else
            update_data (store_in "facts" subject (JStr meaning)) ;;
            _save_memory ;;
            ret (Some ("Got it! I’ve learned that **" ++ subject ++ "** is **"
                       ++ meaning ++ "** 🧠"))
      | None => ret None
      end
  end.

(** [ali learn\s+'([^']+)'\s+means\s+(.+)] *)
Definition learn_pattern : regex :=
  seqs [lit "ali learn"; Plus true ws; lit "'"; Grp 1 (Plus true (none_of "'"));
        lit "'"; Plus true ws; lit "means"; Plus true ws; Grp 2 (Plus true dot)].

(** [teach ali about\s+'?([^:']+)'?:\s*(.+)] *)
Definition teach_pattern : regex :=
  seqs [lit "teach ali about"; Plus true ws; Opt (lit "'");
        Grp 1 (Plus true (none_of ":'")); Opt (lit "'"); lit ":";
        Star true ws; Grp 2 (Plus true dot)].

(** [m.group(1).strip().lower().replace(" ", "_")] *)
Definition topic_key (m : mstate) : string :=
  Str.replace " " "_" (Str.lower (Str.strip (group 1 m))).

Definition teach (key explanation : string) : M unit :=
  modify (fun b => set_data (setdefault "flexipdf_knowledge" (JObj []) (data b)) b) ;;
  update_data (store_in "flexipdf_knowledge" key (JStr explanation)) ;;
  _save_memory.

Definition _learn_flexipdf_knowledge (text : string) : M (option string) :=
  match re_search learn_pattern text with
  | Some m =>
      let key := topic_key m in
      let explanation := captured 2 m in
      teach key explanation ;;
      ret (Some ("Nice! I learned that **" ++ spaced key ++ "** means: "
                 ++ explanation ++ " ✅"))
  | None =>
      match re_search teach_pattern text with
      | Some m2 =>
          let key := topic_key m2 in
          let explanation := captured 2 m2 in
          teach key explanation ;;
          ret (Some ("Thanks — I learned about **" ++ spaced key ++ "**: "
                     ++ explanation ++ " ✅"))
      | None => ret None
      end
  end.

(* ------------------------------------------------------------------ *)
(** ** Query resolvers

    They only read [self]; the outer [option] is [None] when the call
    raises, the inner one is the method's [Optional[str]]. *)

(** [\s*(what is|who is|define)\s+(.+)\??] *)
Definition fact_query_pattern : regex :=
  seqs [Star true ws; Grp 1 (alts [lit "what is"; lit "who is"; lit "define"]);
        Plus true ws; Grp 2 (Plus true dot); Opt (lit "?")].

(** [^(the|a|an)\s+] *)
Definition article_pattern : regex :=
  seqs [Bos; Grp 1 (alts [lit "the"; lit "a"; lit "an"]); Plus true ws].

Definition _answer_fact_query (b : AliChatbot) (text : string)
  : option (option string) :=
  match re_match fact_query_pattern text with
  | Some m =>
      let term := Str.lower (captured 2 m) in
      match get_map "facts" (data b), get_map "flexipdf_knowledge" (data b) with
      | Some facts, Some kb =>
          match Dict.get term facts with
          | Some v => Some (Some (Str.capitalize term ++ " is " ++ Py.str v ++ " 💡"))
          | None =>
              match Dict.get term kb with
              | Some v => Some (Some (Str.capitalize (spaced term) ++ ": " ++ Py.str v))
              | None =>
                  let term_clean := sub_prefix article_pattern term in
                  match Dict.get term_clean facts with
                  | Some v =>
                      Some (Some (Str.capitalize term_clean ++ " is " ++ Py.str v ++ " 💡"))
                  | None => Some None
                  end
              end
          end
      | _, _ => None
      end
  | None => Some None
  end.

(** The loop over [relationships.keys()] of [_answer_relationship_query]. *)
Fixpoint mentioned_relation (rels : dict) (lower : string) (keys : list string)
  : option string :=
  match keys with
  | [] => None
  | rel :: keys' =>
      if Str.contains ("who is my " ++ spaced rel) lower || Str.contains rel lower
      then match Dict.get rel rels with
           | Some name =>
               if Py.truthy name
               then Some ("Your " ++ spaced rel ++ " is " ++ Py.str name ++ " " ++ heart rel)
               else mentioned_relation rels lower keys'
           | None => mentioned_relation rels lower keys'
           end
      else mentioned_relation rels lower keys'
  end.

(** [who is my ([a-z_ ]+)\??] *)
Definition who_is_my_pattern : regex :=
  seqs [lit "who is my ";
        Grp 1 (Plus true (Chr (fun c => Char.is_alpha c || Char.one_of "_ " c)));
        Opt (lit "?")].

Definition _answer_relationship_query (b : AliChatbot) (text : string)
  : option (option string) :=
  match get_map "relationships" (data b) with
  | Some rels =>
      match mentioned_relation rels (Str.lower text) (Dict.keys rels) with
      | Some reply => Some (Some reply)
      | None =>
          match re_search who_is_my_pattern text with
          | Some m =>
              let key := Str.replace " " "_" (Str.strip (group 1 m)) in
              match Dict.get key rels with
              | Some name =>
                  if Py.truthy name
                  then Some (Some ("Your " ++ spaced key ++ " is " ++ Py.str name ++ " 💖"))
                  else Some None
              | None => Some None
              end
          | None => Some None
          end
      end
  | None => None
  end.

(** The dictionary [q_map]. *)
Definition q_map : list (string * string) :=
  [ ("my name", "user_name");
    ("who am i", "user_name");
    ("my country", "country");
    ("what is my country", "country");
    ("my city", "city");
    ("what is my city", "city");
    ("favorite color", "favorite_color");
    ("my hobby", "hobby");
    ("my age", "age") ].

Fixpoint personal_lookup (d : dict) (lower : string) (qs : list (string * string))
  : option string :=
  match qs with
  | [] => None
  | (phrase, key) :: qs' =>
      if Str.contains phrase lower
      then
        let val := Dict.get_or_null key d in
        if Py.truthy val
        then Some ("Your " ++ spaced key ++ " is " ++ Py.str val ++ " 🌟")
        else Some ("I don’t know your " ++ spaced key
                   ++ " yet. Tell me by saying 'My " ++ spaced key ++ " is ...'")
      else personal_lookup d lower qs'
  end.

Definition _answer_personal_query (b : AliChatbot) (text : string) : option string :=
  personal_lookup (data b) (Str.lower text) q_map.

(** A string in double quotes, as the templates of [_contextual_reference]
    show what was said. *)
Definition quoted (s : string) : string :=
  String Py.quote2 (s ++ String Py.quote2 EmptyString).

(** [for entry in reversed(self.context)]: the latest input of more than
    two words. *)
Fixpoint latest_long_input (newest_first : list exchange) : option string :=
  match newest_first with
  | [] => None
  | entry :: older =>
      if (2 <? Str.count_words (ex_user entry))%nat
      then Some (ex_user entry)
      else latest_long_input older
  end.

(** [[c for c in reversed(conversations) if topic.lower() in
      c.get("user", "").lower()]], on the conversations newest first.
    [c.get] raises on an entry that is not a dictionary and [.lower()] on a
    ["user"] that is not a string; the whole list is built before its first
    element is used. *)
Fixpoint told_about (topic_lower : string) (newest_first : list json)
  : option (list dict) :=
  match newest_first with
  | [] => Some []
  | JObj c :: older =>
      match (match Dict.get "user" c with
             | None => Some ""
             | Some (JStr u) => Some u
             | Some _ => None
             end) with
      | Some u =>
          match told_about topic_lower older with
          | Some found =>
              Some (if Str.contains topic_lower (Str.lower u) then c :: found else found)
          | None => None
          end
      | None => None
      end
  | _ :: _ => None
  end.

(** [what did i tell you about (.+)\??] *)
Definition told_pattern : regex :=
  seqs [lit "what did i tell you about "; Grp 1 (Plus true dot); Opt (lit "?")].

Definition time_cues : list string :=
  ["yesterday"; "earlier"; "before"; "last time"; "you told me"].

Definition _contextual_reference (b : AliChatbot) (text : string)
  : option (option string) :=
  let lower := Str.lower text in
  if existsb (fun tok => Str.contains tok lower) time_cues
  then
    match latest_long_input (List.rev (context b)) with
    | Some u =>
        Some (Some ("You mentioned earlier: " ++ quoted u
                    ++ " — would you like to continue that topic?"))
    | None =>
        Some (Some "I remember bits of our last chats — what would you like to continue?")
    end
  else
    match re_search told_pattern text with
    | Some m =>
        let topic := Str.strip (group 1 m) in
        match get_list "conversations" (data b) with
        | Some cs =>
            match told_about (Str.lower topic) (List.rev cs) with
            | Some (sample :: _) =>
                match Dict.get "user" sample, Dict.get "ai" sample, Dict.get "time" sample with
                | Some u, Some a, Some t =>
                    Some (Some ("You told me: " ++ quoted (Py.str u)
                                ++ " — I replied: " ++ quoted (Py.str a)
                                ++ " on " ++ Py.str t))
                | _, _, _ => None
                end
            | Some [] =>
                let nothing :=
                  "I don't see that in my recent chats. Want to tell me about it now?" in
                match embedding_model b, faiss_index b with
                | Some em, Some texts =>
                    match semantic_search em texts topic with
                    | Some (first :: _) =>
                        Some (Some ("I found something related: " ++ quoted (Py.str first)
                                    ++ " — does that match what you meant?"))
                    | Some [] => Some (Some nothing)
                    | None => None
                    end
                | _, _ => Some (Some nothing)
                end
            | None => None
            end
        | None => None
        end
    | None => Some None
    end.

(** [self.data.get("user_name") or "friend"], as an f-string shows it. *)
Definition name_or_friend (b : AliChatbot) : string :=
  let v := Dict.get_or_null "user_name" (data b) in
  if Py.truthy v then Py.str v else "friend".

(** [_friendly_fallback]: [templates[0]]. *)
Definition _friendly_fallback (b : AliChatbot) (user_text : string) : string :=
  "Hmm 🤔 interesting, " ++ name_or_friend b ++ ". Tell me more about that.".

(* ------------------------------------------------------------------ *)
(** ** The dispatcher [get_response] *)

(** The dictionary [help_map]. *)
Definition help_map : list (string * string) :=
  [ ("how do i convert pdf to word", "pdf_to_word");
    ("convert pdf to word", "pdf_to_word");
    ("how to convert pdf to word", "pdf_to_word");
    ("pdf to word", "pdf_to_word");
    ("word to pdf", "word_to_pdf");
    ("pdf to image", "pdf_to_image");
    ("images to pdf", "images_to_pdf");
    ("merge pdf", "merge_pdfs");
    ("split pdf", "split_pdf");
    ("compress pdf", "compress_pdf");
    ("what can you do", "ai_assistant");
    ("who made you", "about") ].

(** The loop over [help_map]: the first phrase found in the input whose key
    has a true value in the Knowledge Base. *)
Fixpoint help_lookup (kb : dict) (lower : string) (hs : list (string * string))
  : option json :=
  match hs with
  | [] => None
  | (phrase, key) :: hs' =>
      if Str.contains phrase lower
      then
        let answer := Dict.get_or_null key kb in
        if Py.truthy answer then Some answer else help_lookup kb lower hs'
      else help_lookup kb lower hs'
  end.

(** [\b(i am|i'm)\s+(sad|happy|angry|tired|bored|excited)\b] and
    [\b(i am|i'm)\s+(\w+)\b] *)
Definition i_am : regex := Grp 1 (alts [lit "i am"; lit "i'm"]).

Definition mood_pattern : regex :=
  seqs [Wordb; i_am; Plus true ws;
        Grp 2 (alts [lit "sad"; lit "happy"; lit "angry"; lit "tired";
                     lit "bored"; lit "excited"]);
        Wordb].

Definition mood_word_pattern : regex :=
  seqs [Wordb; i_am; Plus true ws; Grp 2 (Plus true word); Wordb].

(** The dictionary [mood_replies]. *)
Definition mood_replies : list (string * string) :=
  [ ("sad", "Oh no 😢 I'm here for you — want to tell me what's wrong?");
    ("happy", "Yay 😄 I'm happy for you!");
    ("angry", "Take a deep breath 😤 — I’m with you.");
    ("tired", "Maybe a short break will help 💤");
    ("bored", "Let’s do something fun — want a joke or a fact?");
    ("excited", "Awesome! Tell me what's got you excited 🎉") ].

Fixpoint assoc (k : string) (l : list (string * string)) : option string :=
  match l with
  | [] => None
  | (k', v) :: l' => if String.eqb k k' then Some v else assoc k l'
  end.

(** Step 9: the reply to a mood, if any. *)
Definition mood_reply (lower : string) : option string :=
  match re_search mood_pattern lower with
  | Some _ =>
      match re_search mood_word_pattern lower with
      | Some em =>
          match assoc (Str.lower (group 2 em)) mood_replies with
          | Some reply => if String.eqb reply "" then None else Some reply
          | None => None
          end
      | None => None
      end
  | None => None
  end.

(** [^(hi|hello|hey|yo|hiya)\b] *)
Definition greeting_pattern : regex :=
  seqs [Bos; Grp 1 (alts [lit "hi"; lit "hello"; lit "hey"; lit "yo"; lit "hiya"]);
        Wordb].

(** [(?:tell me about|what do you know about)\s+(.+)] *)
Definition topic_pattern : regex :=
  seqs [alts [lit "tell me about"; lit "what do you know about"];
        Plus true ws; Grp 1 (Plus true dot)].

Definition empty_prompt : string := "Type something for me to respond to ✍️".

(** [self._remember_conversation(text, reply); return reply] *)
Definition log_and_return (now text : string) (reply : json) : M json :=
  _remember_conversation now text reply ;; ret reply.

(** [r = stage(text); if r: log, return r] and otherwise go on. *)
Definition stage (now text : string) (s : M (option string)) (next : M json)
  : M json :=
  r <- s ;;
  match r with
  | Some reply =>
      if String.eqb reply "" then next else log_and_return now text (JStr reply)
  | None => next
  end.

(** A resolver as a method. *)
Definition ask {A} (f : AliChatbot -> option A) : M A :=
  b <- self ;; lift (f b).

(** Steps 8 to 12 of [get_response]. *)
Definition small_talk (now text : string) : M json :=
  let lower := Str.lower text in
  b <- self ;;
  kb <- lift (get_map "flexipdf_knowledge" (data b)) ;;
  match help_lookup kb lower help_map with
  | Some answer =>
      log_and_return now text
        (JStr (Py.str answer ++ " If you'd like, I can guide you step-by-step."))
  | None =>
  match mood_reply lower with
  | Some reply => log_and_return now text (JStr reply)
  | None =>
  match re_match greeting_pattern lower with
  | Some _ =>
      log_and_return now text
        (JStr ("Hey " ++ name_or_friend b
               ++ "! 👋 I'm Ali — your FlexiPDF AI assistant. How can I help you today?"))
  | None =>
  match re_match topic_pattern lower with
  | Some m_topic =>
      let topic := Str.lower (Str.strip (group 1 m_topic)) in
      facts <- lift (get_map "facts" (data b)) ;;
      match Dict.get topic facts with
      | Some v =>
          log_and_return now text
            (JStr (Str.capitalize topic ++ " is " ++ Py.str v))
      | None =>
          match Dict.get topic kb with
          | Some ans => log_and_return now text ans
          | None =>
              log_and_return now text
                (JStr ("I don't have much on " ++ topic
                       ++ " yet — would you like to teach me? Say: Ali learn '"
                       ++ topic ++ "' means <your explanation>"))
          end
      end
  | None => log_and_return now text (JStr (_friendly_fallback b text))
  end end end end.

Definition get_response (now : string) (user_input : string) : M json :=
  if String.eqb user_input "" || String.eqb (Str.strip user_input) ""
  then ret (JStr empty_prompt)
  else
    let text := Str.strip user_input in
    stage now text (_learn_structured_fact text)
   (stage now text (_learn_flexipdf_knowledge text)
   (stage now text (_learn_fact_statement text)
   (stage now text (ask (fun b => _answer_relationship_query b text))
   (stage now text (ask (fun b => _answer_fact_query b text))
   (stage now text (ask (fun b => Some (_answer_personal_query b text)))
   (stage now text (ask (fun b => _contextual_reference b text))
   (small_talk now text))))))).

(* ------------------------------------------------------------------ *)
(** ** Derived notions used in the statements *)

(** The Conversation Log: [self.data["conversations"]]. *)
Definition conversations (b : AliChatbot) : list json :=
  match Dict.get "conversations" (data b) with
  | Some (JArr l) => l
  | _ => []
  end.

(** The Knowledge Base, the Fact Table and the Relationship Map. *)
Definition knowledge (b : AliChatbot) : dict :=
  match Dict.get "flexipdf_knowledge" (data b) with
  | Some (JObj o) => o
  | _ => []
  end.

Definition facts (b : AliChatbot) : dict :=
  match Dict.get "facts" (data b) with
  | Some (JObj o) => o
  | _ => []
  end.

(** The shape that [__init__], [_load_or_init_memory] and [reset_memory]
    give the store and every method keeps: the three tables are mappings,
    the log is a list, and when an embedding model is loaded every logged
    entry is a dictionary (otherwise [__init__] would have dropped the
    model). *)
Definition well_formed (b : AliChatbot) : bool :=
  Py.is_dict (Dict.get_or_null "facts" (data b)) &&
  Py.is_dict (Dict.get_or_null "relationships" (data b)) &&
  Py.is_dict (Dict.get_or_null "flexipdf_knowledge" (data b)) &&
  Py.is_list (Dict.get_or_null "conversations" (data b)) &&
  match embedding_model b with
  | Some _ => match user_texts (conversations b) with Some _ => true | None => false end
  | None => true
  end.

(** Logging a sequence of exchanges, one [_remember_conversation] each. *)
Definition remember_all (es : list exchange) : M unit :=
  for_each es (fun e => _remember_conversation (ex_time e) (ex_user e) (ex_ai e)).

(** The keys of the default schema. *)
Definition schema_keys : list string := Dict.keys (default_data JNull).

(** The two statements of [_remember_conversation] that write the log. *)
Definition log_entry (e : json) (d : dict) : option dict :=
  append_in "conversations" e (setdefault "conversations" (JArr []) d).

(** A chatbot with a buffer of two entries, for examples. *)
Definition sample_bot : AliChatbot :=
  Bot (default_data JNull) [] 2 Missing None None.

(** The store right after loading: the keys of the schema in order, the
    four profile fields null, the tables mappings and the log a list. *)
Definition loaded_shape (d : dict) : Prop :=
  exists f r c k m,
    d = [ ("user_name", JNull); ("country", JNull); ("city", JNull);
          ("language", JNull); ("facts", JObj f); ("relationships", JObj r);
          ("conversations", JArr c); ("flexipdf_knowledge", JObj k);
          ("meta", JObj m) ].

(** The fields [_load_or_init_memory] and the seeding leave alone. *)
Definition same_session (b b' : AliChatbot) : Prop :=
  context b' = context b /\ ctx_size b' = ctx_size b /\
  embedding_model b' = embedding_model b /\ faiss_index b' = faiss_index b.


(** A freshly started chatbot: no memory.json, the default buffer of 20,
    no embedding model. *)
Definition fresh_bot : AliChatbot :=
  match __init__ Missing 20 None "2024-01-01T00:00:00" with
  | Some b => b
  | None => sample_bot
  end.

(** Two states with the same log, buffer and capacity. *)
Definition same_log (b b' : AliChatbot) : Prop :=
  Dict.get "conversations" (data b') = Dict.get "conversations" (data b) /\
  context b' = context b /\ ctx_size b' = ctx_size b.

(** A method that leaves the log and the buffer alone. *)
Definition keeps_log {A} (m : M A) : Prop :=
  forall b x b', m b = Some (x, b') -> same_log b b'.

(** A continuation of [get_response] every return of which goes through
    one [_remember_conversation] of its reply. *)
Definition logs_once (now text : string) (m : M json) : Prop :=
  forall b reply b', m b = Some (reply, b') ->
    exists b_mid, same_log b b_mid /\
                  _remember_conversation now text reply b_mid = Some (tt, b').

(** A logged entry with the three fields of an exchange. *)
Definition is_exchange (j : json) : bool :=
  match j with
  | JObj c =>
      match Dict.get "user" c, Dict.get "ai" c, Dict.get "time" c with
      | Some (JStr _), Some _, Some _ => true
      | _, _, _ => false
      end
  | _ => false
  end.

(** A well-formed chatbot whose log holds exchanges only and whose
    embedding model, if any, answers every search. *)
Definition healthy (b : AliChatbot) : Prop :=
  well_formed b = true /\
  forallb is_exchange (conversations b) = true /\
  match embedding_model b with
  | Some em => forall texts q, semantic_search em texts q <> None
  | None => True
  end.

(** A method that returns on every healthy chatbot and keeps it healthy. *)
Definition returns {A} (m : M A) : Prop :=
  forall b, healthy b -> exists x b', m b = Some (x, b') /\ healthy b'.


(** The teaching command of the module docstring. *)
Definition teach_split : string :=
  "Ali learn 'pdf split' means divide PDF into multiple files".

(** The character on the left of the position reached after reading [s]. *)
Fixpoint last_before (b : option ascii) (s : string) : option ascii :=
  match s with
  | EmptyString => b
  | String c s' => last_before (Some c) s'
  end.

(** [s] is empty or starts with a character that [p] rejects. *)
Definition stops (p : ascii -> bool) (s : string) : bool :=
  match s with
  | EmptyString => true
  | String c _ => negb (p c)
  end.




(** The Relationship Map. *)
Definition relationships (b : AliChatbot) : dict :=
  match Dict.get "relationships" (data b) with
  | Some (JObj o) => o
  | _ => []
  end.

(** What the loop of [_seed_flexipdf_knowledge] makes of a Knowledge Base,
    for a list of defaults. *)
Definition seeded (defaults : list (string * string)) (kb : dict) : dict :=
  fold_left (fun acc kv =>
               if Dict.has (fst kv) acc then acc
               else Dict.set (fst kv) (JStr (snd kv)) acc)
            defaults kb.

(** [self] as [__init__] has it just before it loads memory.json. *)
Definition before_load (file : file_state) (size : nat) : AliChatbot :=
  Bot (default_data JNull) [] size file None None.

(** What [_load_or_init_memory] takes for a field from a parsed object:
    the record's value if it is an instance of the default's type, else the
    default. *)
Definition adopted (raw : dict) (k : string) (default : json) : json :=
  match Dict.get k raw with
  | Some v => if Py.isinstance_type_of v default then v else default
  | None => default
  end.

(** The characters of a one-word subject of a fact: anything but blanks
    and the marks [?], [.] and [!]. *)
Definition subject_char (c : ascii) : bool :=
  negb (Char.is_space c) && negb (Char.one_of "?.!" c).

(** What [.] matches: anything but a line feed. *)
Definition no_newline (s : string) : bool :=
  Str.all (fun c => negb (Ascii.eqb c "010")) s.


(** The writes an extractor can make to [self.data]: none, one profile
    field, or one entry of one table. *)
Inductive single_write (d : dict) : dict -> Prop :=
| no_write : single_write d d
| profile_write : forall key v,
    In key (List.map snd patterns) ->
    single_write d (Dict.set key (JStr v) d)
| table_write : forall t k v,
    In t ["facts"; "relationships"; "flexipdf_knowledge"] ->
    single_write d
      (Dict.set t (JObj (Dict.set k (JStr v)
                           (match Dict.get t d with
                            | Some (JObj o) => o
                            | _ => []
                            end))) d).

(** An extractor or resolver: it leaves the chatbot as it is, or makes one
    write, saves and has a reply. *)
Definition writes_once (s : M (option string)) : Prop :=
  forall b r b1, s b = Some (r, b1) ->
    b1 = b \/
    exists reply d',
      r = Some reply /\ reply <> "" /\ single_write (data b) d' /\
      b1 = set_file (Parsed (JObj d')) (set_data d' b).

(** A continuation of [get_response]: every return logs its reply after at
    most one write, and the reply is a string unless it is an entry of the
    Knowledge Base handed out as it is. *)
Definition answers_once (now text : string) (m : M json) : Prop :=
  forall b reply b', m b = Some (reply, b') ->
    exists b_mid,
      (b_mid = b \/
       exists d', single_write (data b) d' /\
                  b_mid = set_file (Parsed (JObj d')) (set_data d' b)) /\
      _remember_conversation now text reply b_mid = Some (tt, b') /\
      ((exists s, reply = JStr s) \/
       (b_mid = b /\ exists k, Dict.get k (knowledge b) = Some reply)).

(** The characters of a taught topic: those of a one-word subject and the
    blank, without the quote that ends the topic. *)
Definition topic_char (c : ascii) : bool :=
  (subject_char c || Ascii.eqb c " ") && negb (Ascii.eqb c "'").







(* ================================================================== *)
(** * Properties *)

Unset Implicit Arguments.
Arguments String.eqb : simpl never.

(** Unfolding the monad on a concrete call. *)
Ltac run_bot :=
  unfold update_data, _save_memory, log_and_return, ask, bind, modify, self,
         lift, ret, raise in *;
  cbn [data context ctx_size memory_file embedding_model faiss_index
       set_data set_context set_file set_embedding set_index fst snd] in *.

(** ** Dictionaries *)

Lemma get_set_same : forall k v d, Dict.get k (Dict.set k v d) = Some v.
Proof.
  intros k v d; induction d as [|[k' v'] d IH]; simpl.
  - now rewrite String.eqb_refl.
  - destruct (String.eqb k k') eqn:E; simpl; rewrite ?String.eqb_refl, ?E; auto.
Qed.

Lemma get_set_other : forall k k' v d,
  k <> k' -> Dict.get k' (Dict.set k v d) = Dict.get k' d.
Proof.
  intros k k' v d Hne; induction d as [|[k0 v0] d IH]; simpl.
  - destruct (String.eqb k' k) eqn:E; auto.
    apply String.eqb_eq in E; congruence.
  - destruct (String.eqb k k0) eqn:E; simpl.
    + apply String.eqb_eq in E; subst k0.
      destruct (String.eqb k' k) eqn:E'; auto.
      apply String.eqb_eq in E'; congruence.
    + destruct (String.eqb k' k0); auto.
Qed.

Lemma keys_set_present : forall k v d,
  Dict.has k d = true -> Dict.keys (Dict.set k v d) = Dict.keys d.
Proof.
  unfold Dict.has, Dict.keys.
  intros k v d; induction d as [|[k' v'] d IH]; simpl; intros H.
  - discriminate.
  - destruct (String.eqb k k') eqn:E; simpl.
    + apply String.eqb_eq in E; now subst.
    + now rewrite IH.
Qed.

(** ** The context buffer *)

Lemma deque_append_length : forall (A : Type) n (d : list A) x,
  List.length d <= n -> List.length (deque_append n d x) <= n.
Proof.
  intros A n d x H; unfold deque_append.
  destruct (Nat.eqb_spec n 0); [assumption|].
  destruct (Nat.ltb_spec (List.length d) n).
  - rewrite List.length_app; simpl; lia.
  - destruct d; simpl in *; [lia|]. rewrite List.length_app; simpl; lia.
Qed.

(** The buffer holds the last [n] of everything appended. *)
Lemma deque_append_last : forall (A : Type) n (l : list A) x,
  deque_append n (skipn (List.length l - n) l) x
  = skipn (List.length (l ++ [x])%list - n) (l ++ [x])%list.
Proof.
  intros A n l x; unfold deque_append.
  rewrite List.length_app; simpl.
  destruct (Nat.eqb_spec n 0) as [->|Hn].
  - rewrite !Nat.sub_0_r, skipn_all.
    replace (List.length l + 1) with (List.length (l ++ [x])%list)
      by (rewrite List.length_app; simpl; lia).
    now rewrite skipn_all.
  - rewrite List.length_skipn.
    destruct (Nat.ltb_spec (List.length l - (List.length l - n)) n) as [Hlt|Hge].
    + assert (List.length l < n) by lia.
      replace (List.length l - n) with 0 by lia.
      replace (List.length l + 1 - n) with 0 by lia.
      reflexivity.
    + assert (n <= List.length l) by lia.
      replace (List.length l + 1 - n) with (S (List.length l - n)) by lia.
      rewrite skipn_app.
      replace (S (List.length l - n) - List.length l) with 0 by lia.
      simpl skipn at 2.
      f_equal.
      remember (List.length l - n) as m.
      assert (Hm : m < List.length l) by lia.
      clear - Hm. revert m Hm.
      induction l as [|a l IH]; intros m Hm; simpl in *; [lia|].
      destruct m; simpl; [reflexivity|].
      apply IH; lia.
Qed.

Lemma set_set : forall k v v0 d,
  Dict.set k v (Dict.set k v0 d) = Dict.set k v d.
Proof.
  intros k v v0 d; induction d as [|[k' v'] d IH]; simpl.
  - now rewrite String.eqb_refl.
  - destruct (String.eqb k k') eqn:E; simpl.
    + now rewrite String.eqb_refl.
    + now rewrite E, IH.
Qed.

(** ** Conversation logging *)

(** [_build_faiss_index] touches [faiss_index] only. *)
Lemma build_index_frame : forall b r b',
  _build_faiss_index b = Some (r, b') ->
  exists ix, b' = set_index ix b.
Proof.
  intros [d c n f em ix] [] b'. unfold _build_faiss_index. run_bot.
  destruct em as [em|]; [|intros H; injection H as <-; now eexists].
  destruct (get_list "conversations" d) as [cs|]; [|discriminate].
  destruct (user_texts cs) as [[|t ts]|]; [| |discriminate];
    try destruct (encodes em (t :: ts));
    unfold modify; intros H; injection H as <-; now eexists.
Qed.

Lemma log_entry_effect : forall e d d',
  log_entry e d = Some d' ->
  d' = Dict.set "conversations"
         (JArr (match Dict.get "conversations" d with
                | Some (JArr l) => l
                | _ => []
                end ++ [e])%list) d.
Proof.
  unfold log_entry, append_in, setdefault, Dict.has; intros e d d'.
  destruct (Dict.get "conversations" d) as [v|] eqn:E.
  - rewrite E. destruct v; try discriminate. now intros [= <-].
  - rewrite get_set_same. intros [= <-]. apply set_set.
Qed.

(** What a returning [_remember_conversation] has done. *)
Lemma remember_inv : forall now u a b b',
  _remember_conversation now u a b = Some (tt, b') ->
  exists d' ix,
    log_entry (exchange_json (Exchange u a now)) (data b) = Some d' /\
    b' = Bot d' (deque_append (ctx_size b) (context b) (Exchange u a now))
             (ctx_size b) (Parsed (JObj d')) (embedding_model b) ix.
Proof.
  intros now u a [d c n f em ix] b'.
  unfold _remember_conversation. run_bot.
  fold (log_entry (exchange_json (Exchange u a now)) d).
  destruct (log_entry _ d) as [d'|]; [|discriminate].
  run_bot. destruct em as [em|].
  - intros H. apply build_index_frame in H as [ix' ->]. now exists d', ix'.
  - intros [= <-]. now exists d', ix.
Qed.

Lemma remember_effect : forall now u a b b',
  _remember_conversation now u a b = Some (tt, b') ->
  conversations b' = (conversations b ++ [exchange_json (Exchange u a now)])%list /\
  context b' = deque_append (ctx_size b) (context b) (Exchange u a now) /\
  ctx_size b' = ctx_size b.
Proof.
  intros now u a b b' H.
  apply remember_inv in H as (d' & ix & Hd & ->).
  apply log_entry_effect in Hd. subst d'.
  unfold conversations; cbn [data context ctx_size].
  now rewrite get_set_same.
Qed.
Lemma well_formed_inv : forall b,
  well_formed b = true ->
  exists f r k c,
    Dict.get "facts" (data b) = Some (JObj f) /\
    Dict.get "relationships" (data b) = Some (JObj r) /\
    Dict.get "flexipdf_knowledge" (data b) = Some (JObj k) /\
    Dict.get "conversations" (data b) = Some (JArr c) /\
    (embedding_model b = None \/ exists ts, user_texts c = Some ts).
Proof.
  intros b. unfold well_formed, conversations, Dict.get_or_null.
  destruct (Dict.get "facts" (data b)) as [[]|]; simpl; try discriminate.
  destruct (Dict.get "relationships" (data b)) as [[]|]; simpl; try discriminate.
  destruct (Dict.get "flexipdf_knowledge" (data b)) as [[]|]; simpl; try discriminate.
  destruct (Dict.get "conversations" (data b)) as [[]|]; simpl; try discriminate.
  intros H. do 4 eexists. repeat (split; [reflexivity|]).
  destruct (embedding_model b); [right|now left].
  destruct (user_texts l); [now eexists|discriminate].
Qed.

Lemma well_formed_intro : forall b f r k c,
    Dict.get "facts" (data b) = Some (JObj f) ->
    Dict.get "relationships" (data b) = Some (JObj r) ->
    Dict.get "flexipdf_knowledge" (data b) = Some (JObj k) ->
    Dict.get "conversations" (data b) = Some (JArr c) ->
    (embedding_model b = None \/ exists ts, user_texts c = Some ts) ->
    well_formed b = true.
Proof.
  intros b f r k c Hf Hr Hk Hc He.
  unfold well_formed, conversations, Dict.get_or_null.
  rewrite Hf, Hr, Hk, Hc; simpl.
  destruct He as [->|[ts ->]]; [reflexivity|].
  now destruct (embedding_model b).
Qed.

Lemma user_texts_app : forall c o ts,
  user_texts c = Some ts -> exists ts', user_texts (c ++ [JObj o])%list = Some ts'.
Proof.
  induction c as [|x c IH]; simpl; intros o ts H.
  - destruct (Dict.get "user" o); now eexists.
  - destruct x; try discriminate.
    destruct (user_texts c) as [ts0|] eqn:E; [|discriminate].
    destruct (IH o ts0 eq_refl) as [ts' ->].
    destruct (Dict.get "user" o0); now eexists.
Qed.

(** On a well-formed store [_remember_conversation] returns, keeps the store
    well formed and changes no key of [self.data] but the log. *)
Lemma remember_returns : forall now u a b,
  well_formed b = true ->
  exists b',
    _remember_conversation now u a b = Some (tt, b') /\
    well_formed b' = true /\
    (forall k, k <> "conversations" -> Dict.get k (data b') = Dict.get k (data b)).
Proof.
  intros now u a [d c n f em ix] Hwf.
  destruct (well_formed_inv _ Hwf) as (fs & rs & ks & cs & Hf & Hr & Hk & Hc & He).
  cbn [data embedding_model] in *.
  unfold _remember_conversation. run_bot.
  fold (log_entry (exchange_json (Exchange u a now)) d).
  assert (Hlog : log_entry (exchange_json (Exchange u a now)) d
                 = Some (Dict.set "conversations"
                           (JArr (cs ++ [exchange_json (Exchange u a now)])%list) d)).
  { unfold log_entry, append_in, setdefault, Dict.has. now rewrite Hc, Hc. }
  rewrite Hlog. run_bot.
  set (d' := Dict.set _ _ d).
  assert (Hother : forall k, k <> "conversations" -> Dict.get k d' = Dict.get k d).
  { intros k Hk'. apply get_set_other. congruence. }
  assert (Hc' : Dict.get "conversations" d' = Some (JArr (cs ++ [exchange_json (Exchange u a now)])%list))
    by apply get_set_same.
  destruct em as [em|].
  - destruct He as [He|[ts Hts]]; [discriminate|].
    destruct (user_texts_app cs [("user", JStr u); ("ai", a); ("time", JStr now)] ts Hts) as [ts' Hts'].
    unfold _build_faiss_index. run_bot. unfold get_list. rewrite Hc'.
    unfold exchange_json. cbn [ex_user ex_ai ex_time]. rewrite Hts'.
    assert (W : forall ix', well_formed (Bot d' (deque_append n c (Exchange u a now)) n (Parsed (JObj d')) (Some em) ix') = true).
    { intros ix'. eapply well_formed_intro; cbn [data embedding_model];
        try (rewrite Hother; [eassumption|discriminate]); eauto. }
    destruct ts' as [|t ts']; [|destruct (encodes em (t :: ts'))];
      eexists; (split; [reflexivity|split; [apply W|exact Hother]]).
  - eexists; split; [reflexivity|split; [|exact Hother]].
    eapply well_formed_intro; cbn [data embedding_model];
      try (rewrite Hother; [eassumption|discriminate]); eauto.
Qed.

(** ** C5: the context buffer is bounded *)

Lemma remember_all_last : forall (es : list exchange) (b : AliChatbot) (l : list exchange),
  well_formed b = true ->
  context b = skipn (List.length l - ctx_size b) l ->
  exists b',
    remember_all es b = Some (tt, b') /\
    well_formed b' = true /\
    ctx_size b' = ctx_size b /\
    context b' = skipn (List.length (l ++ es)%list - ctx_size b) (l ++ es)%list.
Proof.
  induction es as [|e es IH]; intros b l Hwf Hctx.
  - exists b. rewrite app_nil_r. now repeat split.
  - unfold remember_all; cbn [for_each]. unfold bind.
    destruct (remember_returns (ex_time e) (ex_user e) (ex_ai e) b Hwf)
      as (b1 & Hrun & Hwf1 & _).
    rewrite Hrun.
    destruct (remember_effect _ _ _ _ _ Hrun) as (_ & Hc1 & Hn1).
    destruct e as [u a t]; cbn [ex_time ex_user ex_ai] in *.
    rewrite Hctx, deque_append_last in Hc1. rewrite <- Hn1 in Hc1.
    destruct (IH b1 (l ++ [Exchange u a t])%list Hwf1 Hc1) as (b' & Hrun' & Hwf' & Hn' & Hc').
    exists b'. fold (remember_all es). rewrite Hrun'.
    rewrite <- app_assoc in Hc'. cbn [app] in Hc'.
    rewrite Hn1 in *. now repeat split.
Qed.

(** C5.  Logging any sequence of exchanges into a chatbot whose Context
    Buffer is within its capacity [ctx_size] (as it is from construction on)
    leaves a buffer of at most [ctx_size] entries: the last [ctx_size] of
    what it held followed by what was logged, in logging order.  In
    particular, after logging [ctx_size + 1] exchanges into an empty buffer
    the first one is gone and the buffer is exactly the other [ctx_size], in
    order. *)
Theorem context_buffer_bounded : forall (es : list exchange) (b : AliChatbot),
  well_formed b = true ->
  List.length (context b) <= ctx_size b ->
  exists b',
    remember_all es b = Some (tt, b') /\
    List.length (context b') <= ctx_size b /\
    context b' = skipn (List.length (context b ++ es)%list - ctx_size b)
                       (context b ++ es)%list /\
    (context b = [] -> List.length es = S (ctx_size b) -> context b' = List.tl es).
Proof.
  intros es b Hwf Hlen.
  destruct (remember_all_last es b (context b) Hwf) as (b' & Hrun & _ & _ & Hc).
  { replace (List.length (context b) - ctx_size b) with 0 by lia. reflexivity. }
  exists b'. split; [exact Hrun|]. split; [|split; [exact Hc|]].
  - rewrite Hc, List.length_skipn. lia.
  - intros Hnil Hes. rewrite Hc, Hnil. cbn [app]. rewrite Hes.
    replace (S (ctx_size b) - ctx_size b) with 1 by lia.
    now destruct es.
Qed.

Lemma context_buffer_bounded_witness :
  exists b',
    remember_all [Exchange "a" (JStr "1") "t1"; Exchange "b" (JStr "2") "t2";
                  Exchange "c" (JStr "3") "t3"] sample_bot = Some (tt, b') /\
    context b' = [Exchange "b" (JStr "2") "t2"; Exchange "c" (JStr "3") "t3"].
Proof.
  destruct (context_buffer_bounded
              [Exchange "a" (JStr "1") "t1"; Exchange "b" (JStr "2") "t2";
               Exchange "c" (JStr "3") "t3"] sample_bot)
    as (b' & Hrun & _ & _ & Htl).
  - reflexivity.
  - simpl; lia.
  - exists b'. split; [exact Hrun|]. apply Htl; reflexivity.
Defined.

(** ** C7 and C8: reset *)

Lemma reset_memory_result : forall now b,
  reset_memory now b
  = Some (reset_message,
          Bot (default_data (JStr now)) [] (ctx_size b)
              (Parsed (JObj (default_data (JStr now)))) (embedding_model b)
              (match embedding_model b with
               | Some _ => None
               | None => faiss_index b
               end)).
Proof.
  intros now [d c n f [em|] ix]; reflexivity.
Qed.

(** C7.  Whatever the chatbot held, [reset_memory] leaves the default state
    stamped with the clock reading of that reset and an empty Context
    Buffer; a second reset does the same.  So the two states agree on every
    key of the store but the creation stamp under "meta", and resetting
    again while the clock reads the same gives the very same chatbot. *)
Theorem reset_memory_idempotent : forall (b : AliChatbot) (t1 t2 : string),
  exists b1 b2,
    reset_memory t1 b = Some (reset_message, b1) /\
    reset_memory t2 b1 = Some (reset_message, b2) /\
    data b1 = default_data (JStr t1) /\
    data b2 = default_data (JStr t2) /\
    (forall k, k <> "meta" -> Dict.get k (data b2) = Dict.get k (data b1)) /\
    context b1 = [] /\ context b2 = [] /\
    reset_memory t1 b1 = Some (reset_message, b1).
Proof.
  intros b t1 t2. do 2 eexists.
  split; [apply reset_memory_result|].
  split; [apply reset_memory_result|].
  split; [reflexivity|]. split; [reflexivity|]. split.
  - intros k Hk. cbn [data]. unfold default_data. cbn [Dict.get].
    repeat match goal with
           | |- context [String.eqb k ?s] =>
               destruct (String.eqb_spec k s); [first [reflexivity | contradiction]|]
           end.
    reflexivity.
  - repeat (split; [reflexivity|]).
    rewrite reset_memory_result; cbn [ctx_size embedding_model faiss_index].
    now destruct (embedding_model b).
Qed.






(** ** Loading and construction *)

Lemma adopt_key_shape : forall raw d k,
  In k schema_keys -> loaded_shape d -> loaded_shape (adopt_key raw d k).
Proof.
  intros raw d k Hin (f & r & c & kb & m & ->).
  unfold adopt_key.
  destruct (Dict.get k raw) as [v|]; [|now exists f, r, c, kb, m].
  cbv [schema_keys Dict.keys default_data List.map fst In] in Hin.
  repeat (destruct Hin as [<-|Hin]); try contradiction;
    destruct v; vm_compute; repeat eexists.
Qed.

Lemma adopt_all_shape : forall raw ks d,
  (forall k, In k ks -> In k schema_keys) ->
  loaded_shape d -> loaded_shape (fold_left (adopt_key raw) ks d).
Proof.
  intros raw ks; induction ks as [|k ks IH]; intros d Hks Hd; simpl; [assumption|].
  apply IH; [intros; apply Hks; now right|].
  apply adopt_key_shape; [apply Hks; now left|assumption].
Qed.

Lemma shape_keys : forall d, loaded_shape d -> Dict.keys d = schema_keys.
Proof. intros d (f & r & c & k & m & ->). reflexivity. Qed.

Lemma merge_meta_shape : forall raw d,
  loaded_shape d -> exists d', merge_meta raw d = Some d' /\ loaded_shape d'.
Proof.
  intros raw d (f & r & c & k & m & ->). unfold merge_meta.
  destruct (Dict.get "meta" raw) as [[]|];
    try (eexists; split; [reflexivity|now exists f, r, c, k, m]).
  eexists; split; [vm_compute; reflexivity|]. vm_compute. repeat eexists.
Qed.

Lemma load_shape : forall now b,
  loaded_shape (data b) ->
  exists b',
    _load_or_init_memory now b = Some (tt, b') /\
    loaded_shape (data b') /\ same_session b b'.
Proof.
  intros now [d c n f em ix] Hd. cbn [data] in Hd.
  unfold _load_or_init_memory. run_bot.
  destruct f as [| |raw].
  - (* no file *)
    destruct Hd as (fs & r & cs & k & m & ->).
    eexists; split; [vm_compute; reflexivity|].
    split; [vm_compute; repeat eexists|now repeat split].
  - (* unparsable *)
    destruct Hd as (fs & r & cs & k & m & ->).
    eexists; split; [vm_compute; reflexivity|].
    split; [vm_compute; repeat eexists|now repeat split].
  - destruct raw as [| | | | |l|o].
    1-6: destruct Hd as (fs & r & cs & k & m & ->);
         eexists; (split; [vm_compute; reflexivity|]);
         (split; [vm_compute; repeat eexists|now repeat split]).
    run_bot.
    assert (H1 : loaded_shape (fold_left (adopt_key o) (Dict.keys d) d)).
    { apply adopt_all_shape; [|assumption].
      intros k. now rewrite (shape_keys d Hd). }
    destruct (merge_meta_shape o _ H1) as (d' & -> & H2).
    eexists; split; [reflexivity|]. split; [exact H2|now repeat split].
Qed.

Lemma seed_step_shape : forall kv b,
  loaded_shape (data b) ->
  exists b',
    (b0 <- self ;;
     kb <- lift (get_map "flexipdf_knowledge" (data b0)) ;;
     if Dict.has (fst kv) kb then ret tt
     else update_data (store_in "flexipdf_knowledge" (fst kv) (JStr (snd kv)))) b
    = Some (tt, b') /\
    loaded_shape (data b') /\ same_session b b' /\
    conversations b' = conversations b /\ memory_file b' = memory_file b.
Proof.
  intros [key text] [d c n f em ix] Hd. cbn [data] in Hd.
  destruct Hd as (fs & r & cs & k & m & ->).
  run_bot.
  change (get_map "flexipdf_knowledge" _) with (Some k).
  cbn iota beta.
  destruct (Dict.has key k).
  - eexists; split; [reflexivity|].
    split; [repeat eexists|now repeat split].
  - eexists; split; [vm_compute; reflexivity|].
    split; [vm_compute; repeat eexists|now repeat split].
Qed.

Lemma for_each_invariant : forall (A : Type) (P : AliChatbot -> Prop)
  (R : AliChatbot -> AliChatbot -> Prop) (body : A -> M unit) (l : list A),
  (forall b, P b -> R b b) ->
  (forall b1 b2 b3, R b1 b2 -> R b2 b3 -> R b1 b3) ->
  (forall x b, P b -> exists b', body x b = Some (tt, b') /\ P b' /\ R b b') ->
  forall b, P b -> exists b', for_each l body b = Some (tt, b') /\ P b' /\ R b b'.
Proof.
  intros A P R body l Hrefl Htrans Hstep.
  induction l as [|x l IH]; intros b Hb; simpl.
  - exists b. unfold ret. auto.
  - destruct (Hstep x b Hb) as (b1 & H1 & P1 & R1).
    destruct (IH b1 P1) as (b2 & H2 & P2 & R2).
    exists b2. unfold bind. rewrite H1. eauto.
Qed.

Lemma seed_shape : forall b,
  loaded_shape (data b) ->
  exists b',
    _seed_flexipdf_knowledge b = Some (tt, b') /\
    loaded_shape (data b') /\ same_session b b' /\
    conversations b' = conversations b.
Proof.
  intros b Hb. unfold _seed_flexipdf_knowledge.
  destruct (for_each_invariant _
              (fun b => loaded_shape (data b))
              (fun b b' => same_session b b' /\ conversations b' = conversations b)
              (fun kv =>
                 b0 <- self ;;
                 kb <- lift (get_map "flexipdf_knowledge" (data b0)) ;;
                 if Dict.has (fst kv) kb then ret tt
                 else update_data (store_in "flexipdf_knowledge" (fst kv) (JStr (snd kv))))
              seed_defaults) with (b := b) as (b1 & H1 & P1 & R1 & C1).
  - intros; now repeat split.
  - intros b1 b2 b3 [(a1 & a2 & a3 & a4) a5] [(c1 & c2 & c3 & c4) c5].
    repeat split; congruence.
  - intros x b0 H0. destruct (seed_step_shape x b0 H0) as (b' & E & S1 & S2 & S3 & _).
    exists b'. auto.
  - exact Hb.
  - unfold bind at 1. rewrite H1. destruct b1 as [d c n f em ix].
    eexists; split; [reflexivity|]. cbn [data] in *.
    split; [exact P1|]. split; [|exact C1].
    destruct R1 as (a1 & a2 & a3 & a4). now repeat split.
Qed.

Lemma shape_well_formed : forall b,
  loaded_shape (data b) ->
  (embedding_model b = None \/ exists ts, user_texts (conversations b) = Some ts) ->
  well_formed b = true.
Proof.
  intros [d c n f em ix] Hd He. cbn [data embedding_model] in *.
  destruct Hd as (fs & r & cs & k & m & ->).
  eapply well_formed_intro; cbn [data embedding_model]; try reflexivity.
  exact He.
Qed.

(** The guarded index build of [__init__] keeps the model only if every
    logged entry is a dictionary. *)
Lemma try_build_index_model : forall b,
  loaded_shape (data b) ->
  exists b',
    try_build_index b = Some (tt, b') /\
    data b' = data b /\ context b' = context b /\ ctx_size b' = ctx_size b /\
    (embedding_model b' = None \/ exists ts, user_texts (conversations b') = Some ts).
Proof.
  intros [d c n f em ix] Hd. cbn [data] in Hd.
  unfold try_build_index, _build_faiss_index. run_bot.
  destruct em as [em|]; [|eexists; split; [reflexivity|]; repeat split; now left].
  destruct Hd as (fs & r & cs & k & m & ->).
  change (get_list "conversations" _) with (Some cs). cbn iota beta.
  destruct (user_texts cs) as [ts|] eqn:E; cbn iota beta.
  - assert (Hc : exists ts0, user_texts (conversations (Bot
        [("user_name", JNull); ("country", JNull); ("city", JNull);
         ("language", JNull); ("facts", JObj fs); ("relationships", JObj r);
         ("conversations", JArr cs); ("flexipdf_knowledge", JObj k);
         ("meta", JObj m)] c n f (Some em) None)) = Some ts0).
    { exists ts. exact E. }
    destruct ts as [|t ts]; [|destruct (encodes em (t :: ts))];
      (eexists; split; [reflexivity|]; repeat split; right; exact Hc).
  - eexists; split; [reflexivity|]. repeat split. now left.
Qed.

(** Construction never fails, whatever memory.json holds, and gives a
    well-formed chatbot with the schema's keys, an empty buffer and null
    profile fields. *)
Lemma init_total : forall file size model now,
  exists b,
    __init__ file size model now = Some b /\
    loaded_shape (data b) /\ context b = [] /\ ctx_size b = size /\
    well_formed b = true.
Proof.
  intros file size model now. unfold __init__.
  set (b0 := Bot (default_data JNull) [] size file None None).
  assert (H0 : loaded_shape (data b0)) by (vm_compute; repeat eexists).
  destruct (load_shape now b0 H0) as (b1 & E1 & S1 & (c1 & n1 & e1 & i1)).
  unfold bind at 1. rewrite E1.
  assert (Hmid : exists b2,
    (match model with
     | Some em => modify (set_embedding (Some em)) ;; try_build_index
     | None => ret tt
     end) b1 = Some (tt, b2) /\
    loaded_shape (data b2) /\ context b2 = [] /\ ctx_size b2 = size /\
    (embedding_model b2 = None \/ exists ts, user_texts (conversations b2) = Some ts)).
  { destruct model as [em|].
    - destruct (try_build_index_model (set_embedding (Some em) b1))
        as (b2 & E2 & D2 & C2 & N2 & M2); [exact S1|].
      exists b2. unfold bind, modify. rewrite E2.
      split; [reflexivity|]. rewrite D2, C2, N2.
      destruct b1; cbn in *. auto.
    - exists b1. split; [reflexivity|].
      split; [exact S1|]. split; [exact c1|]. split; [exact n1|].
      left. rewrite e1. reflexivity. }
  destruct Hmid as (b2 & E2 & S2 & C2 & N2 & M2).
  unfold bind at 1. rewrite E2.
  destruct (seed_shape b2 S2) as (b3 & E3 & S3 & (c3 & n3 & e3 & i3) & V3).
  rewrite E3. exists b3. split; [reflexivity|].
  split; [exact S3|]. split; [congruence|]. split; [congruence|].
  apply shape_well_formed; [exact S3|]. rewrite e3, V3. exact M2.
Qed.

(** ** C1 and C9: what a save-then-load round trip keeps *)

Lemma fresh_bot_init :
  __init__ Missing 20 None "2024-01-01T00:00:00" = Some fresh_bot.
Proof. vm_compute. reflexivity. Qed.

Lemma shape_profile_null : forall d k,
  loaded_shape d ->
  In k ["user_name"; "country"; "city"; "language"] ->
  Dict.get k d = Some JNull.
Proof.
  intros d k (f & r & c & kb & m & ->) Hin.
  cbv [In] in Hin.
  repeat (destruct Hin as [<-|Hin]); try contradiction; reflexivity.
Qed.

Lemma shape_no_open_attribute : forall d k,
  loaded_shape d ->
  In k ["favorite_color"; "hobby"; "likes"; "age"] ->
  Dict.get k d = None.
Proof.
  intros d k (f & r & c & kb & m & ->) Hin.
  cbv [In] in Hin.
  repeat (destruct Hin as [<-|Hin]); try contradiction; reflexivity.
Qed.

(** C1 (the code does not do this).  Whatever memory.json holds, the chatbot
    built from it has all four profile fields null: [isinstance(raw[k],
    type(self.data[k]))] compares with the type of the default [None], so a
    saved string is never adopted.  On the concrete run: "My name is Ali"
    stores and saves [user_name = "Ali"], and the chatbot built from that
    very file has [user_name] null again. *)
Theorem saved_profile_not_adopted :
  (forall file size model now,
     exists b,
       __init__ file size model now = Some b /\
       forall k, In k ["user_name"; "country"; "city"; "language"] ->
                 Dict.get k (data b) = Some JNull) /\
  (exists reply b1 b2,
     get_response "2024-01-01 00:00:01" "My name is Ali" fresh_bot = Some (reply, b1) /\
     Dict.get "user_name" (data b1) = Some (JStr "Ali") /\
     memory_file b1 = Parsed (JObj (data b1)) /\
     __init__ (memory_file b1) 20 None "2024-01-02T00:00:00" = Some b2 /\
     Dict.get "user_name" (data b2) = Some JNull).
Proof.
  split.
  - intros file size model now.
    destruct (init_total file size model now) as (b & E & S & _).
    exists b. split; [exact E|]. intros k Hk. now apply shape_profile_null.
  - do 3 eexists.
    split; [vm_compute; reflexivity|].
    split; [vm_compute; reflexivity|].
    split; [vm_compute; reflexivity|].
    split; vm_compute; reflexivity.
Qed.

Lemma first_match_key : forall rules text key m,
  first_match rules text = Some (key, m) -> In key (List.map snd rules).
Proof.
  induction rules as [|[p k] rules IH]; simpl; intros text key m H; [discriminate|].
  destruct (re_search p text).
  - injection H as <- _. now left.
  - right. eapply IH; eassumption.
Qed.

(** C9.  The chatbot built from any memory.json has exactly the keys of the
    default schema.  So an attribute that the structured extractor finds in
    an ASCII line and writes under a key of its own (favorite_color, hobby,
    likes, age) is in the store, is in the saved file when the store can be
    written (every text in it has a UTF-8 form), and is absent from the
    chatbot built from that file, as from the chatbot built from any
    file. *)
Theorem open_attributes_lost_on_reload :
  (forall file size model now,
     exists b, __init__ file size model now = Some b /\
               Dict.keys (data b) = schema_keys) /\
  (forall (b : AliChatbot) (text key : string) (m : mstate),
     Str.is_ascii text = true ->
     first_match patterns text = Some (key, m) ->
     In key ["favorite_color"; "hobby"; "likes"; "age"] ->
     exists reply b' stored,
       _learn_structured_fact text b = Some (Some reply, b') /\
       Dict.get key (data b') = Some (JStr stored) /\
       (Py.encodable (JObj (data b')) = true ->
        memory_file b' = Parsed (JObj (data b'))) /\
       forall file size model now,
         exists b2,
           __init__ file size model now = Some b2 /\
           Dict.get key (data b2) = None).
Proof.
  split.
  - intros file size model now.
    destruct (init_total file size model now) as (b & E & S & _).
    exists b. split; [exact E|]. now apply shape_keys.
  - intros [d c n f em ix] text key m _ Hm Hkey.
    unfold _learn_structured_fact. rewrite Hm. run_bot.
    do 3 eexists. split; [reflexivity|]. cbn [data memory_file].
    split; [apply get_set_same|]. split; [reflexivity|].
    intros file size model now.
    destruct (init_total file size model now) as (b2 & E & S & _).
    exists b2. split; [exact E|]. now apply shape_no_open_attribute.
Qed.

Lemma open_attributes_lost_on_reload_witness :
  exists reply b' stored,
    _learn_structured_fact "my hobby is chess" sample_bot = Some (Some reply, b') /\
    Dict.get "hobby" (data b') = Some (JStr stored) /\
    (Py.encodable (JObj (data b')) = true ->
     memory_file b' = Parsed (JObj (data b'))) /\
    forall file size model now,
      exists b2,
        __init__ file size model now = Some b2 /\
        Dict.get "hobby" (data b2) = None.
Proof.
  destruct (first_match patterns "my hobby is chess") as [[key m]|] eqn:E;
    [|vm_compute in E; discriminate].
  assert (Hk : key = "hobby") by (vm_compute in E; congruence).
  subst key.
  apply (proj2 open_attributes_lost_on_reload sample_bot "my hobby is chess" "hobby" m
           eq_refl E).
  simpl. tauto.
Defined.

(** ** C6: one logged exchange per answered call *)

Lemma same_log_refl : forall b, same_log b b.
Proof. now repeat split. Qed.

Lemma same_log_trans : forall b1 b2 b3,
  same_log b1 b2 -> same_log b2 b3 -> same_log b1 b3.
Proof. intros b1 b2 b3 (a1 & a2 & a3) (c1 & c2 & c3). repeat split; congruence. Qed.

Lemma store_in_other : forall k k2 v d d' k0,
  store_in k k2 v d = Some d' -> k <> k0 -> Dict.get k0 d' = Dict.get k0 d.
Proof.
  unfold store_in; intros k k2 v d d' k0 H Hne.
  destruct (Dict.get k d) as [[]|]; try discriminate.
  injection H as <-. now apply get_set_other.
Qed.

Lemma setdefault_other : forall k v d k0,
  k <> k0 -> Dict.get k0 (setdefault k v d) = Dict.get k0 d.
Proof.
  unfold setdefault; intros k v d k0 Hne.
  destruct (Dict.has k d); [reflexivity|now apply get_set_other].
Qed.

Lemma structured_keeps_log : forall text, keeps_log (_learn_structured_fact text).
Proof.
  intros text [d c n f em ix] x b'. unfold _learn_structured_fact.
  destruct (first_match patterns text) as [[key m]|] eqn:E.
  - run_bot. intros [= _ <-]. unfold same_log. run_bot. repeat split.
    apply get_set_other.
    apply first_match_key in E. cbv [patterns List.map snd In] in E.
    repeat (destruct E as [<-|E]); try contradiction; discriminate.
  - destruct (first_match rel_patterns text) as [[key m]|].
    + run_bot.
      destruct (store_in "relationships" key _ _) as [d'|] eqn:S; [|discriminate].
      intros [= _ <-]. unfold same_log. run_bot. repeat split.
      rewrite (store_in_other _ _ _ _ _ "conversations" S) by discriminate.
      apply setdefault_other. discriminate.
    + run_bot. intros [= _ <-]. apply same_log_refl.
Qed.

Lemma teach_keeps_log : forall key explanation, keeps_log (teach key explanation).
Proof.
  intros key explanation [d c n f em ix] x b'. unfold teach. run_bot.
  destruct (store_in "flexipdf_knowledge" key _ _) as [d'|] eqn:S; [|discriminate].
  intros [= _ <-]. unfold same_log. run_bot. repeat split.
  rewrite (store_in_other _ _ _ _ _ "conversations" S) by discriminate.
  apply setdefault_other. discriminate.
Qed.

Lemma knowledge_keeps_log : forall text, keeps_log (_learn_flexipdf_knowledge text).
Proof.
  intros text b x b'. unfold _learn_flexipdf_knowledge.
  destruct (re_search learn_pattern text) as [m|];
    [|destruct (re_search teach_pattern text) as [m|]].
  3: { unfold ret. intros [= _ <-]. apply same_log_refl. }
  all: unfold bind at 1;
    destruct (teach _ _ b) as [[[] b1]|] eqn:T; [|discriminate];
    unfold ret; intros [= _ <-]; exact (teach_keeps_log _ _ _ _ _ T).
Qed.

Lemma fact_keeps_log : forall text, keeps_log (_learn_fact_statement text).
Proof.
  intros text [d c n f em ix] x b'. unfold _learn_fact_statement.
  destruct (re_match question_guard text); [unfold ret; intros [= _ <-]; apply same_log_refl|].
  destruct (re_match fact_pattern text) as [m|];
    [|unfold ret; intros [= _ <-]; apply same_log_refl].
  destruct (_ || _); [unfold ret; intros [= _ <-]; apply same_log_refl|].
  run_bot.
  destruct (store_in "facts" _ _ _) as [d'|] eqn:S; [|discriminate].
  intros [= _ <-]. unfold same_log. run_bot. repeat split.
  now rewrite (store_in_other _ _ _ _ _ "conversations" S) by discriminate.
Qed.

Lemma ask_keeps_log : forall A (f : AliChatbot -> option A), keeps_log (ask f).
Proof.
  intros A f b x b'. unfold ask, bind, self, lift.
  destruct (f b); unfold ret, raise; [|discriminate].
  intros [= _ <-]. apply same_log_refl.
Qed.

Lemma log_and_return_logs_once : forall now text reply,
  logs_once now text (log_and_return now text reply).
Proof.
  intros now text reply b r b'. unfold log_and_return, bind.
  destruct (_remember_conversation now text reply b) as [[[] b1]|] eqn:E; [|discriminate].
  unfold ret. intros [= <- <-]. exists b. split; [apply same_log_refl|exact E].
Qed.

Lemma stage_logs_once : forall now text (s : M (option string)) (next : M json),
  keeps_log s -> logs_once now text next -> logs_once now text (stage now text s next).
Proof.
  intros now text s next Hs Hnext b reply b'. unfold stage, bind.
  destruct (s b) as [[r b1]|] eqn:E; [|discriminate].
  apply Hs in E.
  assert (Hgo : next b1 = Some (reply, b') ->
                exists b_mid, same_log b b_mid /\
                  _remember_conversation now text reply b_mid = Some (tt, b')).
  { intros H. apply Hnext in H as (b_mid & L & R).
    exists b_mid. split; [eapply same_log_trans; eassumption|exact R]. }
  destruct r as [r|]; [|exact Hgo].
  destruct (String.eqb r ""); [exact Hgo|].
  intros H. apply log_and_return_logs_once in H as (b_mid & L & R).
  exists b_mid. split; [eapply same_log_trans; eassumption|exact R].
Qed.

Lemma lift_inv : forall A (o : option A) b x b',
  lift o b = Some (x, b') -> o = Some x /\ b' = b.
Proof.
  intros A [a|] b x b'; unfold lift, ret, raise; intros H; inversion H; auto.
Qed.

Lemma small_talk_logs_once : forall now text, logs_once now text (small_talk now text).
Proof.
  intros now text b reply b'. unfold small_talk, bind, self.
  destruct (lift (get_map "flexipdf_knowledge" (data b)) b) as [[kb b0]|] eqn:K;
    [|discriminate].
  apply lift_inv in K as [_ ->].
  destruct (help_lookup kb _ help_map); [apply log_and_return_logs_once|].
  destruct (mood_reply _); [apply log_and_return_logs_once|].
  destruct (re_match greeting_pattern _); [apply log_and_return_logs_once|].
  destruct (re_match topic_pattern _); [|apply log_and_return_logs_once].
  destruct (lift (get_map "facts" (data b)) b) as [[fs b0]|] eqn:F; [|discriminate].
  apply lift_inv in F as [_ ->].
  destruct (Dict.get _ fs); [apply log_and_return_logs_once|].
  destruct (Dict.get _ kb); apply log_and_return_logs_once.
Qed.


(** *** [get_response] returns *)

(** A change of the store that keeps the log and the kind of each table. *)
Lemma is_dict_inv : forall k d,
  Py.is_dict (Dict.get_or_null k d) = true -> exists o, Dict.get k d = Some (JObj o).
Proof.
  unfold Dict.get_or_null; intros k d.
  destruct (Dict.get k d) as [[]|]; try discriminate. now eexists.
Qed.

Lemma healthy_kept : forall b d,
  healthy b ->
  Dict.get "conversations" d = Dict.get "conversations" (data b) ->
  (forall k, In k ["facts"; "relationships"; "flexipdf_knowledge"] ->
             Py.is_dict (Dict.get_or_null k d) = true) ->
  forall f, healthy (set_file f (set_data d b)).
Proof.
  intros [d0 c n f0 em ix] d (W & X & E) Hc Ht f.
  destruct (well_formed_inv _ W) as (fs & rs & ks & cs & _ & _ & _ & Hcs & He).
  destruct (is_dict_inv "facts" d) as [fs' Hf']; [apply Ht; simpl; tauto|].
  destruct (is_dict_inv "relationships" d) as [rs' Hr']; [apply Ht; simpl; tauto|].
  destruct (is_dict_inv "flexipdf_knowledge" d) as [ks' Hk']; [apply Ht; simpl; tauto|].
  unfold healthy, conversations in *. run_bot. rewrite Hc.
  split; [|now split].
  eapply well_formed_intro; run_bot; try eassumption.
  now rewrite Hc.
Qed.

Lemma healthy_tables : forall b,
  healthy b ->
  exists f r k c,
    Dict.get "facts" (data b) = Some (JObj f) /\
    Dict.get "relationships" (data b) = Some (JObj r) /\
    Dict.get "flexipdf_knowledge" (data b) = Some (JObj k) /\
    Dict.get "conversations" (data b) = Some (JArr c).
Proof.
  intros b (W & _). destruct (well_formed_inv _ W) as (f & r & k & c & H).
  exists f, r, k, c. tauto.
Qed.

Ltac table_kind :=
  let k := fresh "k" in let H := fresh "H" in
  intros k H; cbv [In] in H;
  repeat (destruct H as [<-|H]); try contradiction;
  unfold Dict.get_or_null;
  rewrite ?get_set_same; rewrite ?get_set_other by discriminate;
  try reflexivity.

Lemma structured_returns : forall text, returns (_learn_structured_fact text).
Proof.
  intros text b Hb.
  destruct (healthy_tables b Hb) as (fs & rs & ks & cs & Hf & Hr & Hk & Hc).
  unfold _learn_structured_fact.
  destruct (first_match patterns text) as [[key m]|] eqn:E.
  - run_bot. do 2 eexists. split; [reflexivity|].
    apply first_match_key in E.
    assert (Hkey : forall k, In k ["facts"; "relationships"; "flexipdf_knowledge"; "conversations"] -> key <> k).
    { cbv [patterns List.map snd In] in E. intros k Hk0. cbv [In] in Hk0.
      repeat (destruct E as [<-|E]); try contradiction;
      repeat (destruct Hk0 as [<-|Hk0]); try contradiction; discriminate. }
    apply healthy_kept; [exact Hb| |].
    + apply get_set_other. apply Hkey. simpl; tauto.
    + intros k Hk0. unfold Dict.get_or_null.
      rewrite get_set_other by (apply Hkey; simpl in *; tauto).
      cbv [In] in Hk0. repeat (destruct Hk0 as [<-|Hk0]); try contradiction.
      * now rewrite Hf. * now rewrite Hr. * now rewrite Hk.
  - destruct (first_match rel_patterns text) as [[key m]|].
    + run_bot. unfold setdefault, Dict.has, store_in. rewrite Hr, Hr.
      do 2 eexists. split; [reflexivity|].
      apply healthy_kept; [exact Hb| |].
      * now apply get_set_other.
      * table_kind. now rewrite Hf. now rewrite Hk.
    + exists None, b. now split.
Qed.

Lemma teach_returns : forall key explanation, returns (teach key explanation).
Proof.
  intros key explanation b Hb.
  destruct (healthy_tables b Hb) as (fs & rs & ks & cs & Hf & Hr & Hk & Hc).
  unfold teach. run_bot. unfold setdefault, Dict.has, store_in. rewrite Hk, Hk.
  do 2 eexists. split; [reflexivity|].
  apply healthy_kept; [exact Hb| |].
  - now apply get_set_other.
  - table_kind. now rewrite Hf. now rewrite Hr.
Qed.

Lemma knowledge_returns : forall text, returns (_learn_flexipdf_knowledge text).
Proof.
  intros text b Hb. unfold _learn_flexipdf_knowledge.
  destruct (re_search learn_pattern text) as [m|];
    [|destruct (re_search teach_pattern text) as [m|]].
  3: { exists None, b. now split. }
  all: unfold bind at 1;
    match goal with |- context [teach ?k ?e ?b0] =>
      destruct (teach_returns k e b0 Hb) as ([] & b1 & -> & H1) end;
    do 2 eexists; split; [reflexivity|exact H1].
Qed.

Lemma fact_returns : forall text, returns (_learn_fact_statement text).
Proof.
  intros text b Hb.
  destruct (healthy_tables b Hb) as (fs & rs & ks & cs & Hf & Hr & Hk & Hc).
  unfold _learn_fact_statement.
  destruct (re_match question_guard text); [exists None, b; now split|].
  destruct (re_match fact_pattern text) as [m|]; [|exists None, b; now split].
  destruct (_ || _); [exists None, b; now split|].
  run_bot. unfold store_in. rewrite Hf.
  do 2 eexists. split; [reflexivity|].
  apply healthy_kept; [exact Hb| |].
  - now apply get_set_other.
  - table_kind. now rewrite Hr. now rewrite Hk.
Qed.

Lemma ask_returns : forall A (f : AliChatbot -> option A),
  (forall b, healthy b -> exists x, f b = Some x) -> returns (ask f).
Proof.
  intros A f Hf b Hb. destruct (Hf b Hb) as [x E].
  exists x, b. unfold ask, bind, self, lift. rewrite E. now split.
Qed.

Lemma relationship_query_returns : forall text b,
  healthy b -> exists x, _answer_relationship_query b text = Some x.
Proof.
  intros text b Hb.
  destruct (healthy_tables b Hb) as (fs & rs & ks & cs & Hf & Hr & Hk & Hc).
  unfold _answer_relationship_query, get_map. rewrite Hr.
  destruct (mentioned_relation _ _ _); [now eexists|].
  destruct (re_search who_is_my_pattern text); [|now eexists].
  destruct (Dict.get _ rs) as [name|]; [|now eexists].
  destruct (Py.truthy name); now eexists.
Qed.

Lemma fact_query_returns : forall text b,
  healthy b -> exists x, _answer_fact_query b text = Some x.
Proof.
  intros text b Hb.
  destruct (healthy_tables b Hb) as (fs & rs & ks & cs & Hf & Hr & Hk & Hc).
  unfold _answer_fact_query, get_map. rewrite Hf, Hk.
  destruct (re_match fact_query_pattern text); [|now eexists].
  destruct (Dict.get _ fs); [now eexists|].
  destruct (Dict.get _ ks); [now eexists|].
  destruct (Dict.get _ fs); now eexists.
Qed.

Lemma told_about_clean : forall topic cs,
  Forall (fun j => is_exchange j = true) cs ->
  exists found,
    told_about topic cs = Some found /\
    Forall (fun c => is_exchange (JObj c) = true) found.
Proof.
  intros topic cs H; induction H as [|j cs Hj _ IH]; simpl.
  - now exists [].
  - destruct IH as (found & -> & Hfound).
    destruct j as [| | | | | |c]; try discriminate.
    unfold is_exchange in Hj.
    destruct (Dict.get "user" c) as [[]|] eqn:U; try discriminate.
    destruct (Str.contains topic (Str.lower s)); eexists; split; try reflexivity; auto.
    constructor; [|assumption]. unfold is_exchange. now rewrite U.
Qed.

Lemma contextual_returns : forall text b,
  healthy b -> exists x, _contextual_reference b text = Some x.
Proof.
  intros text b Hb.
  destruct (healthy_tables b Hb) as (fs & rs & ks & cs & Hf & Hr & Hk & Hc).
  destruct Hb as (_ & X & S).
  unfold conversations in X. rewrite Hc in X.
  unfold _contextual_reference.
  destruct (existsb _ time_cues).
  - destruct (latest_long_input _); now eexists.
  - destruct (re_search told_pattern text) as [m|]; [|now eexists].
    unfold get_list. rewrite Hc.
    destruct (told_about_clean (Str.lower (Str.strip (group 1 m))) (List.rev cs))
      as (found & -> & Hfound).
    { apply Forall_rev. apply Forall_forall. intros j Hj.
      rewrite forallb_forall in X. now apply X. }
    destruct found as [|sample found].
    + destruct (embedding_model b) as [em|]; [|now eexists].
      destruct (faiss_index b) as [texts|]; [|now eexists].
      specialize (S texts (Str.strip (group 1 m))).
      destruct (semantic_search em texts _) as [[|first rest]|];
        [now eexists|now eexists|contradiction].
    + inversion Hfound as [|? ? Hs _]; subst. unfold is_exchange in Hs.
      destruct (Dict.get "user" sample) as [[]|]; try discriminate.
      destruct (Dict.get "ai" sample); try discriminate.
      destruct (Dict.get "time" sample); try discriminate.
      now eexists.
Qed.

Lemma log_and_return_returns : forall now text reply,
  returns (log_and_return now text reply).
Proof.
  intros now text reply b (W & X & S).
  destruct (remember_returns now text reply b W) as (b' & E & W' & _).
  exists reply, b'. unfold log_and_return, bind. rewrite E. split; [reflexivity|].
  destruct (remember_effect _ _ _ _ _ E) as (Hc & _).
  apply remember_inv in E as (d' & ix & _ & Hb').
  split; [exact W'|]. split.
  - rewrite Hc, forallb_app, X. reflexivity.
  - subst b'. exact S.
Qed.

Lemma stage_returns : forall now text (s : M (option string)) (next : M json),
  returns s -> returns next -> returns (stage now text s next).
Proof.
  intros now text s next Hs Hnext b Hb. unfold stage, bind.
  destruct (Hs b Hb) as (r & b1 & -> & H1).
  destruct r as [r|]; [|exact (Hnext b1 H1)].
  destruct (String.eqb r ""); [exact (Hnext b1 H1)|].
  exact (log_and_return_returns now text (JStr r) b1 H1).
Qed.

Lemma small_talk_returns : forall now text, returns (small_talk now text).
Proof.
  intros now text b Hb.
  destruct (healthy_tables b Hb) as (fs & rs & ks & cs & Hf & Hr & Hk & Hc).
  unfold small_talk, bind, self, lift, get_map, ret. rewrite Hk, Hf.
  destruct (help_lookup ks _ help_map); [now apply log_and_return_returns|].
  destruct (mood_reply _); [now apply log_and_return_returns|].
  destruct (re_match greeting_pattern _); [now apply log_and_return_returns|].
  destruct (re_match topic_pattern _); [|now apply log_and_return_returns].
  destruct (Dict.get _ fs); [now apply log_and_return_returns|].
  destruct (Dict.get _ ks); now apply log_and_return_returns.
Qed.

(** On a healthy chatbot [get_response] returns a reply, and the chatbot it
    leaves is healthy again. *)
Lemma get_response_returns : forall now input, returns (get_response now input).
Proof.
  intros now input. unfold get_response.
  destruct (_ || _); [intros b Hb; exists (JStr empty_prompt), b; now split|].
  repeat (apply stage_returns;
          [first [apply structured_returns | apply knowledge_returns
                 | apply fact_returns
                 | apply ask_returns; intros b Hb;
                   first [apply relationship_query_returns
                         | apply fact_query_returns
                         | apply contextual_returns
                         | eexists; reflexivity]; exact Hb]|]).
  apply small_talk_returns.
Qed.

(** C6.  On an empty or whitespace-only input [get_response] returns the
    prompt and the chatbot is unchanged: store, log, buffer and file.  On
    any other input, whenever it returns a reply it has appended exactly one
    exchange - the stripped input, that reply, the time - at the end of the
    Conversation Log and pushed the same exchange on the Context Buffer.
    And it does return on every healthy chatbot.  The input is taken to be
    ASCII, where the white space that [strip] removes is the one of
    [Str.strip]. *)
Theorem get_response_logs_exactly_once : forall (now input : string) (b : AliChatbot),
  Str.is_ascii input = true ->
  (Str.strip input = "" ->
   get_response now input b = Some (JStr empty_prompt, b)) /\
  (Str.strip input <> "" ->
   forall reply b',
     get_response now input b = Some (reply, b') ->
     conversations b'
     = (conversations b ++ [exchange_json (Exchange (Str.strip input) reply now)])%list /\
     context b'
     = deque_append (ctx_size b) (context b) (Exchange (Str.strip input) reply now)) /\
  (healthy b ->
   exists reply b', get_response now input b = Some (reply, b') /\ healthy b').
Proof.
  intros now input b _. split; [|split].
  - intros E. unfold get_response. rewrite E, String.eqb_refl, orb_true_r. reflexivity.
  - intros Hne reply b'. unfold get_response.
    destruct (String.eqb_spec (Str.strip input) "") as [E|_]; [contradiction|].
    destruct (String.eqb_spec input "") as [->|_]; [now elim Hne|].
    cbn [orb]. intros H.
    assert (L : logs_once now (Str.strip input)
      (stage now (Str.strip input) (_learn_structured_fact (Str.strip input))
      (stage now (Str.strip input) (_learn_flexipdf_knowledge (Str.strip input))
      (stage now (Str.strip input) (_learn_fact_statement (Str.strip input))
      (stage now (Str.strip input) (ask (fun b => _answer_relationship_query b (Str.strip input)))
      (stage now (Str.strip input) (ask (fun b => _answer_fact_query b (Str.strip input)))
      (stage now (Str.strip input) (ask (fun b => Some (_answer_personal_query b (Str.strip input))))
      (stage now (Str.strip input) (ask (fun b => _contextual_reference b (Str.strip input)))
      (small_talk now (Str.strip input)))))))))).
    { repeat (apply stage_logs_once;
              [first [apply structured_keeps_log | apply knowledge_keeps_log
                     | apply fact_keeps_log | apply ask_keeps_log]|]).
      apply small_talk_logs_once. }
    apply L in H as (b_mid & (Lc & Lx & Ln) & R).
    apply remember_effect in R as (Rc & Rx & _).
    unfold conversations in *. rewrite Lc, Lx, Ln in *. now split.
  - apply get_response_returns.
Qed.

Lemma get_response_logs_exactly_once_witness :
  get_response "t" "   " sample_bot = Some (JStr empty_prompt, sample_bot) /\
  exists reply b',
    get_response "t" "hi there" sample_bot = Some (reply, b') /\
    conversations b' = [exchange_json (Exchange "hi there" reply "t")] /\
    context b' = [Exchange "hi there" reply "t"].
Proof.
  split.
  - apply (proj1 (get_response_logs_exactly_once "t" "   " sample_bot eq_refl)).
    reflexivity.
  - destruct (proj2 (proj2 (get_response_logs_exactly_once "t" "hi there" sample_bot
                              eq_refl)))
      as (reply & b' & E & _).
    + repeat split.
    + exists reply, b'. split; [exact E|].
      apply (proj1 (proj2 (get_response_logs_exactly_once "t" "hi there" sample_bot
                             eq_refl)));
        [vm_compute; discriminate|exact E].
Defined.

(** ** Running [get_response] on a given line *)

Lemma stage_none : forall now text (s : M (option string)) next b b1,
  s b = Some (None, b1) -> stage now text s next b = next b1.
Proof. intros now text s next b b1 E. unfold stage, bind. now rewrite E. Qed.

Lemma stage_some : forall now text (s : M (option string)) next b b1 r,
  s b = Some (Some r, b1) -> r <> "" ->
  stage now text s next b = log_and_return now text (JStr r) b1.
Proof.
  intros now text s next b b1 r E Hr. unfold stage, bind. rewrite E.
  destruct (String.eqb_spec r ""); [contradiction|reflexivity].
Qed.

Lemma structured_none : forall text b,
  first_match patterns text = None -> first_match rel_patterns text = None ->
  _learn_structured_fact text b = Some (None, b).
Proof. intros text b E1 E2. unfold _learn_structured_fact. now rewrite E1, E2. Qed.

Lemma knowledge_none : forall text b,
  re_search learn_pattern text = None -> re_search teach_pattern text = None ->
  _learn_flexipdf_knowledge text b = Some (None, b).
Proof. intros text b E1 E2. unfold _learn_flexipdf_knowledge. now rewrite E1, E2. Qed.

Lemma guarded_none : forall text b m,
  re_match question_guard text = Some m ->
  _learn_fact_statement text b = Some (None, b).
Proof. intros text b m E. unfold _learn_fact_statement. now rewrite E. Qed.

Lemma get_response_text : forall now text b,
  text <> "" -> Str.strip text = text ->
  get_response now text b
  = stage now text (_learn_structured_fact text)
   (stage now text (_learn_flexipdf_knowledge text)
   (stage now text (_learn_fact_statement text)
   (stage now text (ask (fun b => _answer_relationship_query b text))
   (stage now text (ask (fun b => _answer_fact_query b text))
   (stage now text (ask (fun b => Some (_answer_personal_query b text)))
   (stage now text (ask (fun b => _contextual_reference b text))
   (small_talk now text))))))) b.
Proof.
  intros now text b Hne Hs. unfold get_response. rewrite Hs.
  destruct (String.eqb_spec text ""); [contradiction|reflexivity].
Qed.

(** ** C10: a question word outside the guard *)

Lemma where_is_a_fact :
  re_match question_guard "where is my phone" = None /\
  exists m, re_match fact_pattern "where is my phone" = Some m /\
            Str.lower (captured 1 m) = "where" /\ captured 2 m = "my phone".
Proof. split; [|eexists; split; [|split]]; vm_compute; reflexivity. Qed.

(** C10.  The guard of the generic fact extractor does not match
    "where is my phone", so on every well-formed chatbot [get_response]
    takes the line for a statement: it answers with the learned-fact
    confirmation and the Fact Table gets the entry where -> my phone. *)
Theorem where_question_is_learned : forall (now : string) (b : AliChatbot),
  well_formed b = true ->
  re_match question_guard "where is my phone" = None /\
  exists b',
    get_response now "where is my phone" b
    = Some (JStr "Got it! I’ve learned that **where** is **my phone** 🧠", b') /\
    facts b' = Dict.set "where" (JStr "my phone") (facts b).
Proof.
  intros now b W.
  destruct where_is_a_fact as (G & m & Em & E1 & E2).
  split; [exact G|].
  destruct (well_formed_inv b W) as (fs & rs & ks & cs & Hf & Hr & Hk & Hc & He).
  rewrite get_response_text by (vm_compute; congruence || reflexivity).
  rewrite (stage_none _ _ _ _ b b) by (apply structured_none; vm_compute; reflexivity).
  rewrite (stage_none _ _ _ _ b b) by (apply knowledge_none; vm_compute; reflexivity).
  set (d1 := Dict.set "facts" (JObj (Dict.set "where" (JStr "my phone") fs)) (data b)).
  set (b1 := set_file (Parsed (JObj d1)) (set_data d1 b)).
  assert (S3 : _learn_fact_statement "where is my phone" b
               = Some (Some "Got it! I’ve learned that **where** is **my phone** 🧠", b1)).
  { unfold _learn_fact_statement. rewrite G, Em, E1, E2.
    change ((String.length "where" <? 2)%nat || (String.length "my phone" <? 1)%nat)
      with false. cbn iota.
    run_bot. unfold store_in. rewrite Hf. reflexivity. }
  rewrite (stage_some _ _ _ _ b b1 _ S3) by discriminate.
  assert (W1 : well_formed b1 = true).
  { destruct b as [d c n f em ix]. eapply well_formed_intro; subst b1 d1; run_bot.
    - apply get_set_same.
    - rewrite get_set_other by discriminate. eassumption.
    - rewrite get_set_other by discriminate. eassumption.
    - rewrite get_set_other by discriminate. eassumption.
    - exact He. }
  destruct (remember_returns now "where is my phone"
              (JStr "Got it! I’ve learned that **where** is **my phone** 🧠") b1 W1)
    as (b' & R & _ & Hother).
  exists b'. unfold log_and_return, bind. rewrite R. split; [reflexivity|].
  unfold facts. rewrite Hother by discriminate.
  subst b1 d1. destruct b; run_bot. now rewrite get_set_same, Hf.
Qed.

Lemma where_question_is_learned_witness :
  exists b',
    get_response "t" "where is my phone" fresh_bot
    = Some (JStr "Got it! I’ve learned that **where** is **my phone** 🧠", b') /\
    facts b' = [("where", JStr "my phone")].
Proof.
  destruct (where_question_is_learned "t" fresh_bot) as (_ & b' & E & F).
  - vm_compute. reflexivity.
  - exists b'. split; [exact E|exact F].
Defined.

(** ** C2: teaching a Knowledge Base entry *)

Lemma teach_split_matches :
  first_match patterns teach_split = None /\
  first_match rel_patterns teach_split = None /\
  exists m, re_search learn_pattern teach_split = Some m /\
            topic_key m = "pdf_split" /\
            captured 2 m = "divide PDF into multiple files".
Proof.
  split; [|split; [|eexists; split; [|split]]]; vm_compute; reflexivity.
Qed.

Lemma what_is_pdf_split_matches :
  first_match patterns "what is pdf_split" = None /\
  first_match rel_patterns "what is pdf_split" = None /\
  re_search learn_pattern "what is pdf_split" = None /\
  re_search teach_pattern "what is pdf_split" = None /\
  (exists g, re_match question_guard "what is pdf_split" = Some g) /\
  exists m, re_match fact_query_pattern "what is pdf_split" = Some m /\
            Str.lower (captured 2 m) = "pdf_split".
Proof.
  repeat split; try (vm_compute; reflexivity);
    eexists; try split; vm_compute; reflexivity.
Qed.

Lemma help_lookup_other_key : forall k0 v kb lower hs,
  (forall k, In k (List.map snd hs) -> k0 <> k) ->
  help_lookup (Dict.set k0 v kb) lower hs = help_lookup kb lower hs.
Proof.
  intros k0 v kb lower hs; induction hs as [|[phrase key] hs IH]; intros H; simpl;
    [reflexivity|].
  unfold Dict.get_or_null. rewrite get_set_other by (apply H; now left).
  rewrite IH by (intros k Hk; apply H; now right). reflexivity.
Qed.

(** The counterexample to C2 as stated: on a freshly started chatbot the
    teaching command stores pdf_split, and the reply to "split pdf" is the
    seeded entry split_pdf, which does not contain the taught explanation. *)
Lemma taught_split_not_surfaced :
  exists r1 b1 r2 b2,
    get_response "2024-01-01 00:00:01" teach_split fresh_bot = Some (r1, b1) /\
    Dict.get "pdf_split" (knowledge b1) = Some (JStr "divide PDF into multiple files") /\
    get_response "2024-01-01 00:00:02" "split pdf" b1 = Some (JStr r2, b2) /\
    r2 = "Split a PDF into multiple smaller PDF files by page ranges. If you'd like, I can guide you step-by-step." /\
    Str.contains "divide PDF into multiple files" r2 = false.
Proof.
  do 4 eexists.
  split; [vm_compute; reflexivity|].
  split; [vm_compute; reflexivity|].
  split; [vm_compute; reflexivity|].
  split; vm_compute; reflexivity.
Qed.

(** C2, amended.  On every well-formed chatbot the teaching command is
    confirmed and the Knowledge Base gets pdf_split -> "divide PDF into
    multiple files" and is otherwise unchanged.  No help phrase reads that
    key ("split pdf" reads split_pdf), so every help lookup gives what it
    gave before.  The taught explanation is what the definition query
    "what is pdf_split" returns, when no fact pdf_split and no relationship
    entry answers first. *)
Theorem teaching_stores_under_taught_key : forall (now now' : string) (b : AliChatbot),
  well_formed b = true ->
  exists b1,
    get_response now teach_split b
    = Some (JStr "Nice! I learned that **pdf split** means: divide PDF into multiple files ✅", b1) /\
    knowledge b1
    = Dict.set "pdf_split" (JStr "divide PDF into multiple files") (knowledge b) /\
    (forall lower,
       help_lookup (knowledge b1) lower help_map
       = help_lookup (knowledge b) lower help_map) /\
    (Dict.get "pdf_split" (facts b1) = None ->
     _answer_relationship_query b1 "what is pdf_split" = Some None ->
     exists b2,
       get_response now' "what is pdf_split" b1
       = Some (JStr "Pdf split: divide PDF into multiple files", b2)).
Proof.
  intros now now' b W.
  destruct teach_split_matches as (P1 & P2 & m & Em & Ek & Ex).
  destruct (well_formed_inv b W) as (fs & rs & ks & cs & Hf & Hr & Hk & Hc & He).
  rewrite get_response_text by (vm_compute; congruence || reflexivity).
  rewrite (stage_none _ _ _ _ b b) by (apply structured_none; assumption).
  set (d1 := Dict.set "flexipdf_knowledge"
               (JObj (Dict.set "pdf_split" (JStr "divide PDF into multiple files") ks))
               (data b)).
  set (b1 := set_file (Parsed (JObj d1)) (set_data d1 b)).
  assert (S2 : _learn_flexipdf_knowledge teach_split b
               = Some (Some "Nice! I learned that **pdf split** means: divide PDF into multiple files ✅", b1)).
  { unfold _learn_flexipdf_knowledge. rewrite Em, Ek, Ex.
    unfold teach. run_bot. unfold setdefault, Dict.has, store_in. rewrite Hk, Hk.
    reflexivity. }
  rewrite (stage_some _ _ _ _ b b1 _ S2) by discriminate.
  assert (W1 : well_formed b1 = true).
  { destruct b as [d c n f em ix]. eapply well_formed_intro; subst b1 d1; run_bot.
    - rewrite get_set_other by discriminate. eassumption.
    - rewrite get_set_other by discriminate. eassumption.
    - apply get_set_same.
    - rewrite get_set_other by discriminate. eassumption.
    - exact He. }
  destruct (remember_returns now teach_split
              (JStr "Nice! I learned that **pdf split** means: divide PDF into multiple files ✅")
              b1 W1) as (b' & R & W' & Hother).
  exists b'. unfold log_and_return, bind. rewrite R. split; [reflexivity|].
  assert (K' : Dict.get "flexipdf_knowledge" (data b')
               = Some (JObj (Dict.set "pdf_split" (JStr "divide PDF into multiple files") ks))).
  { rewrite Hother by discriminate. subst b1 d1. destruct b; run_bot. apply get_set_same. }
  assert (F' : Dict.get "facts" (data b') = Some (JObj fs)).
  { rewrite Hother by discriminate. subst b1 d1. destruct b; run_bot.
    now rewrite get_set_other by discriminate. }
  unfold knowledge, facts. rewrite K', F', Hk.
  split; [reflexivity|]. split.
  - intros lower. apply help_lookup_other_key.
    intros k Hin. cbv [help_map List.map snd In] in Hin.
    repeat (destruct Hin as [<-|Hin]); try contradiction; discriminate.
  - intros Hnofact Hnorel.
    destruct what_is_pdf_split_matches as (Q1 & Q2 & Q3 & Q4 & (g & Qg) & mq & Qm & Qt).
    assert (A : _answer_fact_query b' "what is pdf_split"
                = Some (Some "Pdf split: divide PDF into multiple files")).
    { unfold _answer_fact_query, get_map. rewrite Qm, Qt, F', K', Hnofact.
      rewrite get_set_same. vm_compute. reflexivity. }
    rewrite get_response_text by (vm_compute; congruence || reflexivity).
    rewrite (stage_none _ _ _ _ b' b') by (apply structured_none; assumption).
    rewrite (stage_none _ _ _ _ b' b') by (apply knowledge_none; assumption).
    rewrite (stage_none _ _ _ _ b' b') by (eapply guarded_none; eassumption).
    rewrite (stage_none _ _ _ _ b' b')
      by (unfold ask, bind, self, lift; rewrite Hnorel; reflexivity).
    destruct (remember_returns now' "what is pdf_split"
                (JStr "Pdf split: divide PDF into multiple files") b' W')
      as (b2 & R2 & _).
    exists b2.
    rewrite (stage_some _ _ _ _ b' b' "Pdf split: divide PDF into multiple files").
    + unfold log_and_return, bind. now rewrite R2.
    + unfold ask, bind, self, lift. now rewrite A.
    + discriminate.
Qed.

Lemma teaching_stores_under_taught_key_witness :
  exists b1 b2,
    get_response "t1" teach_split fresh_bot
    = Some (JStr "Nice! I learned that **pdf split** means: divide PDF into multiple files ✅", b1) /\
    Dict.get "pdf_split" (knowledge b1) = Some (JStr "divide PDF into multiple files") /\
    get_response "t2" "what is pdf_split" b1
    = Some (JStr "Pdf split: divide PDF into multiple files", b2).
Proof.
  destruct (teaching_stores_under_taught_key "t1" "t2" fresh_bot)
    as (b1 & E & K & _ & Q).
  - vm_compute. reflexivity.
  - assert (B : Some b1 = option_map snd (get_response "t1" teach_split fresh_bot))
      by (rewrite E; reflexivity).
    vm_compute in B. injection B as B.
    destruct Q as (b2 & E2).
    + rewrite B. vm_compute. reflexivity.
    + rewrite B. vm_compute. reflexivity.
    + exists b1, b2. split; [exact E|]. split; [|exact E2].
      rewrite K. vm_compute. reflexivity.
Defined.

(** ** Regular expressions on lines of a known shape *)

Lemma length_append : forall s1 s2,
  String.length (s1 ++ s2) = String.length s1 + String.length s2.
Proof. induction s1; simpl; intros; [reflexivity|now rewrite IHs1]. Qed.

(** A literal reads any spelling of itself. *)
Lemma rmatch_lit : forall l w post bf gs k,
  Str.lower w = Str.lower l ->
  rmatch (lit l) (MState bf (w ++ post) gs) k
  = k (MState (last_before bf w) post gs).
Proof.
  induction l as [|c l IH]; intros w post bf gs k H.
  - destruct w; [reflexivity|discriminate].
  - destruct w as [|x w]; [discriminate|].
    injection H as Hc Hw.
    cbn [lit rmatch ci append Re.rest last_before]. rewrite Hc, Ascii.eqb_refl.
    unfold step. cbn [groups]. now apply IH.
Qed.

(** A greedy repetition of a class reads the whole run of it when what
    follows the run can be matched there. *)
Lemma star_greedy_run : forall p k s1 s2 gs m n bf,
  Str.all p s1 = true -> stops p s2 = true ->
  String.length (s1 ++ s2) <= n ->
  k (MState (last_before bf s1) s2 gs) = Some m ->
  star_loop true (rmatch (Chr p)) k n (MState bf (s1 ++ s2) gs) = Some m.
Proof.
  intros p k s1 s2 gs m.
  assert (Hbody : forall st k0,
            rmatch (Chr p) st k0
            = match Re.rest st with
              | String c s' => if p c then k0 (step c s' st) else None
              | EmptyString => None
              end) by reflexivity.
  remember (rmatch (Chr p)) as body eqn:Eb. clear Eb.
  induction s1 as [|c s1 IH]; intros n bf Hall Hstop Hn Hk.
  - cbn [append last_before] in *.
    destruct n; [exact Hk|]. cbn [star_loop]. rewrite Hbody. cbn [Re.rest].
    destruct s2 as [|c s2]; [now rewrite Hk|].
    cbn [stops] in Hstop. apply negb_true_iff in Hstop. now rewrite Hstop, Hk.
  - cbn [Str.all] in Hall. apply andb_true_iff in Hall as [Hc Hall].
    cbn [append String.length] in Hn.
    destruct n as [|n]; [lia|].
    cbn [star_loop append]. rewrite Hbody. cbn [Re.rest]. rewrite Hc.
    unfold step. cbn [Re.rest groups String.length].
    rewrite (proj2 (Nat.ltb_lt _ _)) by lia.
    rewrite (IH n (Some c)); auto. lia.
Qed.

Lemma rmatch_star_greedy : forall p k s1 s2 gs m bf,
  Str.all p s1 = true -> stops p s2 = true ->
  k (MState (last_before bf s1) s2 gs) = Some m ->
  rmatch (Star true (Chr p)) (MState bf (s1 ++ s2) gs) k = Some m.
Proof.
  intros. cbn [rmatch Re.rest]. now apply star_greedy_run.
Qed.

Lemma rmatch_alts_some : forall rs st k r m,
  In r rs -> rmatch r st k = Some m -> exists m', rmatch (alts rs) st k = Some m'.
Proof.
  induction rs as [|r0 rs IH]; intros st k r m Hin Hr; [contradiction|].
  destruct rs as [|r1 rs].
  - destruct Hin as [<-|[]]. now exists m.
  - cbn [alts rmatch]. fold (alts (r1 :: rs)).
    destruct (rmatch r0 st k) as [m0|] eqn:E0; [now exists m0|].
    destruct Hin as [<-|Hin]; [congruence|].
    eapply IH; eassumption.
Qed.

Lemma lower_is_alpha : forall c,
  Char.is_lower (Char.lower c) = true -> Char.is_word c = true.
Proof.
  intros [[] [] [] [] [] [] [] []]; vm_compute; intros H;
    first [reflexivity | discriminate].
Qed.

Lemma word_before_spelling : forall w l bf post gs,
  Str.lower w = l -> Str.all Char.is_lower l = true -> l <> "" ->
  word_before (MState (last_before bf w) post gs) = true.
Proof.
  induction w as [|c w IH]; intros l bf post gs Hl Hall Hne.
  - cbn in Hl. congruence.
  - cbn [Str.lower Str.map] in Hl. subst l.
    cbn [Str.all] in Hall. apply andb_true_iff in Hall as [Hc Hall].
    cbn [last_before]. destruct w as [|c' w'].
    + cbn [last_before word_before before]. now apply lower_is_alpha.
    + eapply IH; [reflexivity|exact Hall|discriminate].
Qed.

Lemma word_before_close : forall i st st1,
  word_before (close_group i st st1) = word_before st1.
Proof. reflexivity. Qed.

Lemma word_after_close : forall i st st1,
  word_after (close_group i st st1) = word_after st1.
Proof. reflexivity. Qed.

(** ** C4: the question-word guard *)

Lemma question_guard_matches : forall sp w post,
  Str.all Char.is_space sp = true ->
  In (Str.lower w) ["what"; "who"; "why"; "how"] ->
  stops Char.is_word post = true ->
  exists m, re_match question_guard (sp ++ w ++ post) = Some m.
Proof.
  intros sp w post Hsp Hw Hrest.
  assert (Hspell : Str.all Char.is_lower (Str.lower w) = true /\ Str.lower w <> "").
  { cbv [In] in Hw. repeat (destruct Hw as [<-|Hw]); try contradiction;
      split; (reflexivity || discriminate). }
  destruct Hspell as [Hlow Hne].
  assert (Hstop : stops Char.is_space (w ++ post) = true).
  { destruct w as [|c w]; [now elim Hne|]. cbn [append stops].
    cbn [Str.lower Str.map Str.all] in Hlow. apply andb_true_iff in Hlow as [Hc _].
    revert Hc. clear. destruct c as [[] [] [] [] [] [] [] []]; vm_compute;
      intros H; first [reflexivity | discriminate]. }
  unfold re_match, question_guard, start. cbn [seqs rmatch].
  set (k := fun st1 : mstate => rmatch (Grp 1 (alts [lit "what"; lit "who"; lit "why"; lit "how"])) st1
                 (fun st2 => rmatch Wordb st2 Some)).
  assert (Hk : exists m, k (MState (last_before None sp) (w ++ post) []) = Some m).
  { subst k. cbn beta. cbn [rmatch].
    eapply (rmatch_alts_some _ _ _ (lit (Str.lower w))).
    - cbv [In] in Hw |- *. repeat (destruct Hw as [<-|Hw]); try contradiction; tauto.
    - rewrite rmatch_lit.
      + rewrite word_before_close, word_after_close.
        rewrite (word_before_spelling w (Str.lower w)
                   (last_before None sp) post [] eq_refl Hlow Hne).
        unfold word_after. cbn [Re.rest].
        destruct post as [|c post]; [reflexivity|].
        cbn [stops] in Hrest. apply negb_true_iff in Hrest. now rewrite Hrest.
      + clear. induction w as [|c w IH]; [reflexivity|].
        cbn [Str.lower Str.map]. f_equal; [|exact IH].
        destruct c as [[] [] [] [] [] [] [] []]; vm_compute; reflexivity. }
  destruct Hk as [m Hk]. exists m.
  now apply (star_greedy_run Char.is_space k sp (w ++ post) [] m).
Qed.

(** C4.  Take any line made of whitespace, then one of the words what, who,
    why, how in any letter case, then either nothing or something that
    starts with a character below 128 that is not a word character (so
    that the word is the first word of the line; a letter outside ASCII
    right after it would make it part of a longer word).  The generic fact
    extractor returns [None] on it and leaves the chatbot - the Fact Table
    included - as it was, whatever follows the word, "is" sentences
    included. *)
Theorem question_words_never_learned :
  forall (sp w post : string) (b : AliChatbot),
    Str.all Char.is_space sp = true ->
    In (Str.lower w) ["what"; "who"; "why"; "how"] ->
    stops (fun c => Char.is_word c || negb (Char.is_ascii c)) post = true ->
    _learn_fact_statement (sp ++ w ++ post) b = Some (None, b).
Proof.
  intros sp w post b Hsp Hw Hpost.
  assert (Hstop : stops Char.is_word post = true).
  { destruct post as [|c post]; [reflexivity|]. cbn [stops] in *.
    apply negb_true_iff in Hpost. apply orb_false_iff in Hpost as [Hc _].
    now rewrite Hc. }
  destruct (question_guard_matches sp w post Hsp Hw Hstop) as [m Hm].
  exact (guarded_none _ b m Hm).
Qed.

Lemma question_words_never_learned_witness :
  _learn_fact_statement "  What is love" fresh_bot = Some (None, fresh_bot) /\
  (exists m, re_match fact_pattern "  What is love" = Some m).
Proof.
  split.
  - apply (question_words_never_learned "  " "What" " is love" fresh_bot).
    + reflexivity.
    + vm_compute. tauto.
    + reflexivity.
  - eexists. vm_compute. reflexivity.
Defined.

(** ** Strings *)

Lemma rstrip_app : forall p s1 s2,
  Str.rstrip_by p s2 <> "" ->
  Str.rstrip_by p (s1 ++ s2) = s1 ++ Str.rstrip_by p s2.
Proof.
  intros p s1 s2 H; induction s1 as [|c s1 IH]; cbn [append Str.rstrip_by]; [reflexivity|].
  rewrite IH. destruct (s1 ++ Str.rstrip_by p s2) eqn:E; [|reflexivity].
  destruct s1; cbn [append] in E; [contradiction|discriminate].
Qed.


Lemma lstrip_stops : forall p s, stops p (Str.lstrip_by p s) = true.
Proof.
  intros p s; induction s as [|c s IH]; cbn [Str.lstrip_by]; [reflexivity|].
  destruct (p c) eqn:Hc; [exact IH|]. cbn [stops]. now rewrite Hc.
Qed.

Lemma rstrip_head : forall p c s,
  p c = false -> Str.rstrip_by p (String c s) = String c (Str.rstrip_by p s).
Proof.
  intros p c s H. cbn [Str.rstrip_by]. rewrite H. now destruct (Str.rstrip_by p s).
Qed.


(** Stripping a smaller set of characters from a string that does not end
    in the larger set changes nothing. *)
Lemma rstrip_subset : forall (p q : ascii -> bool) s,
  (forall c, q c = true -> p c = true) ->
  Str.rstrip_by p s = s -> Str.rstrip_by q s = s.
Proof.
  intros p q s Hqp; induction s as [|c s IH]; [reflexivity|].
  cbn [Str.rstrip_by]. destruct (Str.rstrip_by p s) as [|c' t] eqn:E.
  - destruct (p c) eqn:Hc; [discriminate|]. intros [= <-].
    cbn [Str.rstrip_by]. destruct (q c) eqn:Hq; [|reflexivity].
    apply Hqp in Hq. congruence.
  - intros [= <-]. rewrite IH by reflexivity. reflexivity.
Qed.



Lemma all_weaken : forall (p q : ascii -> bool) s,
  (forall c, p c = true -> q c = true) -> Str.all p s = true -> Str.all q s = true.
Proof.
  intros p q s H; induction s as [|c s IH]; cbn [Str.all]; [reflexivity|].
  intros A. apply andb_true_iff in A as [Hc A]. now rewrite (H c Hc), IH.
Qed.

Lemma take_all : forall s, Str.take (String.length s) s = s.
Proof. induction s as [|c s IH]; cbn; [reflexivity|now rewrite IH]. Qed.






Lemma append_nil_r : forall s : string, s ++ "" = s.
Proof. induction s as [|c s IH]; cbn; [reflexivity|now rewrite IH]. Qed.

Lemma rmatch_chr : forall p bf c s gs k,
  rmatch (Chr p) (MState bf (String c s) gs) k
  = if p c then k (MState (Some c) s gs) else None.
Proof. reflexivity. Qed.

(** A greedy [class+] reads a whole run of the class. *)
Lemma rmatch_plus_greedy : forall p k c s1 s2 gs m bf,
  p c = true -> Str.all p s1 = true -> stops p s2 = true ->
  k (MState (last_before (Some c) s1) s2 gs) = Some m ->
  rmatch (Plus true (Chr p)) (MState bf (String c (s1 ++ s2)) gs) k = Some m.
Proof.
  intros p k c s1 s2 gs m bf Hc Hall Hstop Hk.
  unfold Plus. change (rmatch (Seq ?a ?b) ?st ?k0)
    with (rmatch a st (fun st1 => rmatch b st1 k0)).
  rewrite rmatch_chr, Hc. now apply rmatch_star_greedy.
Qed.




Lemma lstrip_stopped : forall p s, stops p s = true -> Str.lstrip_by p s = s.
Proof.
  intros p [|c s]; cbn [stops Str.lstrip_by]; [reflexivity|].
  intros H. apply negb_true_iff in H. now rewrite H.
Qed.






(** ** C3: the name round trip *)





(* ================================================================== *)
(** * Further properties: loading, seeding, persistence and the extractors *)
(** ** Seeding *)

Lemma set_same : forall k v d, Dict.get k d = Some v -> Dict.set k v d = d.
Proof.
  intros k v d; induction d as [|[k' v'] d IH]; simpl; [discriminate|].
  destruct (String.eqb k k') eqn:E.
  - apply String.eqb_eq in E. subst. now intros [= ->].
  - intros H. now rewrite IH.
Qed.

Lemma has_set_other : forall k k' v d,
  Dict.has k' (Dict.set k v d) = (String.eqb k' k || Dict.has k' d).
Proof.
  intros k k' v d. unfold Dict.has.
  destruct (String.eqb_spec k' k) as [->|Hne].
  - now rewrite get_set_same.
  - rewrite get_set_other by congruence. reflexivity.
Qed.

Lemma seeded_cons : forall k0 t0 l kb,
  seeded ((k0, t0) :: l) kb
  = seeded l (if Dict.has k0 kb then kb else Dict.set k0 (JStr t0) kb).
Proof. reflexivity. Qed.

Lemma seeded_keeps : forall defaults kb k v,
  Dict.get k kb = Some v -> Dict.get k (seeded defaults kb) = Some v.
Proof.
  induction defaults as [|[k0 t0] l IH]; intros kb k v H; [exact H|].
  rewrite seeded_cons. apply IH. unfold Dict.has.
  destruct (Dict.get k0 kb) eqn:E; [exact H|].
  rewrite get_set_other; [exact H|]. intros ->. congruence.
Qed.

Lemma seeded_has : forall defaults kb k,
  In k (List.map fst defaults) -> Dict.has k (seeded defaults kb) = true.
Proof.
  induction defaults as [|[k0 t0] l IH]; intros kb k Hin; [contradiction|].
  rewrite seeded_cons. cbn [List.map fst] in Hin.
  destruct (in_dec string_dec k (List.map fst l)) as [Hl|Hl]; [now apply IH|].
  destruct Hin as [E0|Hin]; [subst k|contradiction].
  set (kb' := if Dict.has k0 kb then kb else Dict.set k0 (JStr t0) kb).
  assert (Hhas : Dict.has k0 kb' = true).
  { subst kb'. destruct (Dict.has k0 kb) eqn:E; [exact E|].
    unfold Dict.has. now rewrite get_set_same. }
  unfold Dict.has in Hhas.
  destruct (Dict.get k0 kb') as [v|] eqn:E; [|discriminate].
  unfold Dict.has. now rewrite (seeded_keeps l kb' k0 v E).
Qed.

Lemma seeded_adds : forall defaults kb k text,
  NoDup (List.map fst defaults) -> In (k, text) defaults ->
  Dict.get k kb = None ->
  Dict.get k (seeded defaults kb) = Some (JStr text).
Proof.
  induction defaults as [|[k0 t0] l IH]; intros kb k text Hnd Hin Hk; [contradiction|].
  cbn [List.map fst] in Hnd. inversion Hnd as [|? ? Hnot Hnd']; subst.
  rewrite seeded_cons.
  destruct Hin as [E0|Hin].
  - injection E0 as -> ->. unfold Dict.has. rewrite Hk.
    apply (seeded_keeps l). apply get_set_same.
  - assert (k <> k0).
    { intros ->. apply Hnot. apply (in_map fst) in Hin. exact Hin. }
    apply IH; auto.
    destruct (Dict.has k0 kb); [exact Hk|].
    rewrite get_set_other by congruence. exact Hk.
Qed.

Lemma seeded_only : forall defaults kb k,
  Dict.get k (seeded defaults kb) <> None ->
  Dict.get k kb <> None \/ In k (List.map fst defaults).
Proof.
  induction defaults as [|[k0 t0] l IH]; intros kb k H; [now left|].
  rewrite seeded_cons in H. cbn [List.map fst].
  apply IH in H. destruct H as [H|H]; [|now right; right].
  destruct (Dict.has k0 kb); [now left|].
  destruct (String.eqb_spec k0 k) as [->|Hne]; [right; now left|].
  rewrite get_set_other in H by exact Hne. now left.
Qed.

Lemma seeded_full : forall defaults kb,
  (forall k, In k (List.map fst defaults) -> Dict.has k kb = true) ->
  seeded defaults kb = kb.
Proof.
  induction defaults as [|[k0 t0] l IH]; intros kb H; [reflexivity|].
  rewrite seeded_cons. rewrite (H k0) by now left.
  apply IH. intros k Hk. apply H. now right.
Qed.

(** One round of the loop of [_seed_flexipdf_knowledge] on a store whose
    Knowledge Base is a mapping. *)
Lemma seed_step_effect : forall kv b kb,
  Dict.get "flexipdf_knowledge" (data b) = Some (JObj kb) ->
  (b0 <- self ;;
   kb0 <- lift (get_map "flexipdf_knowledge" (data b0)) ;;
   if Dict.has (fst kv) kb0 then ret tt
   else update_data (store_in "flexipdf_knowledge" (fst kv) (JStr (snd kv)))) b
  = Some (tt, set_data (Dict.set "flexipdf_knowledge"
                          (JObj (if Dict.has (fst kv) kb then kb
                                 else Dict.set (fst kv) (JStr (snd kv)) kb))
                          (data b)) b).
Proof.
  intros [k0 t0] [d c n f em ix] kb Hk. run_bot. unfold get_map. rewrite Hk.
  destruct (Dict.has k0 kb).
  - now rewrite (set_same _ _ _ Hk).
  - run_bot. unfold store_in. now rewrite Hk.
Qed.

Lemma seed_loop_effect : forall defaults b kb,
  Dict.get "flexipdf_knowledge" (data b) = Some (JObj kb) ->
  for_each defaults (fun kv =>
    b0 <- self ;;
    kb0 <- lift (get_map "flexipdf_knowledge" (data b0)) ;;
    if Dict.has (fst kv) kb0 then ret tt
    else update_data (store_in "flexipdf_knowledge" (fst kv) (JStr (snd kv)))) b
  = Some (tt, set_data (Dict.set "flexipdf_knowledge" (JObj (seeded defaults kb)) (data b)) b).
Proof.
  induction defaults as [|[k0 t0] l IH]; intros b kb Hk.
  - cbn [for_each seeded fold_left]. unfold ret.
    rewrite (set_same _ _ _ Hk). now destruct b as [d c n f em ix].
  - cbn [for_each]. unfold bind at 1.
    rewrite (seed_step_effect (k0, t0) b kb Hk). cbn [fst snd].
    rewrite seeded_cons.
    rewrite (IH _ (if Dict.has k0 kb then kb else Dict.set k0 (JStr t0) kb))
      by (destruct b as [d c n f em ix]; cbn [data set_data]; apply get_set_same).
    destruct b as [d c n f em ix]; cbn [data set_data context ctx_size memory_file embedding_model faiss_index].
    now rewrite set_set.
Qed.

Lemma seed_defaults_distinct : NoDup (List.map fst seed_defaults).
Proof.
  cbv [seed_defaults List.map fst].
  repeat (constructor; [cbv [In]; intros H;
            repeat (destruct H as [H|H]; [discriminate|]); exact H|]).
  constructor.
Qed.

(** The whole of [_seed_flexipdf_knowledge] on a store whose Knowledge Base
    is a mapping. *)
Lemma seed_effect : forall b kb,
  Dict.get "flexipdf_knowledge" (data b) = Some (JObj kb) ->
  _seed_flexipdf_knowledge b
  = Some (tt, set_file (Parsed (JObj (Dict.set "flexipdf_knowledge"
                                        (JObj (seeded seed_defaults kb)) (data b))))
                (set_data (Dict.set "flexipdf_knowledge"
                             (JObj (seeded seed_defaults kb)) (data b)) b)).
Proof.
  intros b kb Hk. unfold _seed_flexipdf_knowledge. unfold bind at 1.
  rewrite (seed_loop_effect seed_defaults b kb Hk).
  destruct b as [d c n f em ix]. reflexivity.
Qed.

Lemma for_each_first : forall (A : Type) (x : A) l (body : A -> M unit) b r,
  for_each (x :: l) body b = Some r -> exists r1, body x b = Some r1.
Proof.
  intros A x l body b r. cbn [for_each]. unfold bind.
  destruct (body x b) as [r1|]; [now exists r1|discriminate].
Qed.

(** A seeding that returns found the Knowledge Base a mapping. *)
Lemma seed_needs_mapping : forall b r,
  _seed_flexipdf_knowledge b = Some r ->
  exists kb, Dict.get "flexipdf_knowledge" (data b) = Some (JObj kb).
Proof.
  intros b r. unfold _seed_flexipdf_knowledge. unfold bind at 1.
  match goal with |- context [for_each ?l ?f b] =>
    destruct (for_each l f b) as [r0|] eqn:E; [|discriminate] end.
  intros _. unfold seed_defaults in E. apply for_each_first in E.
  destruct E as (r1 & E). cbn [fst snd] in E.
  destruct b as [d c n f em ix]. run_bot. unfold get_map, store_in in E.
  revert E.
  destruct (Dict.get "flexipdf_knowledge" d) as [[| | | | | |kb]|] eqn:E0;
    try discriminate; [now exists kb|].
  cbn. rewrite E0. discriminate.
Qed.

(** X1.  Seeding merges the built-in help into the Knowledge Base.  On a
    store whose Knowledge Base is a mapping, [_seed_flexipdf_knowledge]
    returns; every entry that was there keeps its value, also under a
    built-in key; every built-in key that was missing gets the built-in
    text; no other key appears; every other field of the store is left
    alone; and memory.json holds the result if the result can be written,
    that is if every text in it has a UTF-8 form. *)
Theorem seeding_merges_defaults : forall (b : AliChatbot) (kb : dict),
  Dict.get "flexipdf_knowledge" (data b) = Some (JObj kb) ->
  exists b',
    _seed_flexipdf_knowledge b = Some (tt, b') /\
    (forall k v, Dict.get k kb = Some v -> Dict.get k (knowledge b') = Some v) /\
    (forall k text, In (k, text) seed_defaults -> Dict.get k kb = None ->
       Dict.get k (knowledge b') = Some (JStr text)) /\
    (forall k, Dict.get k kb = None -> ~ In k (List.map fst seed_defaults) ->
       Dict.get k (knowledge b') = None) /\
    (forall k, k <> "flexipdf_knowledge" ->
       Dict.get k (data b') = Dict.get k (data b)) /\
    (Py.encodable (JObj (data b')) = true ->
     memory_file b' = Parsed (JObj (data b'))) /\
    same_session b b'.
Proof.
  intros b kb Hk. eexists. split; [apply (seed_effect b kb Hk)|].
  assert (K : forall f d, knowledge (set_file f (set_data
                (Dict.set "flexipdf_knowledge" (JObj (seeded seed_defaults kb)) d) b))
              = seeded seed_defaults kb).
  { intros f d. unfold knowledge. destruct b as [d0 c n f0 em ix]. run_bot.
    now rewrite get_set_same. }
  rewrite K. split; [|split; [|split; [|split; [|split]]]].
  - intros k v. apply seeded_keeps.
  - intros k text Hin Hnone.
    apply seeded_adds; [apply seed_defaults_distinct|assumption|assumption].
  - intros k Hnone Hnot.
    destruct (Dict.get k (seeded seed_defaults kb)) as [v|] eqn:E; [|reflexivity].
    destruct (seeded_only seed_defaults kb k) as [H|H];
      [rewrite E; discriminate|contradiction|contradiction].
  - intros k Hne. destruct b as [d0 c n f0 em ix]. run_bot.
    apply get_set_other. congruence.
  - intros _. destruct b as [d0 c n f0 em ix]. reflexivity.
  - destruct b as [d0 c n f0 em ix]. now repeat split.
Qed.

Lemma seeding_merges_defaults_witness :
  exists b',
    _seed_flexipdf_knowledge
      (set_data (Dict.set "flexipdf_knowledge"
                   (JObj [("split_pdf", JStr "Cut a PDF in two.")])
                   (default_data JNull)) sample_bot) = Some (tt, b') /\
    Dict.get "split_pdf" (knowledge b') = Some (JStr "Cut a PDF in two.") /\
    Dict.get "merge_pdfs" (knowledge b')
    = Some (JStr "Combine multiple PDF files into a single PDF.") /\
    Dict.get "pdf_split" (knowledge b') = None.
Proof.
  destruct (seeding_merges_defaults
              (set_data (Dict.set "flexipdf_knowledge"
                           (JObj [("split_pdf", JStr "Cut a PDF in two.")])
                           (default_data JNull)) sample_bot)
              [("split_pdf", JStr "Cut a PDF in two.")])
    as (b' & E & Hkeep & Hadd & Hnone & _).
  - reflexivity.
  - exists b'. split; [exact E|]. split; [|split].
    + apply Hkeep. reflexivity.
    + apply Hadd; [|reflexivity]. simpl. tauto.
    + apply Hnone; [reflexivity|].
      cbv [seed_defaults List.map fst In]. intros H.
      repeat (destruct H as [H|H]; [discriminate|]). exact H.
Defined.

(** X2.  Seeding twice is seeding once: after a seeding that returned, a
    second one returns too and changes neither the store nor memory.json. *)
Theorem seeding_is_idempotent : forall (b b' : AliChatbot),
  _seed_flexipdf_knowledge b = Some (tt, b') ->
  _seed_flexipdf_knowledge b' = Some (tt, b').
Proof.
  intros b b' H.
  destruct (seed_needs_mapping b _ H) as (kb & Hk).
  pose proof (seed_effect b kb Hk) as E1.
  assert (F : seeded seed_defaults (seeded seed_defaults kb)
              = seeded seed_defaults kb)
    by (apply seeded_full; intros k; apply seeded_has).
  set (kb1 := seeded seed_defaults kb) in *. clearbody kb1.
  assert (Hb : b' = set_file (Parsed (JObj (Dict.set "flexipdf_knowledge" (JObj kb1) (data b))))
                      (set_data (Dict.set "flexipdf_knowledge" (JObj kb1) (data b)) b))
    by congruence.
  subst b'. clear H E1.
  rewrite (seed_effect _ kb1)
    by (destruct b as [d c n f em ix]; run_bot; apply get_set_same).
  rewrite F. destruct b as [d c n f em ix]. run_bot. now rewrite set_set.
Qed.

Lemma seeding_is_idempotent_witness :
  exists b',
    _seed_flexipdf_knowledge sample_bot = Some (tt, b') /\
    _seed_flexipdf_knowledge b' = Some (tt, b').
Proof.
  eexists. split; [vm_compute; reflexivity|].
  apply (seeding_is_idempotent sample_bot). vm_compute. reflexivity.
Defined.

(** ** What the loader adopts *)

Lemma adopt_key_get_other : forall raw d k k',
  k' <> k -> Dict.get k' (adopt_key raw d k) = Dict.get k' d.
Proof.
  intros raw d k k' Hne. unfold adopt_key.
  destruct (Dict.get k raw) as [v|]; [|reflexivity].
  destruct (Dict.get k d) as [dv|]; [|reflexivity].
  destruct (Py.isinstance_type_of v dv);
    [apply get_set_other; congruence|].
  destruct (String.eqb k "conversations" && Py.is_list v);
    [apply get_set_other; congruence|reflexivity].
Qed.

Lemma adopt_key_get_same : forall raw d k dv,
  Dict.get k d = Some dv ->
  (k = "conversations" -> Py.is_list dv = true) ->
  Dict.get k (adopt_key raw d k) = Some (adopted raw k dv).
Proof.
  intros raw d k dv Hd Hconv. unfold adopt_key, adopted. rewrite Hd.
  destruct (Dict.get k raw) as [v|]; [|exact Hd].
  destruct (Py.isinstance_type_of v dv) eqn:Ei; [apply get_set_same|].
  destruct (String.eqb_spec k "conversations") as [Ek|_]; [|exact Hd].
  cbn [andb]. specialize (Hconv Ek).
  destruct v, dv; try discriminate; exact Hd.
Qed.

Lemma adopt_all_get_other : forall raw ks d k,
  ~ In k ks -> Dict.get k (fold_left (adopt_key raw) ks d) = Dict.get k d.
Proof.
  intros raw ks; induction ks as [|k0 ks IH]; intros d k Hnot; [reflexivity|].
  cbn [fold_left]. rewrite IH by (intros H; apply Hnot; now right).
  apply adopt_key_get_other. intros ->. apply Hnot. now left.
Qed.

(** The loop [for k in self.data.keys()] leaves under every key the
    record's value if it has the type of the default, else the default. *)
Lemma adopt_all_get : forall raw ks d k dv,
  NoDup ks -> In k ks -> Dict.get k d = Some dv ->
  (k = "conversations" -> Py.is_list dv = true) ->
  Dict.get k (fold_left (adopt_key raw) ks d) = Some (adopted raw k dv).
Proof.
  intros raw ks; induction ks as [|k0 ks IH]; intros d k dv Hnd Hin Hd Hconv;
    [contradiction|].
  inversion Hnd as [|? ? Hnot Hnd']; subst. cbn [fold_left].
  destruct (string_dec k0 k) as [->|Hne].
  - rewrite adopt_all_get_other by exact Hnot.
    now apply adopt_key_get_same.
  - destruct Hin as [E|Hin]; [contradiction|].
    apply IH; try assumption.
    rewrite adopt_key_get_other by congruence. exact Hd.
Qed.

Lemma schema_keys_distinct : NoDup schema_keys.
Proof.
  cbv [schema_keys Dict.keys default_data List.map fst].
  repeat (constructor; [cbv [In]; intros H;
            repeat (destruct H as [H|H]; [discriminate|]); exact H|]).
  constructor.
Qed.

Lemma merge_meta_other : forall raw d d' k,
  merge_meta raw d = Some d' -> k <> "meta" -> Dict.get k d' = Dict.get k d.
Proof.
  intros raw d d' k. unfold merge_meta.
  destruct (Dict.get "meta" raw) as [[| | | | | |rm]|]; try (now intros [= <-]).
  destruct (Dict.get "meta" d) as [[| | | | | |m]|]; try discriminate.
  intros [= <-] Hne. apply get_set_other. congruence.
Qed.

(** [_load_or_init_memory] on the store of [__init__], from a file that
    holds an object. *)
Lemma load_object : forall now size o,
  exists d1,
    _load_or_init_memory now (before_load (Parsed (JObj o)) size)
    = Some (tt, set_data d1 (before_load (Parsed (JObj o)) size)) /\
    loaded_shape d1 /\
    forall k dv, k <> "meta" -> Dict.get k (default_data JNull) = Some dv ->
      Dict.get k d1 = Some (adopted o k dv).
Proof.
  intros now size o.
  assert (H0 : loaded_shape (default_data JNull)) by (vm_compute; repeat eexists).
  assert (H1 : loaded_shape (fold_left (adopt_key o) schema_keys (default_data JNull))).
  { apply adopt_all_shape; [auto|exact H0]. }
  destruct (merge_meta_shape o _ H1) as (d1 & E1 & H2).
  exists d1. split; [|split; [exact H2|]].
  - unfold _load_or_init_memory, before_load. run_bot.
    change (Dict.keys (default_data JNull)) with schema_keys.
    now rewrite E1.
  - intros k dv Hne Hd.
    rewrite (merge_meta_other _ _ _ k E1 Hne).
    apply adopt_all_get; [apply schema_keys_distinct| |exact Hd|].
    + revert Hd. cbv [default_data schema_keys Dict.keys List.map fst Dict.get].
      repeat match goal with
             | |- context [String.eqb k ?x] =>
                 destruct (String.eqb_spec k x) as [->|_]; [simpl; tauto|]
             end.
      discriminate.
    + intros ->. vm_compute in Hd. injection Hd as <-. reflexivity.
Qed.

(** The guarded index build of [__init__]: the model is kept exactly when
    every logged entry is a dictionary; the store is not touched. *)
Lemma try_build_index_effect : forall b em,
  loaded_shape (data b) -> embedding_model b = Some em ->
  exists b',
    try_build_index b = Some (tt, b') /\
    data b' = data b /\ context b' = context b /\ ctx_size b' = ctx_size b /\
    memory_file b' = memory_file b /\
    embedding_model b'
    = (match user_texts (conversations b) with
       | Some _ => Some em
       | None => None
       end) /\
    (embedding_model b' = None -> faiss_index b' = None).
Proof.
  intros [d c n f em0 ix] em Hd He. cbn [data embedding_model] in Hd, He. subst em0.
  unfold try_build_index, _build_faiss_index, conversations. run_bot.
  destruct Hd as (fs & r & cs & k & m & ->).
  change (get_list "conversations" _) with (Some cs).
  change (Dict.get "conversations" _) with (Some (JArr cs)).
  cbn iota beta.
  destruct (user_texts cs) as [[|t ts]|]; cbn iota beta;
    [|destruct (encodes em (t :: ts))|];
    (eexists; split; [reflexivity|]; repeat split; discriminate).
Qed.

(** [__init__] after the load: the index is built under guard, the
    built-in help is merged into the Knowledge Base and the file is
    written. *)
Lemma init_effect : forall file size model now b1,
  _load_or_init_memory now (before_load file size) = Some (tt, b1) ->
  loaded_shape (data b1) ->
  exists kb b,
    Dict.get "flexipdf_knowledge" (data b1) = Some (JObj kb) /\
    __init__ file size model now = Some b /\
    data b = Dict.set "flexipdf_knowledge" (JObj (seeded seed_defaults kb)) (data b1) /\
    memory_file b = Parsed (JObj (data b)) /\
    context b = [] /\ ctx_size b = size /\
    embedding_model b
    = (match model, user_texts (conversations b) with
       | Some em, Some _ => Some em
       | _, _ => None
       end) /\
    (embedding_model b = None -> faiss_index b = None).
Proof.
  intros file size model now b1 E1 S1.
  destruct (load_shape now (before_load file size)) as (b1' & E1' & _ & (c1 & n1 & e1 & i1));
    [vm_compute; repeat eexists|].
  rewrite E1 in E1'. injection E1' as <-.
  cbn [before_load context ctx_size embedding_model faiss_index] in c1, n1, e1, i1.
  assert (Hkb : exists kb, Dict.get "flexipdf_knowledge" (data b1) = Some (JObj kb)).
  { destruct S1 as (fs & r & cs & k & m & ->). now exists k. }
  destruct Hkb as (kb & Hkb). exists kb.
  assert (Hmid : exists b2,
    (match model with
     | Some em => modify (set_embedding (Some em)) ;; try_build_index
     | None => ret tt
     end) b1 = Some (tt, b2) /\
    data b2 = data b1 /\ context b2 = [] /\ ctx_size b2 = size /\
    embedding_model b2
    = (match model, user_texts (conversations b1) with
       | Some em, Some _ => Some em
       | _, _ => None
       end) /\
    (embedding_model b2 = None -> faiss_index b2 = None)).
  { destruct model as [em|].
    - destruct (try_build_index_effect (set_embedding (Some em) b1) em)
        as (b2 & E2 & D2 & C2 & N2 & _ & M2 & I2).
      + destruct b1; exact S1.
      + destruct b1; reflexivity.
      + exists b2. unfold bind, modify. rewrite E2.
        split; [reflexivity|]. rewrite D2, C2, N2.
        clear E1. destruct b1 as [d c n f em1 ix]. unfold conversations in *.
        cbn [data context ctx_size embedding_model faiss_index set_embedding] in *.
        repeat split; auto.
    - exists b1. split; [reflexivity|]. repeat split; auto. }
  destruct Hmid as (b2 & E2 & D2 & C2 & N2 & M2 & I2).
  rewrite <- D2 in Hkb.
  pose proof (seed_effect b2 kb Hkb) as E3.
  eexists. split; [rewrite D2 in Hkb; exact Hkb|].
  split.
  { unfold __init__. fold (before_load file size).
    unfold bind at 1. rewrite E1. unfold bind at 1. rewrite E2. rewrite E3.
    reflexivity. }
  assert (Hc : conversations
                 (set_file (Parsed (JObj (Dict.set "flexipdf_knowledge"
                                            (JObj (seeded seed_defaults kb)) (data b2))))
                    (set_data (Dict.set "flexipdf_knowledge"
                                 (JObj (seeded seed_defaults kb)) (data b2)) b2))
               = conversations b1).
  { unfold conversations. destruct b2 as [d c n f em ix]. run_bot.
    rewrite get_set_other by discriminate. now rewrite D2. }
  rewrite Hc. destruct b2 as [d c n f em ix]. run_bot. subst d.
  repeat split; auto.
Qed.


Lemma knowledge_seeded : forall b kb d,
  data b = Dict.set "flexipdf_knowledge" (JObj kb) d -> knowledge b = kb.
Proof.
  intros b kb d H. unfold knowledge. rewrite H. now rewrite get_set_same.
Qed.

Lemma table_seeded : forall b kb d k,
  data b = Dict.set "flexipdf_knowledge" (JObj kb) d ->
  k <> "flexipdf_knowledge" -> Dict.get k (data b) = Dict.get k d.
Proof.
  intros b kb d k H Hne. rewrite H. apply get_set_other. congruence.
Qed.




Lemma adopted_table : forall o k,
  match adopted o k (JObj []) with JObj t => t | _ => [] end
  = match Dict.get k o with Some (JObj t) => t | _ => [] end.
Proof.
  intros o k. unfold adopted. now destruct (Dict.get k o) as [[]|].
Qed.

Lemma adopted_list : forall o k,
  match adopted o k (JArr []) with JArr l => l | _ => [] end
  = match Dict.get k o with Some (JArr l) => l | _ => [] end.
Proof.
  intros o k. unfold adopted. now destruct (Dict.get k o) as [[]|].
Qed.

(** X4.  The tables and the log survive a restart.  For a store that can
    be written (every text in it has a UTF-8 form, so that [_save_memory]
    leaves its whole dump in memory.json), a chatbot built from that file
    has the store's Fact Table, Relationship Map and Conversation Log, and
    its Knowledge Base with the missing built-in help added; the Context
    Buffer starts empty again. *)
Theorem restart_keeps_tables :
  forall (b : AliChatbot) (size : nat) (model : option embedder) (now : string),
  Py.encodable (JObj (data b)) = true ->
  exists b',
    __init__ (Parsed (JObj (data b))) size model now = Some b' /\
    facts b' = facts b /\
    relationships b' = relationships b /\
    conversations b' = conversations b /\
    knowledge b' = seeded seed_defaults (knowledge b) /\
    context b' = [].
Proof.
  intros b size model now _.
  destruct (load_object now size (data b)) as (d1 & E1 & S1 & A1).
  destruct (init_effect _ size model now _ E1) as (kb & b' & Hkb & E & D & _ & C & _);
    [exact S1|].
  cbn [before_load set_data data] in Hkb, D.
  exists b'. split; [exact E|].
  unfold facts, relationships, conversations.
  rewrite !(table_seeded b' _ _ _ D) by discriminate.
  rewrite (knowledge_seeded b' _ _ D).
  rewrite (A1 "facts" (JObj [])), (A1 "relationships" (JObj [])),
          (A1 "conversations" (JArr [])) by (reflexivity || discriminate).
  rewrite !adopted_table, adopted_list.
  repeat split; try assumption.
  rewrite (A1 "flexipdf_knowledge" (JObj [])) in Hkb by (reflexivity || discriminate).
  injection Hkb as Hkb. unfold knowledge.
  rewrite <- adopted_table, Hkb. reflexivity.
Qed.

Lemma restart_keeps_tables_witness :
  exists b',
    __init__ (Parsed (JObj (Dict.set "facts" (JObj [("love", JStr "a feeling 💫")])
                              (default_data JNull)))) 20 None "t" = Some b' /\
    facts b' = [("love", JStr "a feeling 💫")].
Proof.
  destruct (restart_keeps_tables
              (set_data (Dict.set "facts" (JObj [("love", JStr "a feeling 💫")])
                           (default_data JNull)) sample_bot) 20 None "t")
    as (b' & E & F & _).
  - vm_compute. reflexivity.
  - exists b'. split; [exact E|]. rewrite F. reflexivity.
Defined.

Lemma seeded_from_nothing :
  seeded seed_defaults [] = List.map (fun kv => (fst kv, JStr (snd kv))) seed_defaults.
Proof. vm_compute. reflexivity. Qed.

(** X5.  A memory.json that parses but does not hold an object is salvaged,
    not rejected: a bare list becomes the Conversation Log, any other value
    gives an empty log; the Fact Table and the Relationship Map are empty,
    the Knowledge Base holds the built-in help and nothing else, and no
    creation time is stamped. *)
Theorem legacy_file_is_salvaged :
  forall (raw : json) (size : nat) (model : option embedder) (now : string),
    Py.is_dict raw = false ->
    exists b,
      __init__ (Parsed raw) size model now = Some b /\
      conversations b = (match raw with JArr l => l | _ => [] end) /\
      facts b = [] /\ relationships b = [] /\
      knowledge b = List.map (fun kv => (fst kv, JStr (snd kv))) seed_defaults /\
      Dict.get "meta" (data b) = Some (JObj [("created_at", JNull)]).
Proof.
  intros raw size model now Hraw.
  set (log := match raw with JArr l => l | _ => [] end).
  assert (E1 : _load_or_init_memory now (before_load (Parsed raw) size)
               = Some (tt, set_data (Dict.set "conversations" (JArr log)
                                       (default_data JNull))
                             (before_load (Parsed raw) size))).
  { subst log. destruct raw; try discriminate; reflexivity. }
  destruct (init_effect _ size model now _ E1) as (kb & b & Hkb & E & D & _);
    [vm_compute; repeat eexists|].
  cbn [before_load set_data data] in Hkb, D.
  vm_compute in Hkb. injection Hkb as <-.
  exists b. split; [exact E|].
  unfold facts, relationships, conversations.
  rewrite !(table_seeded b _ _ _ D) by discriminate.
  rewrite (knowledge_seeded b _ _ D), seeded_from_nothing.
  repeat split.
Qed.

Lemma legacy_file_is_salvaged_witness :
  exists b,
    __init__ (Parsed (JArr [JObj [("user", JStr "hi"); ("ai", JStr "hello")]; JStr "note"]))
             20 None "2024-01-01T00:00:00" = Some b /\
    conversations b = [JObj [("user", JStr "hi"); ("ai", JStr "hello")]; JStr "note"] /\
    facts b = [].
Proof.
  destruct (legacy_file_is_salvaged
              (JArr [JObj [("user", JStr "hi"); ("ai", JStr "hello")]; JStr "note"])
              20 None "2024-01-01T00:00:00")
    as (b & E & Hc & Hf & _).
  - reflexivity.
  - exists b. now repeat split.
Defined.

(** X6.  Starting without a usable file.  With no memory.json the chatbot
    starts from the default store stamped with the clock reading; with a
    memory.json that does not parse it starts from the default store with
    no creation time.  In both cases the Knowledge Base is the built-in
    help, the file is written, and a loaded embedding model is kept with no
    index yet. *)
Theorem start_without_usable_file :
  forall (size : nat) (model : option embedder) (now : string),
  exists b_new b_bad,
    __init__ Missing size model now = Some b_new /\
    __init__ Unparsable size model now = Some b_bad /\
    data b_new = Dict.set "flexipdf_knowledge" (JObj (seeded seed_defaults []))
                   (default_data (JStr now)) /\
    data b_bad = Dict.set "flexipdf_knowledge" (JObj (seeded seed_defaults []))
                   (default_data JNull) /\
    memory_file b_new = Parsed (JObj (data b_new)) /\
    memory_file b_bad = Parsed (JObj (data b_bad)) /\
    embedding_model b_new = model /\ embedding_model b_bad = model /\
    faiss_index b_new = None /\ faiss_index b_bad = None.
Proof.
  intros size [[enc search]|] now;
    (eexists; eexists; split; [vm_compute; reflexivity|];
     split; [vm_compute; reflexivity|]; vm_compute; repeat split).
Qed.

(** ** Every answered call is saved and indexed *)

Lemma answered_logs_once : forall now input,
  Str.strip input <> "" ->
  logs_once now (Str.strip input) (get_response now input).
Proof.
  intros now input Hne. unfold get_response.
  destruct (String.eqb_spec (Str.strip input) "") as [E|_]; [contradiction|].
  destruct (String.eqb_spec input "") as [->|_]; [now elim Hne|].
  cbn [orb].
  repeat (apply stage_logs_once;
          [first [apply structured_keeps_log | apply knowledge_keeps_log
                 | apply fact_keeps_log | apply ask_keeps_log]|]).
  apply small_talk_logs_once.
Qed.

Lemma user_texts_snoc : forall c o,
  user_texts (c ++ [JObj o])%list
  = match user_texts c with
    | Some ts =>
        Some (ts ++ match Dict.get "user" o with
                    | Some u => if Py.truthy u then [u] else []
                    | None => []
                    end)%list
    | None => None
    end.
Proof.
  induction c as [|x c IH]; intros o.
  - cbn [app user_texts]. destruct (Dict.get "user" o) as [u|]; [|reflexivity].
    now destruct (Py.truthy u).
  - cbn [app]. destruct x; try reflexivity.
    cbn [user_texts]. rewrite IH.
    destruct (user_texts c) as [ts|]; [|reflexivity].
    destruct (Dict.get "user" o0) as [u0|]; [|reflexivity].
    now destruct (Py.truthy u0).
Qed.

(** After [_remember_conversation] with an embedding model, the index
    holds the user texts of the whole log if they could be encoded, and
    nothing otherwise. *)
Lemma remember_index : forall now u a b b' em,
  _remember_conversation now u a b = Some (tt, b') ->
  embedding_model b' = Some em -> u <> "" ->
  exists ts,
    user_texts (conversations b') = Some ts /\
    In (JStr u) ts /\
    faiss_index b' = (if encodes em ts then Some ts else None).
Proof.
  intros now u a [d c n f em0 ix] b' em H Hem Hu.
  pose proof (remember_inv _ _ _ _ _ H) as (d' & ix' & Hd & Hb).
  cbn [data context ctx_size embedding_model] in Hd, Hb.
  rewrite Hb in Hem. cbn [embedding_model] in Hem. subst em0.
  apply log_entry_effect in Hd.
  revert H. unfold _remember_conversation. run_bot.
  fold (log_entry (exchange_json (Exchange u a now)) d).
  destruct (log_entry _ d) as [d0|] eqn:Hd0; [|discriminate].
  apply log_entry_effect in Hd0. rewrite <- Hd in Hd0. subst d0.
  run_bot. unfold _build_faiss_index. run_bot.
  assert (Hc : Dict.get "conversations" d'
               = Some (JArr (match Dict.get "conversations" d with
                             | Some (JArr l) => l
                             | _ => []
                             end ++ [exchange_json (Exchange u a now)])%list))
    by (rewrite Hd; apply get_set_same).
  unfold get_list. rewrite Hc. cbn iota beta.
  unfold exchange_json. cbn [ex_user ex_ai ex_time].
  rewrite user_texts_snoc.
  set (l := match Dict.get "conversations" d with Some (JArr l) => l | _ => [] end) in *.
  destruct (user_texts l) as [ts0|] eqn:Ets; [|discriminate].
  cbn [Dict.get]. rewrite String.eqb_refl. cbn [Py.truthy].
  destruct (String.eqb_spec u "") as [->|_]; [now elim Hu|]. cbn [negb].
  assert (Hin : In (JStr u) (ts0 ++ [JStr u])%list)
    by (apply in_or_app; right; now left).
  assert (Hts : user_texts (conversations
                  (Bot d' (deque_append n c (Exchange u a now)) n (Parsed (JObj d'))
                       (Some em) ix')) = Some (ts0 ++ [JStr u])%list).
  { unfold conversations. cbn [data]. rewrite Hc.
    unfold exchange_json. cbn [ex_user ex_ai ex_time].
    rewrite user_texts_snoc, Ets. cbn [Dict.get]. rewrite String.eqb_refl.
    cbn [Py.truthy]. destruct (String.eqb_spec u ""); [contradiction|reflexivity]. }
  destruct (ts0 ++ [JStr u])%list as [|t ts] eqn:E;
    [now destruct ts0|].
  intros H.
  exists (t :: ts). split; [rewrite Hb; exact Hts|]. split; [exact Hin|].
  rewrite Hb in H |- *. cbn [faiss_index].
  apply (f_equal (fun r => match r with
                           | Some (_, b0) => faiss_index b0
                           | None => None
                           end)) in H.
  destruct (encodes em (t :: ts)); run_bot; now rewrite <- H.
Qed.

(** X7.  An answered call is on disk before the reply is returned.
    Whenever [get_response] returns on an ASCII input that is not blank,
    the new exchange is in the log, the capacity of the Context Buffer is
    the one the chatbot was built with, and memory.json holds the dump of
    the store as the call leaves it if that store can be written, that is
    if every text in it has a UTF-8 form. *)
Theorem every_reply_is_saved :
  forall (now input : string) (b : AliChatbot) (reply : json) (b' : AliChatbot),
    Str.is_ascii input = true ->
    Str.strip input <> "" ->
    get_response now input b = Some (reply, b') ->
    (Py.encodable (JObj (data b')) = true ->
     memory_file b' = Parsed (JObj (data b'))) /\
    In (exchange_json (Exchange (Str.strip input) reply now)) (conversations b') /\
    ctx_size b' = ctx_size b.
Proof.
  intros now input b reply b' _ Hne H.
  apply (answered_logs_once now input Hne) in H as (b_mid & (Lc & Lx & Ln) & R).
  pose proof (remember_effect _ _ _ _ _ R) as (Rc & _ & Rn).
  apply remember_inv in R as (d' & ix & _ & ->).
  cbn [memory_file data ctx_size] in *.
  split; [reflexivity|]. split; [|congruence].
  rewrite Rc. apply in_or_app. right. now left.
Qed.

Lemma every_reply_is_saved_witness :
  exists reply b',
    get_response "t" "hi there" sample_bot = Some (reply, b') /\
    memory_file b' = Parsed (JObj (data b')) /\
    ctx_size b' = 2.
Proof.
  destruct (get_response "t" "hi there" sample_bot) as [[reply b']|] eqn:E;
    [|vm_compute in E; discriminate].
  exists reply, b'. split; [reflexivity|].
  assert (B : Some b' = option_map snd (get_response "t" "hi there" sample_bot))
    by (rewrite E; reflexivity).
  vm_compute in B. injection B as B.
  destruct (every_reply_is_saved "t" "hi there" sample_bot reply b') as (S & _ & N).
  - reflexivity.
  - vm_compute. discriminate.
  - exact E.
  - split; [|exact N]. apply S. rewrite B. vm_compute. reflexivity.
Defined.

(** X8.  The search index follows the log.  When [get_response] returns on
    an ASCII input that is not blank and the chatbot has an embedding
    model, the index holds the user texts of the whole Conversation Log,
    the new input among them, if the model could encode them, and is absent
    otherwise. *)
Theorem index_follows_the_log :
  forall (now input : string) (b : AliChatbot) (reply : json) (b' : AliChatbot)
         (em : embedder),
    Str.is_ascii input = true ->
    Str.strip input <> "" ->
    get_response now input b = Some (reply, b') ->
    embedding_model b' = Some em ->
    exists ts,
      user_texts (conversations b') = Some ts /\
      In (JStr (Str.strip input)) ts /\
      faiss_index b' = (if encodes em ts then Some ts else None).
Proof.
  intros now input b reply b' em _ Hne H Hem.
  apply (answered_logs_once now input Hne) in H as (b_mid & _ & R).
  exact (remember_index _ _ _ _ _ _ R Hem Hne).
Qed.

Lemma index_follows_the_log_witness :
  exists reply b',
    get_response "t" "hi there"
      (set_embedding (Some (Embedder (fun _ => true) (fun _ _ => Some []))) sample_bot)
    = Some (reply, b') /\
    faiss_index b' = Some [JStr "hi there"].
Proof.
  destruct (get_response "t" "hi there"
              (set_embedding (Some (Embedder (fun _ => true) (fun _ _ => Some [])))
                 sample_bot)) as [[reply b']|] eqn:E;
    [|vm_compute in E; discriminate].
  exists reply, b'. split; [reflexivity|].
  assert (B : Some b' = option_map snd
                (get_response "t" "hi there"
                   (set_embedding (Some (Embedder (fun _ => true) (fun _ _ => Some [])))
                      sample_bot)))
    by (rewrite E; reflexivity).
  vm_compute in B. injection B as B.
  destruct (index_follows_the_log "t" "hi there"
              (set_embedding (Some (Embedder (fun _ => true) (fun _ _ => Some [])))
                 sample_bot)
              reply b' (Embedder (fun _ => true) (fun _ _ => Some [])))
    as (ts & Hts & _ & Hix).
  - reflexivity.
  - vm_compute. discriminate.
  - exact E.
  - rewrite B. reflexivity.
  - rewrite B in Hts. vm_compute in Hts. injection Hts as <-.
    rewrite Hix. reflexivity.
Defined.

(** ** The structured extractor comes first *)

Lemma structured_reply_nonempty : forall key stored, structured_reply key stored <> "".
Proof.
  intros key stored. unfold structured_reply.
  destruct (String.eqb key "user_name"); [discriminate|].
  destruct (String.eqb key "country"); [discriminate|].
  destruct (String.eqb key "city"); [|discriminate].
  destruct stored; discriminate.
Qed.

Lemma first_match_nonempty : forall rules text key m,
  first_match rules text = Some (key, m) ->
  first_match rules "" = None -> text <> "".
Proof. intros rules text key m H H0 ->. congruence. Qed.

Lemma strip_nonempty_input : forall input, Str.strip input <> "" -> input <> "".
Proof. intros input H ->. now apply H. Qed.

Lemma get_response_stripped : forall now input b,
  Str.strip input <> "" ->
  get_response now input b
  = stage now (Str.strip input) (_learn_structured_fact (Str.strip input))
   (stage now (Str.strip input) (_learn_flexipdf_knowledge (Str.strip input))
   (stage now (Str.strip input) (_learn_fact_statement (Str.strip input))
   (stage now (Str.strip input) (ask (fun b => _answer_relationship_query b (Str.strip input)))
   (stage now (Str.strip input) (ask (fun b => _answer_fact_query b (Str.strip input)))
   (stage now (Str.strip input) (ask (fun b => Some (_answer_personal_query b (Str.strip input))))
   (stage now (Str.strip input) (ask (fun b => _contextual_reference b (Str.strip input)))
   (small_talk now (Str.strip input)))))))) b.
Proof.
  intros now input b Hne. unfold get_response.
  destruct (String.eqb_spec (Str.strip input) ""); [contradiction|].
  destruct (String.eqb_spec input "") as [->|_]; [now elim Hne|reflexivity].
Qed.

(** A write to the store that leaves the tables and the log alone keeps the
    chatbot well formed. *)
Lemma well_formed_kept : forall b d f,
  well_formed b = true ->
  (forall k, In k ["facts"; "relationships"; "flexipdf_knowledge"; "conversations"] ->
             Dict.get k d = Dict.get k (data b)) ->
  well_formed (set_file f (set_data d b)) = true.
Proof.
  intros [d0 c n f0 em ix] d f W H.
  destruct (well_formed_inv _ W) as (fs & rs & ks & cs & Hf & Hr & Hk & Hc & He).
  cbn [data embedding_model] in *.
  eapply well_formed_intro; run_bot.
  - rewrite H by (simpl; tauto). eassumption.
  - rewrite H by (simpl; tauto). eassumption.
  - rewrite H by (simpl; tauto). eassumption.
  - rewrite H by (simpl; tauto). eassumption.
  - exact He.
Qed.

Lemma profile_keys_are_not_tables : forall key k,
  In key (List.map snd patterns) ->
  In k ["facts"; "relationships"; "flexipdf_knowledge"; "conversations"] ->
  k <> key.
Proof.
  intros key k Hkey Hk. cbv [patterns List.map snd In] in Hkey, Hk.
  repeat (destruct Hkey as [<-|Hkey]); try contradiction;
    repeat (destruct Hk as [<-|Hk]); try contradiction; discriminate.
Qed.

(** X9.  A profile statement wins over everything else.  If one of the
    profile patterns is found anywhere in an ASCII input, then on a
    well-formed chatbot [get_response] answers with the confirmation of that pattern's
    key, stores the captured value under the key (title-cased for the name,
    capitalised otherwise), and changes nothing else in the store but the
    log: no fact, relationship or help entry is written, whatever else the
    line looks like. *)
Theorem profile_statement_is_learned :
  forall (now input : string) (b : AliChatbot) (key : string) (m : mstate),
    Str.is_ascii input = true ->
    well_formed b = true ->
    first_match patterns (Str.strip input) = Some (key, m) ->
    exists b',
      get_response now input b
      = Some (JStr (structured_reply key
                      (if String.eqb key "user_name"
                       then Str.title (captured 1 m)
                       else Str.capitalize (captured 1 m))), b') /\
      Dict.get key (data b')
      = Some (JStr (if String.eqb key "user_name"
                    then Str.title (captured 1 m)
                    else Str.capitalize (captured 1 m))) /\
      (forall k, k <> key -> k <> "conversations" ->
         Dict.get k (data b') = Dict.get k (data b)).
Proof.
  intros now input b key m _ W Hm.
  set (text := Str.strip input) in *.
  set (stored := if String.eqb key "user_name"
                 then Str.title (captured 1 m) else Str.capitalize (captured 1 m)).
  assert (Htext : text <> "")
    by (eapply first_match_nonempty; [exact Hm|vm_compute; reflexivity]).
  pose proof (first_match_key _ _ _ _ Hm) as Hkey.
  set (d1 := Dict.set key (JStr stored) (data b)).
  set (b1 := set_file (Parsed (JObj d1)) (set_data d1 b)).
  assert (S1 : _learn_structured_fact text b
               = Some (Some (structured_reply key stored), b1)).
  { unfold _learn_structured_fact. rewrite Hm. reflexivity. }
  assert (W1 : well_formed b1 = true).
  { apply well_formed_kept; [exact W|]. intros k Hk. subst d1.
    apply get_set_other. intros E. symmetry in E. revert E.
    now apply profile_keys_are_not_tables. }
  destruct (remember_returns now text (JStr (structured_reply key stored)) b1 W1)
    as (b2 & R & _ & Hother).
  exists b2. split; [|split].
  - rewrite get_response_stripped by exact Htext. fold text.
    rewrite (stage_some _ _ _ _ b b1 _ S1) by apply structured_reply_nonempty.
    unfold log_and_return, bind. now rewrite R.
  - rewrite Hother.
    + subst b1 d1. destruct b as [d c n f em ix]. run_bot. apply get_set_same.
    + intros ->. revert Hkey. cbv [patterns List.map snd In].
      intros H. repeat (destruct H as [H|H]; [discriminate|]). exact H.
  - intros k Hk Hc. rewrite Hother by exact Hc.
    subst b1 d1. destruct b as [d c n f em ix]. run_bot.
    apply get_set_other. congruence.
Qed.

Lemma profile_statement_is_learned_witness :
  exists b',
    get_response "t" "Rubab is from Kohat" fresh_bot
    = Some (JStr "Oh nice! 🌍 Kohat — I'll remember that.", b') /\
    Dict.get "country" (data b') = Some (JStr "Kohat") /\
    Dict.get "facts" (data b') = Some (JObj []).
Proof.
  destruct (re_search (told (lit "from") place_chars) "Rubab is from Kohat")
    as [m|] eqn:Em; [|vm_compute in Em; discriminate].
  assert (Hc : captured 1 m = "Kohat").
  { assert (B : Some (captured 1 m)
                = option_map (captured 1)
                    (re_search (told (lit "from") place_chars) "Rubab is from Kohat"))
      by (rewrite Em; reflexivity).
    vm_compute in B. now injection B. }
  destruct (profile_statement_is_learned "t" "Rubab is from Kohat" fresh_bot "country" m)
    as (b' & E & Hk & Hother).
  - reflexivity.
  - vm_compute. reflexivity.
  - assert (G : first_match patterns (Str.strip "Rubab is from Kohat")
                = match re_search (told (lit "from") place_chars) "Rubab is from Kohat" with
                  | Some m0 => Some ("country", m0)
                  | None => None
                  end) by (vm_compute; reflexivity).
    rewrite G, Em. reflexivity.
  - exists b'. rewrite E, Hk, Hc. split; [vm_compute; reflexivity|].
    split; [vm_compute; reflexivity|].
    rewrite Hother by discriminate. vm_compute. reflexivity.
Defined.

Lemma relation_keys_spelled : forall key,
  In key (List.map snd rel_patterns) -> key <> "".
Proof.
  intros key H. cbv [rel_patterns List.map snd In] in H.
  repeat (destruct H as [<-|H]); try contradiction; discriminate.
Qed.

(** X10.  A relationship statement is learned.  If no profile pattern is
    found in an ASCII input and a relationship pattern is, then on a
    well-formed chatbot [get_response] confirms it, stores the captured
    name title-cased under the role in the Relationship Map, and changes no
    other role and no other field of the store but the log. *)
Theorem relationship_statement_is_learned :
  forall (now input : string) (b : AliChatbot) (key : string) (m : mstate),
    Str.is_ascii input = true ->
    well_formed b = true ->
    first_match patterns (Str.strip input) = None ->
    first_match rel_patterns (Str.strip input) = Some (key, m) ->
    exists b',
      get_response now input b
      = Some (JStr ("Nice — I’ve learned your " ++ spaced key ++ " is "
                    ++ Str.title (captured 1 m) ++ " " ++ heart key), b') /\
      Dict.get key (relationships b') = Some (JStr (Str.title (captured 1 m))) /\
      (forall k, k <> key ->
         Dict.get k (relationships b') = Dict.get k (relationships b)) /\
      (forall k, k <> "relationships" -> k <> "conversations" ->
         Dict.get k (data b') = Dict.get k (data b)).
Proof.
  intros now input b key m _ W Hp Hm.
  set (text := Str.strip input) in *.
  set (val := Str.title (captured 1 m)).
  assert (Htext : text <> "")
    by (eapply first_match_nonempty; [exact Hm|vm_compute; reflexivity]).
  destruct (well_formed_inv b W) as (fs & rs & ks & cs & Hf & Hr & Hk & Hc & He).
  set (d1 := Dict.set "relationships" (JObj (Dict.set key (JStr val) rs)) (data b)).
  set (b1 := set_file (Parsed (JObj d1)) (set_data d1 b)).
  set (reply := "Nice — I’ve learned your " ++ spaced key ++ " is "
                ++ val ++ " " ++ heart key).
  assert (S1 : _learn_structured_fact text b = Some (Some reply, b1)).
  { unfold _learn_structured_fact. rewrite Hp, Hm.
    destruct b as [d c n f em ix]. run_bot.
    unfold setdefault, Dict.has. rewrite Hr. unfold store_in. rewrite Hr.
    reflexivity. }
  assert (W1 : well_formed b1 = true).
  { destruct b as [d c n f em ix]. subst b1 d1. run_bot.
    eapply well_formed_intro; run_bot.
    - rewrite get_set_other by discriminate. eassumption.
    - apply get_set_same.
    - rewrite get_set_other by discriminate. eassumption.
    - rewrite get_set_other by discriminate. eassumption.
    - exact He. }
  destruct (remember_returns now text (JStr reply) b1 W1) as (b2 & R & _ & Hother).
  assert (Hrel : Dict.get "relationships" (data b2)
                 = Some (JObj (Dict.set key (JStr val) rs))).
  { rewrite Hother by discriminate. subst b1 d1.
    destruct b as [d c n f em ix]. run_bot. apply get_set_same. }
  exists b2. split; [|split; [|split]].
  - rewrite get_response_stripped by exact Htext. fold text.
    rewrite (stage_some _ _ _ _ b b1 reply S1) by discriminate.
    unfold log_and_return, bind. now rewrite R.
  - unfold relationships. rewrite Hrel. apply get_set_same.
  - intros k Hne. unfold relationships. rewrite Hrel, Hr.
    apply get_set_other. congruence.
  - intros k Hk' Hc'. rewrite Hother by exact Hc'.
    subst b1 d1. destruct b as [d c n f em ix]. run_bot.
    apply get_set_other. congruence.
Qed.

Lemma relationship_statement_is_learned_witness :
  exists b',
    get_response "t" "My best friend is sara khan." fresh_bot
    = Some (JStr "Nice — I’ve learned your best friend is Sara Khan 🤝", b') /\
    Dict.get "best_friend" (relationships b') = Some (JStr "Sara Khan").
Proof.
  destruct (re_search (told (lit "my best friend is") name_chars)
              "My best friend is sara khan.") as [m|] eqn:Em;
    [|vm_compute in Em; discriminate].
  assert (Hc : captured 1 m = "sara khan").
  { assert (B : Some (captured 1 m)
                = option_map (captured 1)
                    (re_search (told (lit "my best friend is") name_chars)
                       "My best friend is sara khan."))
      by (rewrite Em; reflexivity).
    vm_compute in B. now injection B. }
  destruct (relationship_statement_is_learned "t" "My best friend is sara khan."
              fresh_bot "best_friend" m) as (b' & E & Hk & _).
  - reflexivity.
  - vm_compute. reflexivity.
  - vm_compute. reflexivity.
  - assert (G : first_match rel_patterns (Str.strip "My best friend is sara khan.")
                = match re_search (told (lit "my best friend is") name_chars)
                          "My best friend is sara khan." with
                  | Some m0 => Some ("best_friend", m0)
                  | None => None
                  end) by (vm_compute; reflexivity).
    rewrite G, Em. reflexivity.
  - exists b'. rewrite E, Hk, Hc. split; vm_compute; reflexivity.
Defined.

(** ** The relationship resolver *)





(** ** Lazy repetition and the fact patterns *)

Lemma rmatch_plus_stuck : forall p c s bf gs k,
  p c = false ->
  rmatch (Plus true (Chr p)) (MState bf (String c s) gs) k = None.
Proof.
  intros p c s bf gs k H. unfold Plus.
  change (rmatch (Seq ?a ?b) ?st ?k0) with (rmatch a st (fun st1 => rmatch b st1 k0)).
  now rewrite rmatch_chr, H.
Qed.

(** A lazy repetition of a class stops at the first position where what
    follows can be matched. *)
Lemma star_lazy_run : forall p k s1 s2 gs m n bf,
  Str.all p s1 = true ->
  String.length (s1 ++ s2) <= n ->
  (forall a c t, s1 = a ++ String c t ->
     k (MState (last_before bf a) (String c t ++ s2) gs) = None) ->
  k (MState (last_before bf s1) s2 gs) = Some m ->
  star_loop false (rmatch (Chr p)) k n (MState bf (s1 ++ s2) gs) = Some m.
Proof.
  intros p k s1 s2 gs m.
  assert (Hbody : forall st k0,
            rmatch (Chr p) st k0
            = match Re.rest st with
              | String c s' => if p c then k0 (step c s' st) else None
              | EmptyString => None
              end) by reflexivity.
  remember (rmatch (Chr p)) as body eqn:Eb. clear Eb.
  induction s1 as [|c s1 IH]; intros n bf Hall Hn Hfail Hk.
  - cbn [append last_before] in *.
    destruct n; [exact Hk|]. cbn [star_loop]. now rewrite Hk.
  - cbn [Str.all] in Hall. apply andb_true_iff in Hall as [Hc Hall].
    cbn [append String.length] in Hn.
    destruct n as [|n]; [lia|].
    cbn [star_loop append].
    pose proof (Hfail "" c s1 eq_refl) as H0.
    cbn [last_before append] in H0. rewrite H0.
    rewrite Hbody. cbn [Re.rest]. rewrite Hc.
    unfold step. cbn [Re.rest groups String.length].
    rewrite (proj2 (Nat.ltb_lt _ _)) by lia.
    apply IH; auto; [lia|].
    intros a c' t E. subst s1.
    apply (Hfail (String c a) c' t). reflexivity.
Qed.

Lemma rmatch_plus_lazy : forall p k c s1 s2 gs m bf,
  p c = true -> Str.all p s1 = true ->
  (forall a c' t, s1 = a ++ String c' t ->
     k (MState (last_before (Some c) a) (String c' t ++ s2) gs) = None) ->
  k (MState (last_before (Some c) s1) s2 gs) = Some m ->
  rmatch (Plus false (Chr p)) (MState bf (String c (s1 ++ s2)) gs) k = Some m.
Proof.
  intros p k c s1 s2 gs m bf Hc Hall Hfail Hk.
  unfold Plus. change (rmatch (Seq ?a ?b) ?st ?k0)
    with (rmatch a st (fun st1 => rmatch b st1 k0)).
  rewrite rmatch_chr, Hc. cbn [rmatch Re.rest].
  now apply star_lazy_run.
Qed.

Lemma take_app_diff : forall s t,
  Str.take (String.length (s ++ t) - String.length t) (s ++ t) = s.
Proof.
  intros s t. rewrite length_append.
  replace (String.length s + String.length t - String.length t)
    with (String.length s) by lia.
  induction s as [|c s IH]; cbn [String.length append Str.take].
  - now destruct t.
  - now rewrite IH.
Qed.

Lemma all_split : forall p a b,
  Str.all p (a ++ b) = Str.all p a && Str.all p b.
Proof.
  intros p a b; induction a as [|c a IH]; cbn [append Str.all]; [reflexivity|].
  now rewrite IH, andb_assoc.
Qed.

Lemma rstrip_none : forall p s,
  Str.all (fun c => negb (p c)) s = true -> Str.rstrip_by p s = s.
Proof.
  intros p s; induction s as [|c s IH]; cbn [Str.all Str.rstrip_by]; [reflexivity|].
  intros H. apply andb_true_iff in H as [Hc H]. apply negb_true_iff in Hc.
  rewrite (IH H), Hc. now destruct s.
Qed.

Lemma lstrip_none : forall p s,
  Str.all (fun c => negb (p c)) s = true -> Str.lstrip_by p s = s.
Proof.
  intros p [|c s]; cbn [Str.all Str.lstrip_by]; [reflexivity|].
  intros H. apply andb_true_iff in H as [Hc _]. apply negb_true_iff in Hc.
  now rewrite Hc.
Qed.

(** Trailing characters of the stripped class go away. *)
Lemma rstrip_tail : forall p s t,
  Str.all p t = true -> Str.rstrip_by p (s ++ t) = Str.rstrip_by p s.
Proof.
  intros p s t Ht.
  assert (E : Str.rstrip_by p t = "").
  { induction t as [|c t IH]; [reflexivity|].
    cbn [Str.all] in Ht. apply andb_true_iff in Ht as [Hc Ht].
    cbn [Str.rstrip_by]. now rewrite (IH Ht), Hc. }
  induction s as [|c s IH]; cbn [append Str.rstrip_by]; [exact E|].
  now rewrite IH.
Qed.

Lemma subject_char_split : forall s,
  Str.all subject_char s = true ->
  Str.all (fun c => negb (Char.is_space c)) s = true /\
  Str.all (fun c => negb (Char.one_of ".!?" c)) s = true /\
  Str.all (fun c => negb (Char.one_of "?.!" c)) s = true /\
  no_newline s = true.
Proof.
  intros s H. repeat split;
    (eapply all_weaken; [|exact H]);
    intros [[] [] [] [] [] [] [] []]; vm_compute; intros E;
    first [reflexivity | discriminate].
Qed.

Lemma subject_is_clean : forall s,
  Str.all subject_char s = true ->
  Str.rstrip ".!?" (Str.strip s) = s.
Proof.
  intros s H. destruct (subject_char_split s H) as (H1 & H2 & _).
  unfold Str.strip, Str.rstrip.
  rewrite (lstrip_none _ _ H1), (rstrip_none _ _ H1). now apply rstrip_none.
Qed.

Lemma strip_starts : forall s,
  Str.strip s = s -> s <> "" ->
  exists c t, s = String c t /\ Char.is_space c = false.
Proof.
  intros s E Hne. unfold Str.strip in E.
  pose proof (lstrip_stops Char.is_space s) as St.
  destruct (Str.lstrip_by Char.is_space s) as [|c t] eqn:L.
  - cbn in E. now elim Hne.
  - cbn [stops] in St. apply negb_true_iff in St.
    rewrite rstrip_head in E by exact St.
    destruct s as [|c0 s0]; [discriminate|]. injection E as <- _.
    now exists c, s0.
Qed.

Lemma rmatch_seq : forall a b st k,
  rmatch (Seq a b) st k = rmatch a st (fun st1 => rmatch b st1 k).
Proof. reflexivity. Qed.

Lemma rmatch_grp : forall i r st k,
  rmatch (Grp i r) st k = rmatch r st (fun st1 => k (close_group i st st1)).
Proof. reflexivity. Qed.

Lemma all_inside : forall p a c t,
  Str.all p (a ++ String c t) = true -> p c = true.
Proof.
  intros p a c t H. rewrite all_split in H. apply andb_true_iff in H as [_ H].
  cbn [Str.all] in H. now apply andb_true_iff in H as [H _].
Qed.

(** [\s*([^?.!]+?)\s+is\s+(.+)] on "<subject> is <meaning>" with a
    one-word subject: the groups are the subject and the meaning. *)
Lemma fact_pattern_matches : forall c0 s0 c1 m1,
  Str.all subject_char (String c0 s0) = true ->
  Char.is_space c1 = false ->
  no_newline (String c1 m1) = true ->
  exists m,
    re_match fact_pattern (String c0 s0 ++ " is " ++ String c1 m1) = Some m /\
    group 1 m = String c0 s0 /\ group 2 m = String c1 m1.
Proof.
  intros c0 s0 c1 m1 Hsub Hc1 Hnl.
  destruct (subject_char_split _ Hsub) as (Hsp & _ & Hmark & _).
  cbn [Str.all] in Hsp, Hmark.
  apply andb_true_iff in Hsp as [Hc0sp Hs0sp].
  apply andb_true_iff in Hmark as [Hc0m Hs0m].
  unfold no_newline in Hnl. cbn [Str.all] in Hnl.
  apply andb_true_iff in Hnl as [Hc1nl Hm1nl].
  eexists. split; [|split].
  - unfold re_match, start, fact_pattern. cbn [seqs]. rewrite rmatch_seq.
    change (String c0 s0 ++ " is " ++ String c1 m1)
      with ("" ++ String c0 (s0 ++ " is " ++ String c1 m1)).
    apply rmatch_star_greedy; [reflexivity|cbn [stops]; exact Hc0sp|].
    cbn [last_before]. rewrite rmatch_seq, rmatch_grp. unfold none_of.
    apply rmatch_plus_lazy; [exact Hc0m|exact Hs0m| |].
    + intros a c' t E. rewrite rmatch_seq. unfold close_group. cbn [before Re.rest groups].
      apply rmatch_plus_stuck. apply negb_true_iff.
      rewrite E in Hs0sp. exact (all_inside _ _ _ _ Hs0sp).
    + rewrite rmatch_seq. unfold close_group at 1. cbn [before Re.rest groups].
      change (" is " ++ String c1 m1)
        with (String " " ("" ++ ("is" ++ String " " (String c1 m1)))).
      apply rmatch_plus_greedy; [reflexivity|reflexivity|reflexivity|].
      rewrite rmatch_seq, rmatch_lit by reflexivity.
      rewrite rmatch_seq.
      change (String " " (String c1 m1)) with (String " " ("" ++ String c1 m1)).
      apply rmatch_plus_greedy; [reflexivity|reflexivity|cbn [stops]; now rewrite Hc1|].
      rewrite rmatch_grp. unfold dot.
      rewrite <- (append_nil_r m1) at 1.
      apply rmatch_plus_greedy; [exact Hc1nl|exact Hm1nl|reflexivity|reflexivity].
  - unfold group, close_group. cbn [groups lookup_group Nat.eqb].
    unfold taken. cbn [Re.rest].
    exact (take_app_diff (String c0 s0) (" is " ++ String c1 m1)).
  - unfold group, close_group. cbn [groups lookup_group Nat.eqb].
    unfold taken. cbn [Re.rest String.length]. rewrite Nat.sub_0_r.
    apply (take_all (String c1 m1)).
Qed.

Lemma lower_app : forall a b, Str.lower (a ++ b) = Str.lower a ++ Str.lower b.
Proof.
  intros a b; induction a as [|c a IH]; [reflexivity|].
  unfold Str.lower in *. cbn [append Str.map]. now rewrite IH.
Qed.

Lemma lowered_letter_not_space : forall x,
  Char.is_lower (Char.lower x) = true -> Char.is_space x = false.
Proof.
  intros [[] [] [] [] [] [] [] []]; vm_compute; intros H;
    first [reflexivity | discriminate].
Qed.

Lemma marks_are_printed : forall marks,
  Str.all (Char.one_of ".!?") marks = true ->
  Str.all (fun c => negb (Char.is_space c)) marks = true /\
  no_newline marks = true.
Proof.
  intros marks H. split; (eapply all_weaken; [|exact H]);
    intros [[] [] [] [] [] [] [] []]; vm_compute; intros E;
    first [reflexivity | discriminate].
Qed.

Lemma append_assoc_str : forall a b c : string, (a ++ b) ++ c = a ++ b ++ c.
Proof.
  intros a b c; induction a as [|x a IH]; cbn [append]; [reflexivity|now rewrite IH].
Qed.

Lemma rmatch_alt_first : forall r1 r2 st k m,
  rmatch r1 st k = Some m -> rmatch (Alt r1 r2) st k = Some m.
Proof. intros r1 r2 st k m H. cbn [rmatch]. now rewrite H. Qed.

Lemma lower_space : forall c, Char.lower c = " "%char -> c = " "%char.
Proof.
  intros [[] [] [] [] [] [] [] []]; vm_compute; intros E;
    first [reflexivity | discriminate].
Qed.

Lemma subject_char_lower : forall s,
  Str.all subject_char (Str.lower s) = Str.all subject_char s.
Proof.
  unfold Str.lower. induction s as [|c s IH]; cbn [Str.map Str.all]; [reflexivity|].
  rewrite IH. f_equal.
  destruct c as [[] [] [] [] [] [] [] []]; vm_compute; reflexivity.
Qed.

(** A line that starts with "what is", in any case, starts with a guarded
    question word. *)
Lemma what_is_guarded : forall q rest,
  Str.lower q = "what is" ->
  exists g, re_match question_guard (q ++ rest) = Some g.
Proof.
  intros q rest Hq. unfold Str.lower in Hq.
  destruct q as [|a [|b [|c [|d [|e q']]]]]; try discriminate.
  cbn [Str.map] in Hq. injection Hq as Ha Hb Hc Hd He _.
  apply lower_space in He. subst e.
  apply (question_guard_matches "" (String a (String b (String c (String d ""))))
           (String " " (q' ++ rest))).
  - reflexivity.
  - unfold Str.lower. cbn [Str.map]. rewrite Ha, Hb, Hc, Hd. now left.
  - reflexivity.
Qed.

(** [\s*(what is|who is|define)\s+(.+)\??] on "what is <subject>", the
    words in any case, followed by question or other marks: the second
    group is the subject with the marks, and what is looked up is the
    subject. *)
Lemma fact_query_matches : forall q c0 s0 marks,
  Str.lower q = "what is" ->
  Str.all subject_char (String c0 s0) = true ->
  Str.all (Char.one_of ".!?") marks = true ->
  exists m,
    re_match fact_query_pattern (q ++ " " ++ String c0 s0 ++ marks) = Some m /\
    captured 2 m = String c0 s0.
Proof.
  intros q c0 s0 marks Hq Hsub Hmarks.
  destruct (subject_char_split _ Hsub) as (Hsp & Hmark & _ & Hnl).
  destruct (marks_are_printed _ Hmarks) as (Msp & Mnl).
  assert (Hc0sp : Char.is_space c0 = false).
  { cbn [Str.all] in Hsp. apply andb_true_iff in Hsp as [H _].
    now apply negb_true_iff in H. }
  assert (Hwsp : stops Char.is_space (q ++ " " ++ String c0 s0 ++ marks) = true).
  { destruct q as [|x q]; [discriminate|]. cbn [append stops].
    apply negb_true_iff, lowered_letter_not_space.
    unfold Str.lower in Hq. cbn [Str.map] in Hq. injection Hq as -> _. reflexivity. }
  assert (Hall : no_newline (String c0 (s0 ++ marks)) = true).
  { unfold no_newline in *. change (String c0 (s0 ++ marks)) with (String c0 s0 ++ marks).
    now rewrite all_split, Hnl, Mnl. }
  unfold no_newline in Hall. cbn [Str.all] in Hall.
  apply andb_true_iff in Hall as [Hc0nl Hrestnl].
  assert (Em : exists m,
    re_match fact_query_pattern (q ++ " " ++ String c0 s0 ++ marks) = Some m /\
    group 2 m = String c0 s0 ++ marks).
  { eexists. split.
    - unfold re_match, start, fact_query_pattern. cbn [seqs]. rewrite rmatch_seq.
      change (q ++ " " ++ String c0 s0 ++ marks)
        with ("" ++ (q ++ " " ++ String c0 s0 ++ marks)).
      apply rmatch_star_greedy; [reflexivity|exact Hwsp|].
      cbn [last_before]. rewrite rmatch_seq, rmatch_grp.
      cbn [alts]. apply rmatch_alt_first.
      change (q ++ " " ++ String c0 s0 ++ marks)
        with (q ++ String " " (String c0 (s0 ++ marks))).
      rewrite rmatch_lit by (rewrite Hq; reflexivity).
      rewrite rmatch_seq. unfold close_group at 1. cbn [before Re.rest groups].
      change (String " " (String c0 (s0 ++ marks)))
        with (String " " ("" ++ String c0 (s0 ++ marks))).
      apply rmatch_plus_greedy;
        [reflexivity|reflexivity|cbn [stops]; now rewrite Hc0sp|].
      cbn [last_before]. rewrite rmatch_seq, rmatch_grp. unfold dot.
      rewrite <- (append_nil_r (s0 ++ marks)) at 1.
      apply rmatch_plus_greedy; [exact Hc0nl|exact Hrestnl|reflexivity|reflexivity].
    - unfold group, close_group. cbn [groups lookup_group Nat.eqb].
      unfold taken. cbn [Re.rest String.length]. rewrite Nat.sub_0_r.
      apply (take_all (String c0 (s0 ++ marks))). }
  destruct Em as (m & Em & Eg). exists m. split; [exact Em|].
  unfold captured. rewrite Eg. unfold Str.strip, Str.rstrip.
  assert (Hnosp : Str.all (fun c => negb (Char.is_space c)) (String c0 s0 ++ marks) = true)
    by (now rewrite all_split, Hsp, Msp).
  rewrite (lstrip_none _ _ Hnosp), (rstrip_none _ _ Hnosp).
  rewrite rstrip_tail by exact Hmarks. now apply rstrip_none.
Qed.

Lemma lower_length : forall s, String.length (Str.lower s) = String.length s.
Proof.
  unfold Str.lower. induction s as [|c s IH]; cbn [Str.map String.length];
    [reflexivity|now rewrite IH].
Qed.

Lemma rstrip_kept : forall p a t,
  Str.rstrip_by p t = t -> t <> "" -> Str.rstrip_by p (a ++ t) = a ++ t.
Proof.
  intros p a t E Hne. rewrite rstrip_app; rewrite E; [reflexivity|exact Hne].
Qed.

Lemma strip_rstrip : forall s c t,
  Str.strip s = s -> s = String c t -> Str.rstrip_by Char.is_space s = s.
Proof.
  intros s c t E Es.
  destruct (strip_starts s E) as (c' & t' & Es' & Hc); [rewrite Es; discriminate|].
  unfold Str.strip in E. rewrite Es' in E |- *.
  cbn [Str.lstrip_by] in E. rewrite Hc in E. exact E.
Qed.

(** ** The fact round trip *)

(** X12.  A fact that is told is told back.  Let the subject be one ASCII
    word of at least two characters without [?], [.] or [!], and the
    meaning a trimmed ASCII line that is not only marks.  On a well-formed
    chatbot, if the profile, relationship and teaching patterns do not
    occur in "<subject> is <meaning>" and it does not start with a guarded
    question word, [get_response] stores the meaning, without trailing
    marks, under the lowered subject in the Fact Table and confirms it.
    Afterwards "what is <subject>", every letter of it in either case and
    with any trailing marks, is answered "<Subject> is <meaning>" from the
    Fact Table, provided the earlier extractors and the relationship
    resolver do not take the question. *)
Theorem fact_is_remembered :
  forall (subject meaning now1 : string) (b : AliChatbot),
    Str.is_ascii subject = true ->
    Str.is_ascii meaning = true ->
    well_formed b = true ->
    Str.all subject_char subject = true ->
    2 <= String.length subject ->
    no_newline meaning = true ->
    Str.strip meaning = meaning ->
    Str.rstrip ".!?" meaning <> "" ->
    first_match patterns (subject ++ " is " ++ meaning) = None ->
    first_match rel_patterns (subject ++ " is " ++ meaning) = None ->
    re_search learn_pattern (subject ++ " is " ++ meaning) = None ->
    re_search teach_pattern (subject ++ " is " ++ meaning) = None ->
    re_match question_guard (subject ++ " is " ++ meaning) = None ->
    exists b1,
      get_response now1 (subject ++ " is " ++ meaning) b
      = Some (JStr ("Got it! I’ve learned that **" ++ Str.lower subject ++ "** is **"
                    ++ Str.rstrip ".!?" meaning ++ "** 🧠"), b1) /\
      Dict.get (Str.lower subject) (facts b1) = Some (JStr (Str.rstrip ".!?" meaning)) /\
      forall (q asked marks now2 : string),
        Str.lower q = "what is" ->
        Str.lower asked = Str.lower subject ->
        Str.all (Char.one_of ".!?") marks = true ->
        first_match patterns (q ++ " " ++ asked ++ marks) = None ->
        first_match rel_patterns (q ++ " " ++ asked ++ marks) = None ->
        re_search learn_pattern (q ++ " " ++ asked ++ marks) = None ->
        re_search teach_pattern (q ++ " " ++ asked ++ marks) = None ->
        _answer_relationship_query b1 (q ++ " " ++ asked ++ marks) = Some None ->
        exists b2,
          get_response now2 (q ++ " " ++ asked ++ marks) b1
          = Some (JStr (Str.capitalize (Str.lower subject) ++ " is "
                        ++ Str.rstrip ".!?" meaning ++ " 💡"), b2).
Proof.
  intros subject meaning now1 b _ _ W Hsub Hlen Hnl Hstrip Hmean P1 P2 P3 P4 P5.
  destruct subject as [|c0 s0]; [cbn in Hlen; lia|].
  assert (Hmne : meaning <> "") by (intros ->; now apply Hmean).
  destruct (strip_starts meaning Hstrip Hmne) as (c1 & m1 & -> & Hc1).
  pose proof (strip_rstrip _ c1 m1 Hstrip eq_refl) as Hr.
  destruct (subject_char_split _ Hsub) as (Hsp & _ & _ & _).
  assert (Hc0 : Char.is_space c0 = false).
  { cbn [Str.all] in Hsp. apply andb_true_iff in Hsp as [H _].
    now apply negb_true_iff in H. }
  set (subject := String c0 s0) in *. set (meaning := String c1 m1) in *.
  set (text := subject ++ " is " ++ meaning) in *.
  set (stored := Str.rstrip ".!?" meaning) in *.
  assert (Htext : Str.strip text = text).
  { unfold Str.strip. rewrite lstrip_stopped
      by (subst text subject; cbn [append stops]; now rewrite Hc0).
    subst text. apply rstrip_kept; [|discriminate].
    apply (rstrip_kept _ " is " meaning Hr Hmne). }
  assert (Htne : text <> "") by (subst text subject; discriminate).
  destruct (fact_pattern_matches c0 s0 c1 m1 Hsub Hc1 Hnl) as (m & Em & G1 & G2).
  fold subject meaning text in Em, G1, G2.
  assert (C1 : captured 1 m = subject)
    by (unfold captured; rewrite G1; now apply subject_is_clean).
  assert (C2 : captured 2 m = stored)
    by (unfold captured; rewrite G2, Hstrip; reflexivity).
  destruct (well_formed_inv b W) as (fs & rs & ks & cs & Hf & Hrl & Hk & Hc & He).
  set (d1 := Dict.set "facts" (JObj (Dict.set (Str.lower subject) (JStr stored) fs)) (data b)).
  set (b0 := set_file (Parsed (JObj d1)) (set_data d1 b)).
  set (reply := "Got it! I’ve learned that **" ++ Str.lower subject ++ "** is **"
                ++ stored ++ "** 🧠").
  assert (S3 : _learn_fact_statement text b = Some (Some reply, b0)).
  { unfold _learn_fact_statement. rewrite P5, Em, C1, C2.
    rewrite lower_length.
    replace (String.length subject <? 2)%nat with false
      by (symmetry; apply Nat.ltb_ge; exact Hlen).
    replace (String.length stored <? 1)%nat with false
      by (symmetry; apply Nat.ltb_ge; destruct stored; [now elim Hmean|cbn; lia]).
    cbn [orb]. destruct b as [d c n f em ix]. run_bot.
    unfold store_in. rewrite Hf. reflexivity. }
  assert (W0 : well_formed b0 = true).
  { destruct b as [d c n f em ix]. subst b0 d1. run_bot.
    eapply well_formed_intro; run_bot.
    - apply get_set_same.
    - rewrite get_set_other by discriminate. eassumption.
    - rewrite get_set_other by discriminate. eassumption.
    - rewrite get_set_other by discriminate. eassumption.
    - exact He. }
  destruct (remember_returns now1 text (JStr reply) b0 W0) as (b1 & R & W1 & Hother).
  assert (Hfacts : Dict.get "facts" (data b1)
                   = Some (JObj (Dict.set (Str.lower subject) (JStr stored) fs))).
  { rewrite Hother by discriminate. subst b0 d1.
    destruct b as [d c n f em ix]. run_bot. apply get_set_same. }
  exists b1. split; [|split].
  - rewrite get_response_text by assumption.
    rewrite (stage_none _ _ _ _ b b) by (apply structured_none; assumption).
    rewrite (stage_none _ _ _ _ b b) by (apply knowledge_none; assumption).
    rewrite (stage_some _ _ _ _ b b0 reply S3) by discriminate.
    unfold log_and_return, bind. now rewrite R.
  - unfold facts. rewrite Hfacts. apply get_set_same.
  - intros q asked marks now2 Hq Hasked Hmarks Q1 Q2 Q3 Q4 Qrel.
    set (query := q ++ " " ++ asked ++ marks) in *.
    destruct (marks_are_printed _ Hmarks) as (Msp & _).
    assert (Hsub' : Str.all subject_char asked = true)
      by (rewrite <- subject_char_lower, Hasked, subject_char_lower; exact Hsub).
    destruct (subject_char_split _ Hsub') as (Hsp' & _).
    assert (Hane : exists a0 as0, asked = String a0 as0).
    { destruct asked as [|a0 as0]; [discriminate|]. now exists a0, as0. }
    destruct Hane as (a0 & as0 & Easked).
    assert (Hqne0 : exists x q', q = String x q' /\ Char.is_space x = false).
    { destruct q as [|x q']; [discriminate|]. exists x, q'. split; [reflexivity|].
      apply lowered_letter_not_space.
      unfold Str.lower in Hq. cbn [Str.map] in Hq. injection Hq as -> _. reflexivity. }
    destruct Hqne0 as (x & q' & Eqq & Hx).
    assert (Hstq : Str.strip query = query).
    { unfold Str.strip. rewrite lstrip_stopped
        by (subst query; rewrite Eqq; cbn [append stops]; now rewrite Hx).
      subst query. apply rstrip_kept; [|discriminate].
      apply rstrip_kept; [|rewrite Easked; discriminate].
      apply rstrip_none. now rewrite all_split, Hsp', Msp. }
    assert (Hqne : query <> "") by (subst query; rewrite Eqq; discriminate).
    destruct (what_is_guarded q (" " ++ asked ++ marks) Hq) as (g & Eg).
    fold query in Eg.
    rewrite Easked in Hsub'.
    destruct (fact_query_matches q a0 as0 marks Hq Hsub' Hmarks) as (mq & Eq & Cq).
    rewrite <- Easked in Eq, Cq. fold query in Eq.
    destruct (well_formed_inv b1 W1) as (fs1 & rs1 & ks1 & cs1 & Hf1 & _ & Hk1 & _).
    set (answer := Str.capitalize (Str.lower subject) ++ " is " ++ stored ++ " 💡").
    assert (A5 : _answer_fact_query b1 query = Some (Some answer)).
    { unfold _answer_fact_query, get_map. rewrite Eq, Cq, Hasked, Hfacts, Hk1.
      rewrite get_set_same. reflexivity. }
    destruct (remember_returns now2 query (JStr answer) b1 W1) as (b2 & R2 & _).
    exists b2.
    rewrite get_response_text by assumption.
    rewrite (stage_none _ _ _ _ b1 b1) by (apply structured_none; assumption).
    rewrite (stage_none _ _ _ _ b1 b1) by (apply knowledge_none; assumption).
    rewrite (stage_none _ _ _ _ b1 b1) by (eapply guarded_none; eassumption).
    rewrite (stage_none _ _ _ _ b1 b1)
      by (unfold ask, bind, self, lift; rewrite Qrel; reflexivity).
    rewrite (stage_some _ _ _ _ b1 b1 answer).
    + unfold log_and_return, bind. now rewrite R2.
    + unfold ask, bind, self, lift. now rewrite A5.
    + subst answer subject. discriminate.
Qed.

Lemma fact_is_remembered_witness :
  exists b1 b2,
    get_response "t1" "love is a deep feeling." fresh_bot
    = Some (JStr "Got it! I’ve learned that **love** is **a deep feeling** 🧠", b1) /\
    get_response "t2" "What Is LOVE?" b1
    = Some (JStr "Love is a deep feeling 💡", b2).
Proof.
  destruct (fact_is_remembered "love" "a deep feeling." "t1" fresh_bot)
    as (b1 & E1 & _ & Q).
  - reflexivity.
  - reflexivity.
  - vm_compute. reflexivity.
  - vm_compute. reflexivity.
  - cbn. lia.
  - vm_compute. reflexivity.
  - vm_compute. reflexivity.
  - vm_compute. discriminate.
  - vm_compute. reflexivity.
  - vm_compute. reflexivity.
  - vm_compute. reflexivity.
  - vm_compute. reflexivity.
  - vm_compute. reflexivity.
  - assert (B : Some b1 = option_map snd
                  (get_response "t1" ("love" ++ " is " ++ "a deep feeling.") fresh_bot))
      by (rewrite E1; reflexivity).
    vm_compute in B. injection B as B.
    destruct (Q "What Is" "LOVE" "?" "t2") as (b2 & E2).
    + reflexivity.
    + reflexivity.
    + reflexivity.
    + vm_compute. reflexivity.
    + vm_compute. reflexivity.
    + vm_compute. reflexivity.
    + vm_compute. reflexivity.
    + rewrite B. vm_compute. reflexivity.
    + exists b1, b2. split; [exact E1|exact E2].
Defined.

(** ** One write per call *)

Lemma structured_writes_once : forall text, writes_once (_learn_structured_fact text).
Proof.
  intros text b r b1. unfold _learn_structured_fact.
  destruct (first_match patterns text) as [[key m]|] eqn:Hp.
  - pose proof (first_match_key _ _ _ _ Hp) as Hkey.
    destruct b as [d c n f em ix]. run_bot. intros [= <- <-]. right.
    eexists. eexists. split; [reflexivity|].
    split; [apply structured_reply_nonempty|].
    split; [eapply @profile_write; exact Hkey|reflexivity].
  - destruct (first_match rel_patterns text) as [[key m]|] eqn:Hr.
    + destruct b as [d c n f em ix]. run_bot.
      unfold store_in, setdefault, Dict.has.
      destruct (Dict.get "relationships" d) as [v|] eqn:E.
      * rewrite E. destruct v; try discriminate.
        intros [= <- <-]. right. eexists. eexists. split; [reflexivity|].
        split; [discriminate|]. split; [|reflexivity].
        pose proof (@table_write d "relationships" key
                      (Str.title (captured 1 m))) as T.
        rewrite E in T. apply T. simpl. tauto.
      * rewrite get_set_same. intros [= <- <-]. right.
        eexists. eexists. split; [reflexivity|].
        split; [discriminate|]. split; [|reflexivity].
        rewrite set_set.
        pose proof (@table_write d "relationships" key
                      (Str.title (captured 1 m))) as T.
        rewrite E in T. apply T. simpl. tauto.
    + unfold ret. intros [= _ <-]. now left.
Qed.

Lemma teach_writes : forall key explanation b b1,
  teach key explanation b = Some (tt, b1) ->
  exists d', single_write (data b) d' /\
             b1 = set_file (Parsed (JObj d')) (set_data d' b).
Proof.
  intros key explanation [d c n f em ix] b1. unfold teach. run_bot.
  unfold store_in, setdefault, Dict.has.
  destruct (Dict.get "flexipdf_knowledge" d) as [v|] eqn:E.
  - rewrite E. destruct v; try discriminate.
    intros [= <-]. eexists. split; [|reflexivity].
    pose proof (@table_write d "flexipdf_knowledge" key explanation) as T.
    rewrite E in T. apply T. simpl. tauto.
  - rewrite get_set_same. intros [= <-]. eexists. split; [|reflexivity].
    rewrite set_set.
    pose proof (@table_write d "flexipdf_knowledge" key explanation) as T.
    rewrite E in T. apply T. simpl. tauto.
Qed.

Lemma knowledge_writes_once : forall text, writes_once (_learn_flexipdf_knowledge text).
Proof.
  intros text b r b1. unfold _learn_flexipdf_knowledge.
  destruct (re_search learn_pattern text) as [m|];
    [|destruct (re_search teach_pattern text) as [m|]].
  3: { unfold ret. intros [= _ <-]. now left. }
  all: unfold bind at 1;
    destruct (teach _ _ b) as [[[] b0]|] eqn:T; [|discriminate];
    unfold ret; intros [= <- <-]; right;
    destruct (teach_writes _ _ _ _ T) as (d' & Hw & Hb);
    eexists; exists d'; (split; [reflexivity|]);
    (split; [discriminate|]); split; assumption.
Qed.

Lemma fact_writes_once : forall text, writes_once (_learn_fact_statement text).
Proof.
  intros text b r b1. unfold _learn_fact_statement.
  destruct (re_match question_guard text); [unfold ret; intros [= _ <-]; now left|].
  destruct (re_match fact_pattern text) as [m|];
    [|unfold ret; intros [= _ <-]; now left].
  destruct (_ || _); [unfold ret; intros [= _ <-]; now left|].
  destruct b as [d c n f em ix]. run_bot. unfold store_in.
  destruct (Dict.get "facts" d) as [[| | | | | |o]|] eqn:E; try discriminate.
  intros [= <- <-]. right. eexists. eexists. split; [reflexivity|].
  split; [discriminate|]. split; [|reflexivity].
  pose proof (@table_write d "facts" (Str.lower (captured 1 m)) (captured 2 m)) as T.
  rewrite E in T. apply T. simpl. tauto.
Qed.

Lemma ask_writes_once : forall (f : AliChatbot -> option (option string)),
  writes_once (ask f).
Proof.
  intros f b r b1. unfold ask, bind, self, lift.
  destruct (f b); unfold ret, raise; [|discriminate].
  intros [= _ <-]. now left.
Qed.

Lemma log_and_return_answers_once : forall now text s,
  answers_once now text (log_and_return now text (JStr s)).
Proof.
  intros now text s b r b'. unfold log_and_return, bind.
  destruct (_remember_conversation now text (JStr s) b) as [[[] b1]|] eqn:E;
    [|discriminate].
  unfold ret. intros [= <- <-]. exists b.
  split; [now left|]. split; [exact E|]. left. now exists s.
Qed.

Lemma stage_answers_once : forall now text (s : M (option string)) (next : M json),
  writes_once s -> answers_once now text next ->
  answers_once now text (stage now text s next).
Proof.
  intros now text s next Hs Hnext b reply b'. unfold stage, bind.
  destruct (s b) as [[r b1]|] eqn:E; [|discriminate].
  apply Hs in E. destruct E as [->|(reply0 & d' & -> & Hne & Hw & ->)].
  - destruct r as [r|]; [|apply Hnext].
    destruct (String.eqb r ""); [apply Hnext|].
    apply log_and_return_answers_once.
  - destruct (String.eqb_spec reply0 ""); [contradiction|].
    unfold log_and_return, bind.
    destruct (_remember_conversation now text (JStr reply0) _) as [[[] b2]|] eqn:R;
      [|discriminate].
    unfold ret. intros [= <- <-]. eexists.
    split; [right; exists d'; split; [exact Hw|reflexivity]|].
    split; [exact R|]. left. now exists reply0.
Qed.

Lemma small_talk_answers_once : forall now text,
  answers_once now text (small_talk now text).
Proof.
  intros now text b reply b'. unfold small_talk, bind, self.
  destruct (lift (get_map "flexipdf_knowledge" (data b)) b) as [[kb b0]|] eqn:K;
    [|discriminate].
  apply lift_inv in K as [K ->].
  destruct (help_lookup kb _ help_map); [apply log_and_return_answers_once|].
  destruct (mood_reply _); [apply log_and_return_answers_once|].
  destruct (re_match greeting_pattern _); [apply log_and_return_answers_once|].
  destruct (re_match topic_pattern _); [|apply log_and_return_answers_once].
  destruct (lift (get_map "facts" (data b)) b) as [[fs b0]|] eqn:F; [|discriminate].
  apply lift_inv in F as [_ ->].
  destruct (Dict.get _ fs); [apply log_and_return_answers_once|].
  destruct (Dict.get _ kb) as [ans|] eqn:A; [|apply log_and_return_answers_once].
  unfold log_and_return, bind.
  destruct (_remember_conversation now text ans b) as [[[] b1]|] eqn:R; [|discriminate].
  unfold ret. intros [= <- <-]. exists b.
  split; [now left|]. split; [exact R|]. right. split; [reflexivity|].
  unfold get_map in K. unfold knowledge.
  destruct (Dict.get "flexipdf_knowledge" (data b)) as [[| | | | | |o]|];
    try discriminate; injection K as <-; [eexists; exact A|discriminate].
Qed.

Lemma get_response_answers_once : forall now input,
  Str.strip input <> "" ->
  answers_once now (Str.strip input) (get_response now input).
Proof.
  intros now input Hne b reply b'. rewrite get_response_stripped by exact Hne.
  revert b reply b'.
  repeat (apply stage_answers_once;
          [first [apply structured_writes_once | apply knowledge_writes_once
                 | apply fact_writes_once | apply ask_writes_once]|]).
  apply small_talk_answers_once.
Qed.

Lemma has_set_kept : forall k k' v d,
  Dict.has k d = true -> Dict.has k (Dict.set k' v d) = true.
Proof.
  intros k k' v d H. rewrite has_set_other, H. apply orb_true_r.
Qed.

Lemma single_write_keeps_keys : forall d d' k,
  single_write d d' -> Dict.has k d = true -> Dict.has k d' = true.
Proof.
  intros d d' k [|key v _|t k0 v _] H; [exact H| |]; now apply has_set_kept.
Qed.

Lemma single_write_keeps_entries : forall d d' t k,
  In t ["facts"; "relationships"; "flexipdf_knowledge"] ->
  single_write d d' ->
  Dict.has k (match Dict.get t d with Some (JObj o) => o | _ => [] end) = true ->
  Dict.has k (match Dict.get t d' with Some (JObj o) => o | _ => [] end) = true.
Proof.
  intros d d' t k Ht [|key v Hkey|t0 k0 v _] H; [exact H| |].
  - rewrite get_set_other; [exact H|].
    apply not_eq_sym, (profile_keys_are_not_tables key t Hkey). simpl in *. tauto.
  - destruct (String.eqb_spec t t0) as [->|Hne].
    + rewrite get_set_same. now apply has_set_kept.
    + rewrite get_set_other by congruence. exact H.
Qed.

Lemma log_entry_keeps : forall e d d' t,
  log_entry e d = Some d' -> t <> "conversations" -> Dict.get t d' = Dict.get t d.
Proof.
  intros e d d' t H Hne. apply log_entry_effect in H. subst d'.
  apply get_set_other. congruence.
Qed.

(** X13.  A call writes at most once, and never deletes.  When
    [get_response] returns on an ASCII input that is not blank, the store it
    leaves is the one it found after at most one write - one profile field
    set, or one entry set in the Fact Table, the Relationship Map or the
    Knowledge Base - followed by the append of the exchange to the log.  So
    no key of the store and no entry of a table is ever removed by a
    call. *)
Theorem at_most_one_write_per_call :
  forall (now input : string) (b : AliChatbot) (reply : json) (b' : AliChatbot),
    Str.is_ascii input = true ->
    Str.strip input <> "" ->
    get_response now input b = Some (reply, b') ->
    (exists d_mid,
       single_write (data b) d_mid /\
       log_entry (exchange_json (Exchange (Str.strip input) reply now)) d_mid
       = Some (data b')) /\
    (forall k, Dict.has k (data b) = true -> Dict.has k (data b') = true) /\
    (forall k, Dict.has k (facts b) = true -> Dict.has k (facts b') = true) /\
    (forall k, Dict.has k (relationships b) = true ->
               Dict.has k (relationships b') = true) /\
    (forall k, Dict.has k (knowledge b) = true -> Dict.has k (knowledge b') = true).
Proof.
  intros now input b reply b' _ Hne H.
  apply (get_response_answers_once now input Hne) in H as (b_mid & Hmid & R & _).
  apply remember_inv in R as (d' & ix & Hlog & ->). cbn [data].
  assert (Hw : single_write (data b) (data b_mid)).
  { destruct Hmid as [->|(d0 & Hw & ->)]; [apply (@no_write _)|].
    destruct b as [d c n f em ix0]. exact Hw. }
  assert (Htab : forall t k,
            In t ["facts"; "relationships"; "flexipdf_knowledge"] ->
            Dict.has k (match Dict.get t (data b) with Some (JObj o) => o | _ => [] end) = true ->
            Dict.has k (match Dict.get t d' with Some (JObj o) => o | _ => [] end) = true).
  { intros t k Ht Hk.
    rewrite (log_entry_keeps _ _ _ t Hlog)
      by (cbv [In] in Ht; intros ->; repeat (destruct Ht as [Ht|Ht]; [discriminate|]);
          exact Ht).
    now apply (single_write_keeps_entries (data b)). }
  split; [exists (data b_mid); now split|].
  split; [|split; [|split]].
  - intros k Hk. apply log_entry_effect in Hlog. subst d'.
    apply has_set_kept. now apply (single_write_keeps_keys (data b)).
  - intros k. unfold facts. cbn [data]. apply Htab. simpl. tauto.
  - intros k. unfold relationships. cbn [data]. apply Htab. simpl. tauto.
  - intros k. unfold knowledge. cbn [data]. apply Htab. simpl. tauto.
Qed.

Lemma at_most_one_write_per_call_witness :
  exists reply b',
    get_response "t" "Ali learn 'pdf join' means put PDFs together" fresh_bot
    = Some (reply, b') /\
    Dict.has "split_pdf" (knowledge b') = true /\
    Dict.has "user_name" (data b') = true.
Proof.
  destruct (get_response "t" "Ali learn 'pdf join' means put PDFs together" fresh_bot)
    as [[reply b']|] eqn:E; [|vm_compute in E; discriminate].
  exists reply, b'. split; [reflexivity|].
  destruct (at_most_one_write_per_call
              "t" "Ali learn 'pdf join' means put PDFs together" fresh_bot reply b')
    as (_ & Hkeys & _ & _ & Hkb).
  - reflexivity.
  - vm_compute. discriminate.
  - exact E.
  - split; [apply Hkb|apply Hkeys]; vm_compute; reflexivity.
Defined.

(** X14.  What [get_response] returns.  Every reply is a string, except
    that the "tell me about <topic>" path hands out the entry of the
    Knowledge Base as it is stored: a reply that is not a string is a
    value that the Knowledge Base held when the call started.  So the
    declared return type [str] holds as long as the Knowledge Base, which
    is adopted from memory.json unchecked, holds strings only. *)
Theorem reply_is_text_or_help_entry :
  forall (now input : string) (b : AliChatbot) (reply : json) (b' : AliChatbot),
    get_response now input b = Some (reply, b') ->
    (exists s, reply = JStr s) \/
    (exists k, Dict.get k (knowledge b) = Some reply).
Proof.
  intros now input b reply b' H.
  destruct (String.eqb_spec (Str.strip input) "") as [E|Hne].
  - unfold get_response in H. rewrite E, String.eqb_refl, orb_true_r in H.
    injection H as <- _. left. now eexists.
  - apply (get_response_answers_once now input Hne) in H as (b_mid & _ & _ & Hr).
    destruct Hr as [Hs|[_ Hk]]; [now left|now right].
Qed.

Lemma reply_is_text_or_help_entry_witness :
  exists b',
    get_response "t" "tell me about cats"
      (set_data (Dict.set "flexipdf_knowledge" (JObj [("cats", JInt 42)])
                   (default_data JNull)) sample_bot)
    = Some (JInt 42, b') /\
    ((exists s, JInt 42 = JStr s) \/
     (exists k, Dict.get k (knowledge
                  (set_data (Dict.set "flexipdf_knowledge" (JObj [("cats", JInt 42)])
                               (default_data JNull)) sample_bot))
                = Some (JInt 42))).
Proof.
  destruct (get_response "t" "tell me about cats"
              (set_data (Dict.set "flexipdf_knowledge" (JObj [("cats", JInt 42)])
                           (default_data JNull)) sample_bot))
    as [[reply b']|] eqn:E; [|vm_compute in E; discriminate].
  assert (Hr : Some reply = Some (JInt 42)).
  { assert (B : Some reply = option_map fst
                  (get_response "t" "tell me about cats"
                     (set_data (Dict.set "flexipdf_knowledge" (JObj [("cats", JInt 42)])
                                  (default_data JNull)) sample_bot)))
      by (rewrite E; reflexivity).
    vm_compute in B. exact B. }
  injection Hr as ->. exists b'. split; [reflexivity|].
  exact (reply_is_text_or_help_entry "t" "tell me about cats" _ (JInt 42) b' E).
Defined.

(** ** Teaching and asking back *)

Lemma all_map : forall (p q : ascii -> bool) f s,
  (forall c, p c = true -> q (f c) = true) ->
  Str.all p s = true -> Str.all q (Str.map f s) = true.
Proof.
  intros p q f s H; induction s as [|c s IH]; cbn [Str.all Str.map]; [reflexivity|].
  intros A. apply andb_true_iff in A as [Hc A]. now rewrite (H c Hc), IH.
Qed.

Lemma map_fixed : forall f g s,
  (forall c, f (g c) = g c) -> Str.map f (Str.map g s) = Str.map g s.
Proof.
  intros f g s H; induction s as [|c s IH]; cbn [Str.map]; [reflexivity|].
  now rewrite H, IH.
Qed.

Lemma topic_key_is_word : forall topic,
  Str.all topic_char topic = true ->
  Str.all subject_char (Str.replace " " "_" (Str.lower topic)) = true.
Proof.
  intros topic H. unfold Str.replace, Str.lower.
  apply (all_map (fun c => subject_char (if Ascii.eqb c " " then "_"%char else c))).
  - intros c Hc. exact Hc.
  - apply (all_map topic_char); [|exact H].
    intros [[] [] [] [] [] [] [] []]; vm_compute; intros E;
      first [reflexivity | discriminate].
Qed.

Lemma topic_key_is_lower : forall topic,
  Str.lower (Str.replace " " "_" (Str.lower topic))
  = Str.replace " " "_" (Str.lower topic).
Proof.
  intros topic. unfold Str.replace, Str.lower.
  induction topic as [|c s IH]; cbn [Str.map]; [reflexivity|].
  rewrite IH. f_equal.
  destruct c as [[] [] [] [] [] [] [] []]; vm_compute; reflexivity.
Qed.

Lemma topic_has_no_quote : forall topic,
  Str.all topic_char topic = true ->
  Str.all (fun c => negb (Char.one_of "'" c)) topic = true.
Proof.
  intros topic H. eapply all_weaken; [|exact H].
  intros [[] [] [] [] [] [] [] []]; vm_compute; intros E;
    first [reflexivity | discriminate].
Qed.

(** [ali learn\s+'([^']+)'\s+means\s+(.+)] on the command with a quoted
    topic and a trimmed explanation: found at the start, and the groups
    are the topic and the explanation. *)
Lemma learn_pattern_matches : forall cmd t0 ts c1 e1,
  Str.lower cmd = "ali learn" ->
  Str.all topic_char (String t0 ts) = true ->
  Char.is_space c1 = false ->
  no_newline (String c1 e1) = true ->
  exists m,
    re_search learn_pattern
      (cmd ++ " '" ++ String t0 ts ++ "' means " ++ String c1 e1) = Some m /\
    group 1 m = String t0 ts /\ group 2 m = String c1 e1.
Proof.
  intros cmd t0 ts c1 e1 Hcmd Htopic Hc1 Hnl.
  pose proof (topic_has_no_quote _ Htopic) as Hq.
  cbn [Str.all] in Hq. apply andb_true_iff in Hq as [Ht0 Hts].
  unfold no_newline in Hnl. cbn [Str.all] in Hnl.
  apply andb_true_iff in Hnl as [Hc1nl He1nl].
  assert (Em : exists m,
    rmatch learn_pattern
      (MState None (cmd ++ " '" ++ String t0 ts ++ "' means " ++ String c1 e1) []) Some
    = Some m /\ group 1 m = String t0 ts /\ group 2 m = String c1 e1).
  { eexists. split; [|split].
    - unfold learn_pattern. cbn [seqs]. rewrite rmatch_seq.
      rewrite rmatch_lit by (rewrite Hcmd; reflexivity).
      rewrite rmatch_seq.
      change (" '" ++ String t0 ts ++ "' means " ++ String c1 e1)
        with (String " " ("" ++ ("'" ++ String t0 (ts ++ "' means " ++ String c1 e1)))).
      apply rmatch_plus_greedy; [reflexivity|reflexivity|reflexivity|].
      rewrite rmatch_seq, rmatch_lit by reflexivity.
      rewrite rmatch_seq, rmatch_grp. unfold none_of.
      apply rmatch_plus_greedy; [exact Ht0|exact Hts|reflexivity|].
      rewrite rmatch_seq.
      change ("' means " ++ String c1 e1)
        with ("'" ++ String " " ("" ++ ("means" ++ String " " ("" ++ String c1 e1)))).
      unfold close_group at 1. cbn [before Re.rest groups].
      rewrite rmatch_lit by reflexivity.
      rewrite rmatch_seq.
      apply rmatch_plus_greedy; [reflexivity|reflexivity|reflexivity|].
      rewrite rmatch_seq, rmatch_lit by reflexivity.
      rewrite rmatch_seq.
      apply rmatch_plus_greedy; [reflexivity|reflexivity|cbn [stops]; now rewrite Hc1|].
      rewrite rmatch_grp. unfold dot.
      rewrite <- (append_nil_r e1) at 1.
      apply rmatch_plus_greedy; [exact Hc1nl|exact He1nl|reflexivity|reflexivity].
    - unfold group, close_group. cbn [groups lookup_group Nat.eqb].
      unfold taken. cbn [Re.rest].
      exact (take_app_diff (String t0 ts) ("' means " ++ String c1 e1)).
    - unfold group, close_group. cbn [groups lookup_group Nat.eqb].
      unfold taken. cbn [Re.rest String.length]. rewrite Nat.sub_0_r.
      apply (take_all (String c1 e1)). }
  destruct Em as (m & Em & G1 & G2). exists m. split; [|now split].
  unfold re_search.
  destruct (cmd ++ " '" ++ String t0 ts ++ "' means " ++ String c1 e1) eqn:E;
    cbn [search_at]; now rewrite Em.
Qed.

(** X15.  What is taught is told back.  Let the topic be ASCII, trimmed
    and made of the characters of a word and blanks, without quote, and the
    explanation a trimmed ASCII line.  On a well-formed chatbot, if no
    profile or relationship pattern occurs in "Ali learn '<topic>' means
    <explanation>" (the command in any case), [get_response] stores the
    explanation, without trailing marks, in the Knowledge Base under the
    topic lowered with blanks turned into underscores, and confirms it.
    Afterwards "what is <key>", every letter of it in either case and with
    any trailing marks, is answered "<Key>: <explanation>" from the
    Knowledge Base, provided the Fact Table has no entry of that name and
    the earlier extractors and the relationship resolver do not take the
    question. *)
Theorem knowledge_is_remembered :
  forall (cmd topic expl now1 : string) (b : AliChatbot),
    Str.is_ascii topic = true ->
    Str.is_ascii expl = true ->
    well_formed b = true ->
    Str.lower cmd = "ali learn" ->
    Str.all topic_char topic = true ->
    Str.strip topic = topic -> topic <> "" ->
    no_newline expl = true ->
    Str.strip expl = expl -> expl <> "" ->
    first_match patterns (cmd ++ " '" ++ topic ++ "' means " ++ expl) = None ->
    first_match rel_patterns (cmd ++ " '" ++ topic ++ "' means " ++ expl) = None ->
    exists b1,
      get_response now1 (cmd ++ " '" ++ topic ++ "' means " ++ expl) b
      = Some (JStr ("Nice! I learned that **"
                    ++ spaced (Str.replace " " "_" (Str.lower topic))
                    ++ "** means: " ++ Str.rstrip ".!?" expl ++ " ✅"), b1) /\
      Dict.get (Str.replace " " "_" (Str.lower topic)) (knowledge b1)
      = Some (JStr (Str.rstrip ".!?" expl)) /\
      forall (q asked marks now2 : string),
        Str.lower q = "what is" ->
        Str.lower asked = Str.replace " " "_" (Str.lower topic) ->
        Str.all (Char.one_of ".!?") marks = true ->
        first_match patterns (q ++ " " ++ asked ++ marks) = None ->
        first_match rel_patterns (q ++ " " ++ asked ++ marks) = None ->
        re_search learn_pattern (q ++ " " ++ asked ++ marks) = None ->
        re_search teach_pattern (q ++ " " ++ asked ++ marks) = None ->
        _answer_relationship_query b1 (q ++ " " ++ asked ++ marks) = Some None ->
        Dict.get (Str.replace " " "_" (Str.lower topic)) (facts b1) = None ->
        exists b2,
          get_response now2 (q ++ " " ++ asked ++ marks) b1
          = Some (JStr (Str.capitalize (spaced (Str.replace " " "_" (Str.lower topic)))
                        ++ ": " ++ Str.rstrip ".!?" expl), b2).
Proof.
  intros cmd topic expl now1 b _ _ W Hcmd Htopic Htstrip Htne Hnl Hstrip Hene P1 P2.
  destruct topic as [|t0 ts]; [now elim Htne|].
  destruct (strip_starts expl Hstrip Hene) as (c1 & e1 & -> & Hc1).
  pose proof (strip_rstrip _ c1 e1 Hstrip eq_refl) as Hr.
  pose proof (topic_key_is_word _ Htopic) as Hkey.
  set (topic := String t0 ts) in *. set (expl := String c1 e1) in *.
  set (key := Str.replace " " "_" (Str.lower topic)) in *.
  set (stored := Str.rstrip ".!?" expl) in *.
  set (text := cmd ++ " '" ++ topic ++ "' means " ++ expl) in *.
  assert (Hcmd0 : exists x cmd', cmd = String x cmd' /\ Char.is_space x = false).
  { destruct cmd as [|x cmd']; [discriminate|]. exists x, cmd'. split; [reflexivity|].
    apply lowered_letter_not_space.
    unfold Str.lower in Hcmd. cbn [Str.map] in Hcmd. injection Hcmd as -> _. reflexivity. }
  destruct Hcmd0 as (x & cmd' & Ecmd & Hx).
  assert (Htext : Str.strip text = text).
  { unfold Str.strip. rewrite lstrip_stopped
      by (subst text; rewrite Ecmd; cbn [append stops]; now rewrite Hx).
    subst text. apply rstrip_kept; [|discriminate].
    apply rstrip_kept; [|subst topic; discriminate].
    apply rstrip_kept; [|discriminate].
    apply (rstrip_kept _ "' means " expl Hr). subst expl. discriminate. }
  assert (Htxne : text <> "") by (subst text; rewrite Ecmd; discriminate).
  destruct (learn_pattern_matches cmd t0 ts c1 e1 Hcmd Htopic Hc1 Hnl)
    as (m & Em & G1 & G2).
  fold topic expl text in Em, G1, G2.
  assert (K1 : topic_key m = key)
    by (unfold topic_key; rewrite G1, Htstrip; reflexivity).
  assert (C2 : captured 2 m = stored)
    by (unfold captured; rewrite G2, Hstrip; reflexivity).
  destruct (well_formed_inv b W) as (fs & rs & ks & cs & Hf & Hrl & Hk & Hc & He).
  set (d1 := Dict.set "flexipdf_knowledge" (JObj (Dict.set key (JStr stored) ks)) (data b)).
  set (b0 := set_file (Parsed (JObj d1)) (set_data d1 b)).
  set (reply := "Nice! I learned that **" ++ spaced key ++ "** means: " ++ stored ++ " ✅").
  assert (S2 : _learn_flexipdf_knowledge text b = Some (Some reply, b0)).
  { unfold _learn_flexipdf_knowledge. rewrite Em, K1, C2.
    unfold teach. destruct b as [d c n f em ix]. run_bot.
    unfold setdefault, Dict.has. rewrite Hk. unfold store_in. rewrite Hk.
    reflexivity. }
  assert (W0 : well_formed b0 = true).
  { destruct b as [d c n f em ix]. subst b0 d1. run_bot.
    eapply well_formed_intro; run_bot.
    - rewrite get_set_other by discriminate. eassumption.
    - rewrite get_set_other by discriminate. eassumption.
    - apply get_set_same.
    - rewrite get_set_other by discriminate. eassumption.
    - exact He. }
  destruct (remember_returns now1 text (JStr reply) b0 W0) as (b1 & R & W1 & Hother).
  assert (Hkb : Dict.get "flexipdf_knowledge" (data b1)
                = Some (JObj (Dict.set key (JStr stored) ks))).
  { rewrite Hother by discriminate. subst b0 d1.
    destruct b as [d c n f em ix]. run_bot. apply get_set_same. }
  exists b1. split; [|split].
  - rewrite get_response_text by assumption.
    rewrite (stage_none _ _ _ _ b b) by (apply structured_none; assumption).
    rewrite (stage_some _ _ _ _ b b0 reply S2) by discriminate.
    unfold log_and_return, bind. now rewrite R.
  - unfold knowledge. rewrite Hkb. apply get_set_same.
  - intros q asked marks now2 Hq Hasked Hmarks Q1 Q2 Q3 Q4 Qrel Qfact.
    fold key in Hasked.
    set (query := q ++ " " ++ asked ++ marks) in *.
    destruct (marks_are_printed _ Hmarks) as (Msp & _).
    assert (Hkne : exists k0 ks0, key = String k0 ks0).
    { subst key topic. unfold Str.replace, Str.lower. cbn [Str.map]. now eexists; eexists. }
    destruct Hkne as (k0 & ks0 & Ekey).
    assert (Hsub' : Str.all subject_char asked = true)
      by (rewrite <- subject_char_lower, Hasked; exact Hkey).
    destruct (subject_char_split _ Hsub') as (Hsp' & _).
    assert (Hane : exists a0 as0, asked = String a0 as0).
    { destruct asked as [|a0 as0]; [rewrite Ekey in Hasked; discriminate|].
      now exists a0, as0. }
    destruct Hane as (a0 & as0 & Easked).
    assert (Hqne0 : exists y q', q = String y q' /\ Char.is_space y = false).
    { destruct q as [|y q']; [discriminate|]. exists y, q'. split; [reflexivity|].
      apply lowered_letter_not_space.
      unfold Str.lower in Hq. cbn [Str.map] in Hq. injection Hq as -> _. reflexivity. }
    destruct Hqne0 as (y & q' & Eqq & Hy).
    assert (Hstq : Str.strip query = query).
    { unfold Str.strip. rewrite lstrip_stopped
        by (subst query; rewrite Eqq; cbn [append stops]; now rewrite Hy).
      subst query. apply rstrip_kept; [|discriminate].
      apply rstrip_kept; [|rewrite Easked; discriminate].
      apply rstrip_none. now rewrite all_split, Hsp', Msp. }
    assert (Hqne : query <> "") by (subst query; rewrite Eqq; discriminate).
    destruct (what_is_guarded q (" " ++ asked ++ marks) Hq) as (g & Eg).
    fold query in Eg.
    rewrite Easked in Hsub'.
    destruct (fact_query_matches q a0 as0 marks Hq Hsub' Hmarks) as (mq & Eq & Cq).
    rewrite <- Easked in Eq, Cq. fold query in Eq.
    destruct (well_formed_inv b1 W1) as (fs1 & rs1 & ks1 & cs1 & Hf1 & _ & _ & _).
    unfold facts in Qfact. rewrite Hf1 in Qfact.
    set (answer := Str.capitalize (spaced key) ++ ": " ++ stored).
    assert (A5 : _answer_fact_query b1 query = Some (Some answer)).
    { unfold _answer_fact_query, get_map. rewrite Eq, Cq, Hasked, Hf1, Hkb, Qfact.
      rewrite get_set_same. reflexivity. }
    destruct (remember_returns now2 query (JStr answer) b1 W1) as (b2 & R2 & _).
    exists b2.
    rewrite get_response_text by assumption.
    rewrite (stage_none _ _ _ _ b1 b1) by (apply structured_none; assumption).
    rewrite (stage_none _ _ _ _ b1 b1) by (apply knowledge_none; assumption).
    rewrite (stage_none _ _ _ _ b1 b1) by (eapply guarded_none; eassumption).
    rewrite (stage_none _ _ _ _ b1 b1)
      by (unfold ask, bind, self, lift; rewrite Qrel; reflexivity).
    rewrite (stage_some _ _ _ _ b1 b1 answer).
    + unfold log_and_return, bind. now rewrite R2.
    + unfold ask, bind, self, lift. now rewrite A5.
    + subst answer. rewrite Ekey. unfold spaced, Str.replace. cbn [Str.map Str.capitalize].
      discriminate.
Qed.

Lemma knowledge_is_remembered_witness :
  exists b1 b2,
    get_response "t1" "Ali learn 'pdf join' means put several PDFs together." fresh_bot
    = Some (JStr "Nice! I learned that **pdf join** means: put several PDFs together ✅", b1) /\
    get_response "t2" "What Is PDF_Join?" b1
    = Some (JStr "Pdf join: put several PDFs together", b2).
Proof.
  destruct (knowledge_is_remembered "Ali learn" "pdf join" "put several PDFs together."
              "t1" fresh_bot) as (b1 & E1 & _ & Q).
  - reflexivity.
  - reflexivity.
  - vm_compute. reflexivity.
  - reflexivity.
  - vm_compute. reflexivity.
  - vm_compute. reflexivity.
  - discriminate.
  - vm_compute. reflexivity.
  - vm_compute. reflexivity.
  - discriminate.
  - vm_compute. reflexivity.
  - vm_compute. reflexivity.
  - assert (B : Some b1 = option_map snd
                  (get_response "t1"
                     ("Ali learn" ++ " '" ++ "pdf join" ++ "' means "
                      ++ "put several PDFs together.") fresh_bot))
      by (rewrite E1; reflexivity).
    vm_compute in B. injection B as B.
    destruct (Q "What Is" "PDF_Join" "?" "t2") as (b2 & E2).
    + reflexivity.
    + reflexivity.
    + reflexivity.
    + vm_compute. reflexivity.
    + vm_compute. reflexivity.
    + vm_compute. reflexivity.
    + vm_compute. reflexivity.
    + rewrite B. vm_compute. reflexivity.
    + rewrite B. vm_compute. reflexivity.
    + exists b1, b2. split; [exact E1|exact E2].
Defined.

(** ** Recalling what was said *)

Lemma deque_append_newest : forall (A : Type) n (d : list A) x,
  0 < n -> exists d0, deque_append n d x = (d0 ++ [x])%list.
Proof.
  intros A n d x Hn. unfold deque_append.
  destruct (Nat.eqb_spec n 0); [lia|].
  destruct (List.length d <? n)%nat; eexists; reflexivity.
Qed.

(** X16.  The Context Buffer is what "earlier" refers to.  After
    [get_response] has answered an ASCII input of more than two words, on a
    chatbot whose buffer has room for at least one entry, any ASCII line
    with a time cue (yesterday, earlier, before, last time, you told me) is
    resolved by [_contextual_reference] to that input, quoted. *)
Theorem latest_input_is_recalled :
  forall (now input : string) (b : AliChatbot) (reply : json) (b' : AliChatbot)
         (line : string),
    Str.is_ascii input = true ->
    Str.is_ascii line = true ->
    Str.strip input <> "" ->
    get_response now input b = Some (reply, b') ->
    0 < ctx_size b ->
    2 < Str.count_words (Str.strip input) ->
    existsb (fun tok => Str.contains tok (Str.lower line)) time_cues = true ->
    _contextual_reference b' line
    = Some (Some ("You mentioned earlier: " ++ quoted (Str.strip input)
                  ++ " — would you like to continue that topic?")).
Proof.
  intros now input b reply b' line _ _ Hne H Hn Hwords Hcue.
  apply (answered_logs_once now input Hne) in H as (b_mid & (_ & _ & Ln) & R).
  apply remember_effect in R as (_ & Rx & _).
  destruct (deque_append_newest _ (ctx_size b_mid) (context b_mid)
              (Exchange (Str.strip input) reply now)) as (d0 & Ed);
    [rewrite Ln; exact Hn|].
  unfold _contextual_reference. rewrite Hcue, Rx, Ed, rev_app_distr.
  cbn [rev app latest_long_input ex_user].
  now rewrite (proj2 (Nat.ltb_lt _ _) Hwords).
Qed.

Lemma latest_input_is_recalled_witness :
  exists reply b',
    get_response "t" "I scanned three old contracts" sample_bot = Some (reply, b') /\
    _contextual_reference b' "what was I doing earlier?"
    = Some (Some ("You mentioned earlier: " ++ quoted "I scanned three old contracts"
                  ++ " — would you like to continue that topic?")).
Proof.
  destruct (get_response "t" "I scanned three old contracts" sample_bot)
    as [[reply b']|] eqn:E; [|vm_compute in E; discriminate].
  exists reply, b'. split; [reflexivity|].
  apply (latest_input_is_recalled "t" "I scanned three old contracts" sample_bot reply b'
           "what was I doing earlier?").
  - reflexivity.
  - reflexivity.
  - vm_compute. discriminate.
  - exact E.
  - cbn. lia.
  - vm_compute. lia.
  - vm_compute. reflexivity.
Defined.





Lemma single_write_footprint : forall d d' k,
  single_write d d' ->
  ~ In k (List.map snd patterns) ->
  ~ In k ["facts"; "relationships"; "flexipdf_knowledge"; "conversations"] ->
  Dict.get k d' = Dict.get k d.
Proof.
  intros d d' k [|key v Hkey|t k0 v Ht] Hp Htab; [reflexivity| |].
  - apply get_set_other. intros ->. now apply Hp.
  - apply get_set_other. intros ->. apply Htab. simpl in *. tauto.
Qed.

(** X18.  The fields a call can touch.  [get_response] writes only the
    keys of the profile patterns (user_name, country, city, favorite_color,
    hobby, likes, age), the three tables and the log: every other key of
    the store - [language] and [meta] among them - has after the call the
    value it had before, whatever the input. *)
Theorem get_response_write_footprint :
  forall (now input : string) (b : AliChatbot) (reply : json) (b' : AliChatbot)
         (k : string),
    get_response now input b = Some (reply, b') ->
    ~ In k (List.map snd patterns) ->
    ~ In k ["facts"; "relationships"; "flexipdf_knowledge"; "conversations"] ->
    Dict.get k (data b') = Dict.get k (data b).
Proof.
  intros now input b reply b' k H Hp Htab.
  destruct (String.eqb_spec (Str.strip input) "") as [E|Hne].
  - unfold get_response in H. rewrite E, String.eqb_refl, orb_true_r in H.
    now injection H as _ <-.
  - apply (get_response_answers_once now input Hne) in H as (b_mid & Hmid & R & _).
    apply remember_inv in R as (d' & ix & Hlog & ->). cbn [data].
    rewrite (log_entry_keeps _ _ _ k Hlog)
      by (intros ->; apply Htab; simpl; tauto).
    destruct Hmid as [->|(d0 & Hw & ->)]; [reflexivity|].
    destruct b as [d c n f em ix0]. cbn [data set_data set_file] in *.
    now apply single_write_footprint.
Qed.

Lemma get_response_write_footprint_witness :
  exists reply b',
    get_response "t" "My language is Pashto" fresh_bot = Some (reply, b') /\
    Dict.get "language" (data b') = Some JNull.
Proof.
  destruct (get_response "t" "My language is Pashto" fresh_bot)
    as [[reply b']|] eqn:E; [|vm_compute in E; discriminate].
  exists reply, b'. split; [reflexivity|].
  rewrite (get_response_write_footprint "t" "My language is Pashto" fresh_bot reply b'
             "language" E).
  - vm_compute. reflexivity.
  - cbv [patterns List.map snd In]. intros H.
    repeat (destruct H as [H|H]; [discriminate|]). exact H.
  - cbv [In]. intros H.
    repeat (destruct H as [H|H]; [discriminate|]). exact H.
Defined.


(** ** C8: the Knowledge Base after a reset *)















